(** * Booking validation, pricing and review sentiment of [hotel.py]

    A shallow embedding of the decision logic of the hotel management
    program: [is_valid_date], [is_valid_phone], [validate_inputs],
    [calculate_price] and [analyze_sentiment], together with the pieces
    of the Python runtime they call ([str.strip], [re.match],
    [datetime.strptime], date arithmetic, [in] on strings, [str.join]).

    Python strings are sequences of Unicode code points; they are
    modelled as lists of code points.  Integers are unbounded ([Z]).
    Exceptions are modelled by an error monad. *)

From Stdlib Require Import ZArith NArith List String Ascii Bool Lia QArith.
Import ListNotations.

Open Scope Z_scope.

(** ** Python runtime: exceptions *)

Module Py.

Inductive exn : Type :=
| ValueError
| OverflowError.

Inductive result (A : Type) : Type :=
| Return (a : A)
| Raise (e : exn).

Arguments Return {A} a.
Arguments Raise {A} e.

Definition bind {A B : Type} (c : result A) (k : A -> result B) : result B :=
  match c with
  | Return a => k a
  | Raise e => Raise e
  end.

(** [try: c  except ValueError: h] *)
Definition try_except_ValueError {A : Type} (c : result A) (h : result A)
  : result A :=
  match c with
  | Raise ValueError => h
  | other => other
  end.

(** [try: c  except Exception: h] *)
Definition try_except_Exception {A : Type} (c : result A) (h : result A)
  : result A :=
  match c with
  | Raise _ => h
  | other => other
  end.

Declare Scope py_scope.
Delimit Scope py_scope with py.
Notation "x <- c ;; k" := (bind c (fun x => k))
  (at level 61, c at next level, right associativity) : py_scope.

(** ** Python runtime: strings *)

(** A [str] is a sequence of code points. *)
Definition str : Type := list N.

(** A literal of the source, written as a Rocq string of ASCII characters. *)
Definition lit (s : string) : str := map N_of_ascii (list_ascii_of_string s).

Definition str_eqb (a b : str) : bool :=
  if list_eq_dec N.eq_dec a b then true else false.

(** Truth value of a string: [bool(s)] is [len(s) != 0]. *)
Definition truthy (s : str) : bool :=
  match s with
  | [] => false
  | _ :: _ => true
  end.

(** [str.isspace] on one code point: the table of
    [_PyUnicode_IsWhitespace]. *)
Definition isspace (c : N) : bool :=
  ( ((0x09 <=? c) && (c <=? 0x0D))
 || ((0x1C <=? c) && (c <=? 0x20))
 || (c =? 0x85) || (c =? 0xA0) || (c =? 0x1680)
 || ((0x2000 <=? c) && (c <=? 0x200A))
 || (c =? 0x2028) || (c =? 0x2029) || (c =? 0x202F)
 || (c =? 0x205F) || (c =? 0x3000) )%N.

Fixpoint lstrip (s : str) : str :=
  match s with
  | [] => []
  | c :: s' => if isspace c then lstrip s' else s
  end.

Definition rstrip (s : str) : str := rev (lstrip (rev s)).

(** [s.strip()]: leading and trailing whitespace removed. *)
Definition strip (s : str) : str := rstrip (lstrip s).

(** [s.startswith(p)] *)
Fixpoint startswith (s p : str) : bool :=
  match p, s with
  | [], _ => true
  | _ :: _, [] => false
  | a :: p', b :: s' => (a =? b)%N && startswith s' p'
  end.

(** [sub in s]: substring containment. *)
Fixpoint contains (s sub : str) : bool :=
  startswith s sub ||
  match s with
  | [] => false
  | _ :: s' => contains s' sub
  end.

(** [sep.join(xs)] *)
Fixpoint join (sep : str) (xs : list str) : str :=
  match xs with
  | [] => []
  | [x] => x
  | x :: rest => x ++ sep ++ join sep rest
  end.

(** [x in xs] for a list of strings. *)
Definition str_in (x : str) (xs : list str) : bool := existsb (str_eqb x) xs.

(** [d.get(k, default)] on a dict with string keys, as an association
    list in insertion order. *)
Fixpoint dict_get {V : Type} (d : list (str * V)) (k : str) (default : V) : V :=
  match d with
  | [] => default
  | (k', v) :: d' => if str_eqb k' k then v else dict_get d' k default
  end.

(** [sum(1 for x in xs if p(x))] *)
Fixpoint count_if {A : Type} (p : A -> bool) (xs : list A) : Z :=
  match xs with
  | [] => 0
  | x :: xs' => (if p x then 1 else 0) + count_if p xs'
  end.

End Py.

(** ** Python runtime: regular expressions

    A backtracking matcher for the fragment of [re] that the program
    and [datetime.strptime] use.  Alternatives are tried in order and
    [?] is greedy, as in [re]. *)

Module Regex.
Import Py.

Inductive re : Type :=
| Chr (c : N)                  (* a literal character *)
| Cls (p : N -> bool)          (* a character class: [a-b], \d *)
| Cat (a b : re)               (* ab *)
| Alt (a b : re)               (* a|b *)
| Opt (a : re)                 (* a? *)
| Rep (n : nat) (a : re)       (* a{n} *)
| Group (name : string) (a : re)   (* (a), (?P<name>a) *)
| Bos                          (* ^ *)
| Eos.                         (* $ *)

Definition captures : Type := list (string * str).

(** [run r pos s cs k] matches [r] against [s], which starts at offset
    [pos] of the subject, and hands the rest to the continuation [k];
    a failing continuation makes the matcher backtrack. *)
Fixpoint run {A : Type} (r : re) (pos : nat) (s : str) (cs : captures)
    (k : nat -> str -> captures -> option A) {struct r} : option A :=
  match r with
  | Chr c =>
      match s with
      | x :: s' => if (x =? c)%N then k (S pos) s' cs else None
      | [] => None
      end
  | Cls p =>
      match s with
      | x :: s' => if p x then k (S pos) s' cs else None
      | [] => None
      end
  | Cat a b => run a pos s cs (fun pos' s' cs' => run b pos' s' cs' k)
  | Alt a b =>
      match run a pos s cs k with
      | Some m => Some m
      | None => run b pos s cs k
      end
  | Opt a =>
      match run a pos s cs k with
      | Some m => Some m
      | None => k pos s cs
      end
  | Rep n a =>
      (fix rep (n : nat) (pos : nat) (s : str) (cs : captures) : option A :=
         match n with
         | O => k pos s cs
         | S n' => run a pos s cs (fun pos' s' cs' => rep n' pos' s' cs')
         end) n pos s cs
  | Group name a =>
      run a pos s cs
        (fun pos' s' cs' => k pos' s' ((name, firstn (pos' - pos) s) :: cs'))
  | Bos => if Nat.eqb pos 0 then k pos s cs else None
  | Eos =>
      (* at the end of the string, or just before a newline that ends it *)
      match s with
      | [] => k pos s cs
      | [c] => if (c =? 10)%N then k pos s cs else None
      | _ => None
      end
  end.

(** [re.match(r, s)]: the end offset and the groups of the first match
    that starts at offset 0, or [None]. *)
Definition re_match (r : re) (s : str) : option (nat * captures) :=
  run r 0%nat s [] (fun pos _ cs => Some (pos, cs)).

(** [m.group(name)] / [m.groupdict()[name]] *)
Fixpoint group (cs : captures) (name : string) : str :=
  match cs with
  | [] => []
  | (n, v) :: cs' => if String.eqb n name then v else group cs' name
  end.

Definition chr (a : ascii) : re := Chr (N_of_ascii a).

(** The class [[a-b]]. *)
Definition rng (a b : ascii) : re :=
  Cls (fun c => (N_of_ascii a <=? c)%N && (c <=? N_of_ascii b)%N).

End Regex.

(** ** Python runtime: Unicode decimal digits, [int], dates *)

Module Datetime.
Import Py Regex.

Section Unicode.

(** The decimal digit value of a code point in the Unicode database of
    the interpreter ([unicodedata.decimal]), if it has one (category
    Nd).  The database is not part of the program. *)
Variable decimal : N -> option N.

(** [\d] in a [str] pattern: any Unicode decimal digit. *)
Definition isdecimal (c : N) : bool :=
  match decimal c with
  | Some _ => true
  | None => false
  end.

Definition digit : re := Cls isdecimal.

Fixpoint digits_value (acc : Z) (s : str) : option Z :=
  match s with
  | [] => Some acc
  | c :: s' =>
      match decimal c with
      | Some v => digits_value (10 * acc + Z.of_N v) s'
      | None => None
      end
  end.

(** [int(s)] for an unsigned decimal numeral with optional surrounding
    whitespace, the only strings the groups of the date pattern hold. *)
Definition int (s : str) : result Z :=
  match strip s with
  | [] => Raise ValueError
  | ds =>
      match digits_value 0 ds with
      | Some v => Return v
      | None => Raise ValueError
      end
  end.

End Unicode.

(** A calendar date ([datetime.date]; [datetime.datetime] at midnight). *)
Record date : Type := mkdate { year : Z; month : Z; day : Z }.

Definition MINYEAR : Z := 1.
Definition MAXYEAR : Z := 9999.

Definition is_leap (y : Z) : bool :=
  (y mod 4 =? 0) && (negb (y mod 100 =? 0) || (y mod 400 =? 0)).

Definition DAYS_IN_MONTH : list Z :=
  [-1; 31; 28; 31; 30; 31; 30; 31; 31; 30; 31; 30; 31].

Definition DAYS_BEFORE_MONTH : list Z :=
  [-1; 0; 31; 59; 90; 120; 151; 181; 212; 243; 273; 304; 334].

Definition days_in_month (y m : Z) : Z :=
  if (m =? 2) && is_leap y then 29
  else nth (Z.to_nat m) DAYS_IN_MONTH 0.

(** Number of days in year [y]. *)
Definition year_length (y : Z) : Z := if is_leap y then 366 else 365.

(** Number of days before January 1st of year [y]. *)
Definition days_before_year (y : Z) : Z :=
  let y' := y - 1 in
  y' * 365 + y' / 4 - y' / 100 + y' / 400.

(** Number of days in year [y] before the first day of month [m]. *)
Definition days_before_month (y m : Z) : Z :=
  nth (Z.to_nat m) DAYS_BEFORE_MONTH 0
  + (if (m >? 2) && is_leap y then 1 else 0).

(** [date.toordinal()]: 0001-01-01 is day 1. *)
Definition toordinal (d : date) : Z :=
  days_before_year (year d) + days_before_month (year d) (month d) + day d.

(** The constructor [date(year, month, day)] with its range checks. *)
Definition date_new (y m d : Z) : result date :=
  if negb ((MINYEAR <=? y) && (y <=? MAXYEAR)) then Raise ValueError
  else if negb ((1 <=? m) && (m <=? 12)) then Raise ValueError
  else if negb ((1 <=? d) && (d <=? days_in_month y m)) then Raise ValueError
  else Return (mkdate y m d).

(** Comparison of dates is comparison of [(year, month, day)]. *)
Definition date_cmp (a b : date) : comparison :=
  match year a ?= year b with
  | Eq => match month a ?= month b with
          | Eq => day a ?= day b
          | c => c
          end
  | c => c
  end.

Definition date_lt (a b : date) : bool :=
  match date_cmp a b with Lt => true | _ => false end.

Definition date_le (a b : date) : bool :=
  match date_cmp a b with Gt => false | _ => true end.

(** [(b - a).days] *)
Definition days_between (b a : date) : Z := toordinal b - toordinal a.

Section Strptime.

Variable decimal : N -> option N.

(** The pattern [_strptime] compiles for the format ["%d-%m-%Y"]:
    [(?P<d>3[0-1]|[1-2]\d|0[1-9]|[1-9]| [1-9])-(?P<m>1[0-2]|0[1-9]|[1-9])-(?P<Y>\d\d\d\d)] *)
Definition re_d : re :=
  Group "d"
    (Alt (Cat (chr "3") (rng "0" "1"))
    (Alt (Cat (rng "1" "2") (digit decimal))
    (Alt (Cat (chr "0") (rng "1" "9"))
    (Alt (rng "1" "9")
         (Cat (chr " ") (rng "1" "9")))))).

Definition re_m : re :=
  Group "m"
    (Alt (Cat (chr "1") (rng "0" "2"))
    (Alt (Cat (chr "0") (rng "1" "9"))
         (rng "1" "9"))).

Definition re_Y : re :=
  Group "Y" (Cat (digit decimal) (Cat (digit decimal)
            (Cat (digit decimal) (digit decimal)))).

Definition re_dmY : re :=
  Cat re_d (Cat (chr "-") (Cat re_m (Cat (chr "-") re_Y))).

(** [datetime.strptime(s, "%d-%m-%Y")]: the pattern must match at the
    start of [s] and consume all of it; the fields are converted with
    [int] and checked by the date constructor. *)
Definition strptime_dmY (s : str) : result date :=
  match re_match re_dmY s with
  | None => Raise ValueError
  | Some (stop, cs) =>
      if negb (Nat.eqb (List.length s) stop) then Raise ValueError
      else
        (d <- int decimal (group cs "d") ;;
         m <- int decimal (group cs "m") ;;
         y <- int decimal (group cs "Y") ;;
         date_new y m d)%py
  end.

End Strptime.

(** The ASCII digit of [n mod 10]. *)
Definition digit_char (n : Z) : N := Z.to_N (48 + n mod 10).

Definition zero_pad2 (n : Z) : str := [digit_char (n / 10); digit_char n].

Definition zero_pad4 (n : Z) : str :=
  [digit_char (n / 1000); digit_char (n / 100); digit_char (n / 10);
   digit_char n].

(** The date literal DD-MM-YYYY: day, month and year zero-padded and
    separated by hyphens, as [d.strftime("%d-%m-%Y")] writes a date
    with a year of four digits. *)
Definition strftime_dmY (d : date) : str :=
  zero_pad2 (day d) ++ lit "-" ++ zero_pad2 (month d) ++ lit "-" ++
  zero_pad4 (year d).

End Datetime.

(** ** The program *)

Module Hotel.
Import Py Regex Datetime.

Open Scope py_scope.

(** *** Floating-point values, as far as the program compares them *)

(** A Python [float]: not-a-number, an infinity, or a finite value. *)
Inductive float : Type :=
| FNan
| FInf (negative : bool)
| FFin (q : Q).

(** [a <= b]; every comparison with a NaN is false. *)
Definition float_le (a b : float) : bool :=
  match a, b with
  | FNan, _ | _, FNan => false
  | FInf true, _ => true
  | _, FInf false => true
  | FInf false, _ => false
  | _, FInf true => false
  | FFin x, FFin y => Qle_bool x y
  end.

(** [a >= b] *)
Definition float_ge (a b : float) : bool := float_le b a.

(** The literal [0.05], a double: 3602879701896397 / 2^56. *)
Definition f_0_05 : float := FFin (3602879701896397 # 72057594037927936).
Definition f_neg_0_05 : float := FFin (-3602879701896397 # 72057594037927936).
Definition f_0 : float := FFin 0.

(** The labels [analyze_sentiment] returns, the strings ["Positive"],
    ["Negative"] and ["Neutral"]. *)
Inductive sentiment : Type := Positive | Negative | Neutral.

(** *** Constants *)

Definition ROOM_TYPES : list str := [lit "Single"; lit "Double"; lit "Luxury"].

Definition ROOM_PRICES : list (str * Z) :=
  [(lit "Single", 2000); (lit "Double", 5000); (lit "Luxury", 10000)].

(** The newline character, ["\n"]. *)
Definition NL : str := [10%N].

Definition msg_name : str := lit "Customer name is required.".
Definition msg_phone : str :=
  lit "Phone number should be 10 digits (optional + at start).".
Definition msg_room : str := lit "Select a valid room type.".
Definition msg_check_in : str := lit "Check-in must be in DD-MM-YYYY format.".
Definition msg_check_out : str := lit "Check-out must be in DD-MM-YYYY format.".
Definition msg_past : str := lit "Check-in date cannot be in the past.".
Definition msg_order : str := lit "Check-out must be after Check-in.".
Definition msg_max_stay : str := lit "Maximum stay duration is 30 days.".
Definition msg_price_positive : str := lit "Price must be positive.".
Definition msg_price_number : str := lit "Price must be a number.".

Definition positive_words : list str :=
  [lit "good"; lit "great"; lit "excellent"; lit "amazing"; lit "wonderful";
   lit "fantastic"; lit "nice"].

Definition negative_words : list str :=
  [lit "bad"; lit "terrible"; lit "awful"; lit "horrible"; lit "poor";
   lit "disappointing"].

Section Program.

(** What the program takes from outside its source: the Unicode
    database ([decimal]; [str_lower] is [str.lower]), the conversion
    [float(s)] ([None] where it raises [ValueError]), and the VADER
    analyzer with the flag that records whether it could be imported. *)
Variable decimal : N -> option N.
Variable float_of_str : str -> option float.
Variable str_lower : str -> str.
Variable USE_VADER : bool.
Variable vader_compound : str -> float.

(** [float(s)] on a string: the parsed value, or [ValueError]. *)
Definition float_ (s : str) : result float :=
  match float_of_str s with
  | Some x => Return x
  | None => Raise ValueError
  end.

(** [is_valid_date] *)
Definition is_valid_date (date_str : str) : result bool :=
  try_except_ValueError
    (_ <- strptime_dmY decimal date_str ;; Return true)
    (Return false).

(** The pattern [r'^(\+?\d{10})$']. *)
Definition phone_pattern : re :=
  Cat Bos (Cat (Group "1" (Cat (Opt (chr "+")) (Rep 10 (digit decimal)))) Eos).

(** [is_valid_phone] *)
Definition is_valid_phone (phone : str) : bool :=
  if negb (truthy (strip phone)) then true
  else
    match re_match phone_pattern phone with
    | Some _ => true
    | None => false
    end.

(** [validate_inputs]; [today] is [datetime.now().date()]. *)
Definition validate_inputs (today : date)
    (name phone room_type check_in check_out price_str : str)
  : result (bool * str) :=
  let errors : list str := [] in
  let errors :=
    if negb (truthy (strip name)) then errors ++ [msg_name] else errors in
  let errors :=
    if negb (is_valid_phone phone) then errors ++ [msg_phone] else errors in
  let errors :=
    if negb (truthy room_type) || negb (str_in room_type ROOM_TYPES)
    then errors ++ [msg_room] else errors in
  in_ok <- is_valid_date check_in ;;
  let errors := if negb in_ok then errors ++ [msg_check_in] else errors in
  out_ok <- is_valid_date check_out ;;
  let errors := if negb out_ok then errors ++ [msg_check_out] else errors in
  match errors with
  | _ :: _ => Return (false, join NL errors)
  | [] =>
      check_in_dt <- strptime_dmY decimal check_in ;;
      check_out_dt <- strptime_dmY decimal check_out ;;
      let errors :=
        if date_lt check_in_dt today then errors ++ [msg_past] else errors in
      let errors :=
        if date_le check_out_dt check_in_dt
        then errors ++ [msg_order] else errors in
      let errors :=
        if days_between check_out_dt check_in_dt >? 30
        then errors ++ [msg_max_stay] else errors in
      errors <-
        try_except_ValueError
          (price <- float_ price_str ;;
           Return (if float_le price f_0
                   then errors ++ [msg_price_positive] else errors))
          (Return (errors ++ [msg_price_number])) ;;
      match errors with
      | _ :: _ => Return (false, join NL errors)
      | [] => Return (true, lit "")
      end
  end.

(** [calculate_price]; the sentinel [None] is [Return None]. *)
Definition calculate_price (check_in check_out room_type : str)
  : result (option Z) :=
  try_except_Exception
    (dt_in <- strptime_dmY decimal check_in ;;
     dt_out <- strptime_dmY decimal check_out ;;
     let days := days_between dt_out dt_in in
     if days <=? 0 then Return None
     else
       let base_price := dict_get ROOM_PRICES room_type 0 * days in
       Return (Some base_price))
    (Return None).

(** [analyze_sentiment]; [review] may be [None]. *)
Definition analyze_sentiment (review : option str) : sentiment :=
  let text :=
    strip (match review with
           | Some s => if truthy s then s else lit ""
           | None => lit ""
           end) in
  if negb (truthy text) then Neutral
  else if USE_VADER then
    let compound := vader_compound text in
    if float_ge compound f_0_05 then Positive
    else if float_le compound f_neg_0_05 then Negative
    else Neutral
  else
    let text_lower := str_lower text in
    let positive_count :=
      count_if (fun word => contains text_lower word) positive_words in
    let negative_count :=
      count_if (fun word => contains text_lower word) negative_words in
    if positive_count >? negative_count then Positive
    else if negative_count >? positive_count then Negative
    else Neutral.

End Program.

End Hotel.

(** ** The ASCII part of the Unicode tables

    On ASCII code points every version of the Unicode database agrees:
    the decimal digits are [0-9], and [str.lower] maps [A-Z] to [a-z]
    and leaves an ASCII string otherwise unchanged. *)

Module Unicode.
Import Py Datetime Hotel.

Definition ascii_decimal (c : N) : option N :=
  if ((48 <=? c) && (c <=? 57))%N then Some (c - 48)%N else None.

Definition ascii_lower_char (c : N) : N :=
  if ((65 <=? c) && (c <=? 90))%N then (c + 32)%N else c.

Definition ascii_lower (s : str) : str := map ascii_lower_char s.

Definition is_ascii (s : str) : bool := forallb (fun c => (c <? 128)%N) s.

Definition decimal_on_ascii (decimal : N -> option N) : Prop :=
  forall c, (c < 128)%N -> decimal c = ascii_decimal c.

Definition lower_on_ascii (str_lower : str -> str) : Prop :=
  forall s, is_ascii s = true -> str_lower s = ascii_lower s.

(** [float(s)] restricted to unsigned ASCII integer numerals such as
    ["5000"]; a sample conversion for concrete runs. *)
Definition numeral_float (s : str) : option float :=
  match int ascii_decimal s with
  | Return z => Some (FFin (inject_Z z))
  | Raise _ => None
  end.

End Unicode.

(** ** The rules of the specification, in terms of the program's checks *)

Module Rules.
Import Py Regex Datetime Hotel.

Section Rules.

Variable decimal : N -> option N.
Variable float_of_str : str -> option float.

(** A date string parses as DD-MM-YYYY. *)
Definition parses (s : str) : bool :=
  match strptime_dmY decimal s with
  | Return _ => true
  | Raise _ => false
  end.

(** Ten digits, then the end of the string or one final newline:
    what [\d{10}$] accepts. *)
Definition ten_digits_eos (s : str) : bool :=
  (10 <=? List.length s)%nat && forallb (isdecimal decimal) (firstn 10 s) &&
  match skipn 10 s with
  | [] => true
  | [c] => (c =? 10)%N
  | _ => false
  end.

(** Exactly ten digits. *)
Definition ten_digits (s : str) : bool :=
  Nat.eqb (List.length s) 10 && forallb (isdecimal decimal) s.

(** The phone format of the specification: an optional leading [+]
    followed by exactly ten digits and nothing else. *)
Definition phone_format (s : str) : bool :=
  ten_digits s ||
  match s with
  | c :: t => (c =? 43)%N && ten_digits t
  | [] => false
  end.

(** The continuation of the group of the phone pattern: [$], then
    success. *)
Definition phone_tail (s : str) (pos : nat) (s' : str) (cs : captures)
  : option (nat * captures) :=
  run Eos pos s' (("1"%string, firstn (pos - 0) s) :: cs)
    (fun pos' _ cs' => Some (pos', cs')).

(** Rules 1 to 5, as the program tests them; rule 2 is the program's
    [is_valid_phone]. *)
Definition name_ok (name : str) : bool := truthy (strip name).
Definition phone_ok (phone : str) : bool := is_valid_phone decimal phone.
Definition room_ok (room : str) : bool := str_in room ROOM_TYPES.
Definition check_in_ok (check_in : str) : bool := parses check_in.
Definition check_out_ok (check_out : str) : bool := parses check_out.

(** Rules 1 to 5 all pass. *)
Definition rules_1_to_5_pass (name phone room check_in check_out : str)
  : bool :=
  name_ok name && phone_ok phone && room_ok room &&
  check_in_ok check_in && check_out_ok check_out.

(** The messages of the failing rules among 1 to 5, in rule order. *)
Definition phase1_messages (name phone room check_in check_out : str)
  : list str :=
  (if name_ok name then [] else [msg_name]) ++
  (if phone_ok phone then [] else [msg_phone]) ++
  (if room_ok room then [] else [msg_room]) ++
  (if check_in_ok check_in then [] else [msg_check_in]) ++
  (if check_out_ok check_out then [] else [msg_check_out]).

(** Rules 6 to 9, on the parsed dates. *)
Definition not_past_ok (today check_in : date) : bool :=
  negb (date_lt check_in today).
Definition order_ok (check_in check_out : date) : bool :=
  date_lt check_in check_out.
Definition stay_ok (check_in check_out : date) : bool :=
  days_between check_out check_in <=? 30.

(** Rule 9, as the program tests it: [float] succeeds and
    [price <= 0] is false. *)
Definition price_ok (price_str : str) : bool :=
  match float_of_str price_str with
  | Some p => negb (float_le p f_0)
  | None => false
  end.

Definition price_messages (price_str : str) : list str :=
  match float_of_str price_str with
  | Some p => if float_le p f_0 then [msg_price_positive] else []
  | None => [msg_price_number]
  end.

(** The messages of the failing rules among 6 to 9, in rule order. *)
Definition phase2_messages (today check_in check_out : date)
    (price_str : str) : list str :=
  (if not_past_ok today check_in then [] else [msg_past]) ++
  (if order_ok check_in check_out then [] else [msg_order]) ++
  (if stay_ok check_in check_out then [] else [msg_max_stay]) ++
  price_messages price_str.

(** Every applicable rule passes: rules 1 to 5, and then rules 6 to 9
    on the parsed dates. *)
Definition all_rules_pass (today : date)
    (name phone room check_in check_out price_str : str) : bool :=
  rules_1_to_5_pass name phone room check_in check_out &&
  match strptime_dmY decimal check_in, strptime_dmY decimal check_out with
  | Return din, Return dout =>
      not_past_ok today din && order_ok din dout && stay_ok din dout &&
      price_ok price_str
  | _, _ => false
  end.

(** The messages the validator collects: those of the first phase if
    there are any, else those of the second. *)
Definition collected_messages (today : date)
    (name phone room check_in check_out price_str : str) : list str :=
  match phase1_messages name phone room check_in check_out with
  | (_ :: _) as l => l
  | [] =>
      match strptime_dmY decimal check_in, strptime_dmY decimal check_out with
      | Return din, Return dout => phase2_messages today din dout price_str
      | _, _ => []
      end
  end.

End Rules.

(** The nightly rate of the room catalog; 0 outside the catalog. *)
Definition catalog_rate (room : str) : Z :=
  if str_eqb room (lit "Single") then 2000
  else if str_eqb room (lit "Double") then 5000
  else if str_eqb room (lit "Luxury") then 10000
  else 0.

(** The number of terms of a word set that occur in a text. *)
Definition term_count (terms : list str) (text : str) : nat :=
  List.length (filter (fun term => contains text term) terms).

(** A calendar date the constructor accepts. *)
Definition valid_date (d : date) : Prop :=
  MINYEAR <= year d <= MAXYEAR /\ 1 <= month d <= 12 /\
  1 <= day d <= days_in_month (year d) (month d).

(** [out] shows the message [msg]. *)
Definition includes (out msg : str) : bool := contains out msg.

End Rules.

(** ** The form and its handlers

    The state of the booking form is the contents of its string
    variables.  A handler is modelled up to the point where it calls
    the database: its outcome is the dialog it shows instead, or the
    arguments of the database call. *)

Module Gui.
Import Py Regex Datetime Hotel.

Open Scope py_scope.

(** The [tk.StringVar]s of [HotelApp]. *)
Record form : Type := mkform {
  var_id : str;
  var_name : str;
  var_phone : str;
  var_room : str;
  var_checkin : str;
  var_checkout : str;
  var_price : str;
  var_search : str;
  var_status : str
}.

(** [self.var_price.set(v)] *)
Definition set_var_price (self : form) (v : str) : form :=
  mkform (var_id self) (var_name self) (var_phone self) (var_room self)
    (var_checkin self) (var_checkout self) v (var_search self)
    (var_status self).

(** The decimal digits of a natural number, most significant first,
    put in front of [acc]. *)
Fixpoint digits_of (fuel : nat) (n : Z) (acc : str) : str :=
  match fuel with
  | O => acc
  | S fuel' =>
      let acc' := digit_char n :: acc in
      if n <? 10 then acc' else digits_of fuel' (n / 10) acc'
  end.

(** [str(n)] for an [int]. *)
Definition str_of_int (n : Z) : str :=
  if n <? 0
  then lit "-" ++ digits_of (S (Z.to_nat (Z.log2 (- n)))) (- n) []
  else digits_of (S (Z.to_nat (Z.log2 n))) n [].

(** The arguments of a call [add_booking_db(...)]. *)
Record booking_args : Type := mkargs {
  arg_customer_name : str;
  arg_phone : str;
  arg_room_type : str;
  arg_check_in : str;
  arg_check_out : str;
  arg_price : float
}.

(** How far [on_add] gets before the database is involved. *)
Inductive add_outcome : Type :=
| InvalidInput (msg : str)        (* showerror("Invalid Input", msg) *)
| CallAddBooking (args : booking_args)
| ErrorDialog (e : exn).          (* showerror("DB Error", str(e)) *)

(** How far [save_review] gets. *)
Inductive review_outcome : Type :=
| EmptyReview                     (* showwarning("Input", ...) *)
| CallAddReview (customer_name review : str) (label : sentiment).

Section Handlers.

Variable decimal : N -> option N.
Variable float_of_str : str -> option float.
Variable str_lower : str -> str.
Variable USE_VADER : bool.
Variable vader_compound : str -> float.

(** [HotelApp.compute_current_price] *)
Definition compute_current_price (self : form) : result (option Z) :=
  let check_in := strip (var_checkin self) in
  let check_out := strip (var_checkout self) in
  let room := var_room self in
  calculate_price decimal check_in check_out room.

(** [HotelApp.on_date_or_room_change]; [int(total_price)] is
    [total_price], an [int] already. *)
Definition on_date_or_room_change (self : form) : result form :=
  total_price <- compute_current_price self ;;
  match total_price with
  | Some p => Return (set_var_price self (str_of_int p))
  | None => Return (set_var_price self (lit ""))
  end.

(** [HotelApp.on_add], up to the call of [add_booking_db]. *)
Definition on_add (today : date) (self : form) : result add_outcome :=
  r <- validate_inputs decimal float_of_str today
         (var_name self) (var_phone self) (var_room self)
         (var_checkin self) (var_checkout self) (var_price self) ;;
  let '(ok, msg) := r in
  if negb ok then Return (InvalidInput msg)
  else
    (* try: the arguments are evaluated, then the call is made;
       except Exception as e: the error dialog *)
    match float_ float_of_str (var_price self) with
    | Return price =>
        Return (CallAddBooking
                  (mkargs (strip (var_name self)) (strip (var_phone self))
                     (var_room self) (strip (var_checkin self))
                     (strip (var_checkout self)) price))
    | Raise e => Return (ErrorDialog e)
    end.

(** [save_review] of [HotelApp.open_add_review_popup]; [name_entry]
    and [review_text] are the contents of the two widgets. *)
Definition save_review (name_entry review_text : str) : review_outcome :=
  let review := strip review_text in
  if negb (truthy review) then EmptyReview
  else
    let customer_name := strip name_entry in
    let label :=
      analyze_sentiment str_lower USE_VADER vader_compound (Some review) in
    CallAddReview customer_name review label.

End Handlers.

(** The review text [show_all_reviews] puts in a table row. *)
Definition review_display_text (review_text : str) : str :=
  if (100 <? List.length review_text)%nat
  then firstn 100 review_text ++ lit "..."
  else review_text.

(** [row['customer_name'] or 'N/A'] *)
Definition customer_display_name (customer_name : option str) : str :=
  match customer_name with
  | Some s => if truthy s then s else lit "N/A"
  | None => lit "N/A"
  end.

End Gui.

(** ** The fields of a date string

    What the three groups of the date pattern take from the front of a
    string, each with the hyphen that follows the day and the month. *)

Module DateFields.
Import Py Regex Datetime.

Section Fields.

Variable decimal : N -> option N.

(** A day of two characters: [3[0-1]], [[1-2]\d], [0[1-9]] or a space
    and [[1-9]]. *)
Definition day_two (a b : N) : bool :=
  ((a =? 51) && ((48 <=? b) && (b <=? 49)))%N
  || (((49 <=? a) && (a <=? 50))%N && isdecimal decimal b)
  || ((a =? 48) && ((49 <=? b) && (b <=? 57)))%N
  || ((a =? 32) && ((49 <=? b) && (b <=? 57)))%N.

(** A month of two characters: [1[0-2]] or [0[1-9]]. *)
Definition month_two (a b : N) : bool :=
  ((a =? 49) && ((48 <=? b) && (b <=? 50)))%N
  || ((a =? 48) && ((49 <=? b) && (b <=? 57)))%N.

(** The field and what follows its hyphen; a field of one character is
    [[1-9]]. *)
Definition take_field (two : N -> N -> bool) (s : str) : option (str * str) :=
  match s with
  | a :: b :: u =>
      if (b =? 45)%N
      then if ((49 <=? a) && (a <=? 57))%N then Some ([a], u) else None
      else
        match u with
        | c :: t => if (c =? 45)%N && two a b then Some ([a; b], t) else None
        | [] => None
        end
  | _ => None
  end.

Definition take_day : str -> option (str * str) := take_field day_two.
Definition take_month : str -> option (str * str) := take_field month_two.

(** The year: four digits. *)
Definition take_year (s : str) : option (str * str) :=
  match s with
  | y1 :: y2 :: y3 :: y4 :: t =>
      if isdecimal decimal y1 && isdecimal decimal y2 &&
         isdecimal decimal y3 && isdecimal decimal y4
      then Some ([y1; y2; y3; y4], t)
      else None
  | _ => None
  end.

(** The three fields of a string that is a day, a hyphen, a month, a
    hyphen and a year, with nothing after the year. *)
Definition date_fields (s : str) : option (str * str * str) :=
  match take_day s with
  | Some (D, t1) =>
      match take_month t1 with
      | Some (M, t2) =>
          match take_year t2 with
          | Some (Y, []) => Some (D, M, Y)
          | _ => None
          end
      | None => None
      end
  | None => None
  end.

End Fields.

End DateFields.

(** ** More handlers of the form *)

Module Handlers.
Import Py Regex Datetime Hotel Gui.

Open Scope py_scope.

(** The day after [d] in the calendar. *)
Definition next_day (d : date) : date :=
  if day d <? days_in_month (year d) (month d)
  then mkdate (year d) (month d) (day d + 1)
  else if month d <? 12 then mkdate (year d) (month d + 1) 1
  else mkdate (year d + 1) 1 1.

(** [d + timedelta(days=1)]: the date of the next ordinal, or
    [OverflowError] after the last day of [MAXYEAR]. *)
Definition plus_one_day (d : date) : result date :=
  if year (next_day d) >? MAXYEAR then Raise OverflowError
  else Return (next_day d).

(** [self.var_status.set(v)] *)
Definition set_var_status (self : form) (v : str) : form :=
  mkform (var_id self) (var_name self) (var_phone self) (var_room self)
    (var_checkin self) (var_checkout self) (var_price self) (var_search self)
    v.

(** How far [on_update] gets before the database is involved. *)
Inductive update_outcome : Type :=
| NoSelection                      (* showwarning("No Selection", ...) *)
| UpdateInvalidInput (msg : str)   (* showerror("Invalid Input", msg) *)
| CallUpdateBooking (booking_id : Z) (args : booking_args)
| UpdateErrorDialog (e : exn).     (* showerror("DB Error", str(e)) *)

Section Handlers.

Variable decimal : N -> option N.
Variable float_of_str : str -> option float.

(** [int(s)] for any string, [None] where it raises [ValueError]. *)
Variable int_of_str : str -> option Z.

(** [HotelApp.clear_form]; [now1] and [now2] are the dates of the two
    readings of the clock, [datetime.now()]. *)
Definition clear_form (now1 now2 : date) (self : form) : result form :=
  let today := strftime_dmY now1 in
  d <- plus_one_day now2 ;;
  let tomorrow := strftime_dmY d in
  let self :=
    mkform (lit "") (lit "") (lit "") (hd [] ROOM_TYPES) today tomorrow
      (var_price self) (var_search self) (var_status self) in
  self <- on_date_or_room_change decimal self ;;
  Return (set_var_status self (lit "Form cleared.")).

(** [HotelApp.on_update], up to the call of [update_booking_db]. *)
Definition on_update (today : date) (self : form) : result update_outcome :=
  if negb (truthy (var_id self)) then Return NoSelection
  else
    r <- validate_inputs decimal float_of_str today
           (var_name self) (var_phone self) (var_room self)
           (var_checkin self) (var_checkout self) (var_price self) ;;
    let '(ok, msg) := r in
    if negb ok then Return (UpdateInvalidInput msg)
    else
      (* try: the arguments are evaluated from left to right;
         except Exception as e: the error dialog *)
      match int_of_str (var_id self) with
      | None => Return (UpdateErrorDialog ValueError)
      | Some booking_id =>
          match float_ float_of_str (var_price self) with
          | Return price =>
              Return (CallUpdateBooking booking_id
                        (mkargs (strip (var_name self))
                           (strip (var_phone self)) (var_room self)
                           (strip (var_checkin self))
                           (strip (var_checkout self)) price))
          | Raise e => Return (UpdateErrorDialog e)
          end
      end.

End Handlers.

End Handlers.

(** ** Rules 2 and 9 in the words of the specification *)

Module SpecRules.
Import Py Regex Datetime Hotel Rules.

(** [0 < p]: strictly positive; a NaN is not. *)
Definition float_pos (p : float) : bool :=
  match p with
  | FNan => false
  | FInf negative => negb negative
  | FFin q => negb (Qle_bool q 0)
  end.

Section Rules.

Variable decimal : N -> option N.
Variable float_of_str : str -> option float.

(** Rule 2: the phone is optional; if it is not empty after trimming,
    it must be an optional leading [+] followed by exactly ten
    digits. *)
Definition phone_rule (phone : str) : bool :=
  negb (truthy (strip phone)) || phone_format decimal phone.

(** Rule 9: the price must parse as a number and be strictly
    positive. *)
Definition price_rule (price_str : str) : bool :=
  match float_of_str price_str with
  | Some p => float_pos p
  | None => false
  end.

(** Rules 1 to 5 all pass. *)
Definition rules_1_to_5 (name phone room check_in check_out : str) : bool :=
  name_ok name && phone_rule phone && room_ok room &&
  check_in_ok decimal check_in && check_out_ok decimal check_out.

(** The messages of the failing rules among 1 to 5, in rule order. *)
Definition phase1_errors (name phone room check_in check_out : str)
  : list str :=
  (if name_ok name then [] else [msg_name]) ++
  (if phone_rule phone then [] else [msg_phone]) ++
  (if room_ok room then [] else [msg_room]) ++
  (if check_in_ok decimal check_in then [] else [msg_check_in]) ++
  (if check_out_ok decimal check_out then [] else [msg_check_out]).

(** The message of rule 9 when it fails. *)
Definition price_errors (price_str : str) : list str :=
  match float_of_str price_str with
  | Some p => if float_pos p then [] else [msg_price_positive]
  | None => [msg_price_number]
  end.

(** The messages of the failing rules among 6 to 9, in rule order. *)
Definition phase2_errors (today check_in check_out : date)
    (price_str : str) : list str :=
  (if not_past_ok today check_in then [] else [msg_past]) ++
  (if order_ok check_in check_out then [] else [msg_order]) ++
  (if stay_ok check_in check_out then [] else [msg_max_stay]) ++
  price_errors price_str.

(** Every applicable rule passes. *)
Definition every_rule_passes (today : date)
    (name phone room check_in check_out price_str : str) : bool :=
  rules_1_to_5 name phone room check_in check_out &&
  match strptime_dmY decimal check_in, strptime_dmY decimal check_out with
  | Return din, Return dout =>
      not_past_ok today din && order_ok din dout && stay_ok din dout &&
      price_rule price_str
  | _, _ => false
  end.

(** The messages collected: those of rules 1 to 5 if any of them
    fails, else those of rules 6 to 9. *)
Definition collected_errors (today : date)
    (name phone room check_in check_out price_str : str) : list str :=
  match phase1_errors name phone room check_in check_out with
  | (_ :: _) as l => l
  | [] =>
      match strptime_dmY decimal check_in, strptime_dmY decimal check_out with
      | Return din, Return dout => phase2_errors today din dout price_str
      | _, _ => []
      end
  end.

(** The phone is the phone format followed by one newline. *)
Definition format_then_newline (phone : str) : Prop :=
  exists t, phone = t ++ NL /\ phone_format decimal t = true.

End Rules.

End SpecRules.

(** * Properties *)

(** ** Strings *)

Module PyFacts.
Import Py.

Lemma str_eqb_eq (a b : str) : str_eqb a b = true <-> a = b.
Proof.
  unfold str_eqb. destruct (list_eq_dec N.eq_dec a b); split; congruence.
Qed.

Lemma str_eqb_refl (a : str) : str_eqb a a = true.
Proof. now apply str_eqb_eq. Qed.

Lemma lstrip_all_space (s : str) :
  lstrip s = [] <-> forallb isspace s = true.
Proof.
  induction s as [|c s IH]; simpl.
  - tauto.
  - destruct (isspace c); simpl.
    + exact IH.
    + split; discriminate.
Qed.

Lemma lstrip_head (s : str) (c : N) (t : str) :
  lstrip s = c :: t -> isspace c = false.
Proof.
  induction s as [|x s IH]; simpl.
  - discriminate.
  - destruct (isspace x) eqn:E.
    + exact IH.
    + intros [= -> _]. exact E.
Qed.

Lemma forallb_rev {A : Type} (p : A -> bool) (l : list A) :
  forallb p (rev l) = forallb p l.
Proof.
  induction l as [|x l IH]; simpl.
  - reflexivity.
  - rewrite forallb_app, IH. simpl. rewrite andb_true_r. apply andb_comm.
Qed.

(** A string is empty after [strip] exactly when it consists of
    whitespace only. *)
Lemma strip_all_space (s : str) :
  strip s = [] <-> forallb isspace s = true.
Proof.
  unfold strip, rstrip. split.
  - intros H.
    assert (H1 : lstrip (rev (lstrip s)) = []).
    { destruct (lstrip (rev (lstrip s))) as [|c t]; [reflexivity|].
      simpl in H. apply app_eq_nil in H as [_ H]. discriminate. }
    apply lstrip_all_space in H1. rewrite forallb_rev in H1.
    destruct (lstrip s) as [|c t] eqn:E.
    + now apply lstrip_all_space.
    + apply lstrip_head in E. simpl in H1. rewrite E in H1. discriminate.
  - intros H. apply lstrip_all_space in H. rewrite H. reflexivity.
Qed.

Lemma truthy_strip (s : str) :
  truthy (strip s) = negb (forallb isspace s).
Proof.
  destruct (forallb isspace s) eqn:E.
  - apply strip_all_space in E. now rewrite E.
  - destruct (strip s) eqn:E'; [|reflexivity].
    apply strip_all_space in E'. congruence.
Qed.

Lemma startswith_app (p t : str) : startswith (p ++ t) p = true.
Proof.
  induction p as [|a p IH]; simpl.
  - now destruct t.
  - now rewrite N.eqb_refl.
Qed.

Lemma startswith_prefix (s a b : str) :
  startswith s (a ++ b) = true -> startswith s a = true.
Proof.
  revert s. induction a as [|x a IH]; intros s; simpl.
  - now destruct s.
  - destruct s as [|y s]; simpl; [discriminate|].
    intros H. apply andb_true_iff in H as [H1 H2].
    rewrite H1. simpl. now apply IH.
Qed.

Lemma contains_startswith (s sub : str) :
  startswith s sub = true -> contains s sub = true.
Proof.
  intros H. destruct s; cbn [contains]; rewrite H; reflexivity.
Qed.

Lemma contains_app (a m b : str) : contains (a ++ m ++ b) m = true.
Proof.
  induction a as [|x a IH]; simpl.
  - apply contains_startswith, startswith_app.
  - rewrite IH. apply orb_true_r.
Qed.

(** A text that contains a word contains every prefix of the word. *)
Lemma contains_prefix (s a b : str) :
  contains s (a ++ b) = true -> contains s a = true.
Proof.
  induction s as [|x s IH]; cbn [contains].
  - rewrite !orb_false_r. apply startswith_prefix.
  - intros H. apply orb_true_iff in H as [H|H].
    + apply startswith_prefix in H. now rewrite H.
    + rewrite (IH H). apply orb_true_r.
Qed.

Lemma contains_join (sep m : str) (l : list str) :
  In m l -> contains (join sep l) m = true.
Proof.
  induction l as [|x l IH]; simpl.
  - tauto.
  - intros [->|H].
    + destruct l.
      * rewrite <- (app_nil_r m) at 1. apply (contains_app [] m []).
      * apply (contains_app [] m).
    + destruct l as [|y l]; [destruct H|].
      specialize (IH H).
      change (join sep (y :: l)) with (join sep (y :: l)) in IH.
      remember (join sep (y :: l)) as j.
      clear - IH. induction x as [|c x IHx]; simpl.
      * induction sep as [|c sep IHs]; simpl; [exact IH|].
        rewrite IHs. apply orb_true_r.
      * rewrite IHx. apply orb_true_r.
Qed.

End PyFacts.

(** ** Dates *)

Module DateFacts.
Import Py Regex Datetime Rules.

Lemma is_leap_spec (y : Z) :
  is_leap y = true <-> (y mod 4 = 0 /\ (y mod 100 <> 0 \/ y mod 400 = 0)).
Proof.
  unfold is_leap.
  rewrite andb_true_iff, orb_true_iff, negb_true_iff, !Z.eqb_eq, Z.eqb_neq.
  tauto.
Qed.

Lemma days_before_year_succ (y : Z) :
  days_before_year (y + 1) = days_before_year y + year_length y.
Proof.
  unfold days_before_year, year_length.
  replace (y + 1 - 1) with y by lia.
  destruct (is_leap y) eqn:E.
  - apply is_leap_spec in E.
    Z.div_mod_to_equations. lia.
  - assert (H : ~ (y mod 4 = 0 /\ (y mod 100 <> 0 \/ y mod 400 = 0))).
    { rewrite <- is_leap_spec. congruence. }
    Z.div_mod_to_equations. lia.
Qed.

Lemma year_length_pos (y : Z) : 365 <= year_length y <= 366.
Proof. unfold year_length. destruct (is_leap y); lia. Qed.

Lemma days_before_year_mono (y y' : Z) :
  y < y' -> days_before_year y + year_length y <= days_before_year y'.
Proof.
  intros H. replace y' with (y + 1 + (y' - y - 1)) by lia.
  assert (Hn : 0 <= y' - y - 1) by lia.
  revert Hn. generalize (y' - y - 1). intros n Hn.
  pattern n. apply natlike_ind; [| |exact Hn].
  - rewrite Z.add_0_r, days_before_year_succ. lia.
  - intros k Hk IH.
    replace (y + 1 + Z.succ k) with (y + 1 + k + 1) by lia.
    rewrite days_before_year_succ.
    pose proof (year_length_pos (y + 1 + k)). lia.
Qed.

Lemma month_cases (m : Z) :
  1 <= m <= 12 ->
  m = 1 \/ m = 2 \/ m = 3 \/ m = 4 \/ m = 5 \/ m = 6 \/
  m = 7 \/ m = 8 \/ m = 9 \/ m = 10 \/ m = 11 \/ m = 12.
Proof. lia. Qed.

Ltac each_month H :=
  apply month_cases in H;
  repeat (destruct H as [H|H]); subst.

(** The days of a month end where the next month starts. *)
Lemma days_before_month_next (y m : Z) :
  1 <= m <= 12 ->
  days_before_month y m + days_in_month y m =
  if m =? 12 then year_length y else days_before_month y (m + 1).
Proof.
  intros H. unfold days_before_month, days_in_month, year_length.
  each_month H; destruct (is_leap y); reflexivity.
Qed.

Lemma days_before_month_mono (y m m' : Z) :
  1 <= m -> m < m' -> m' <= 12 ->
  days_before_month y m + days_in_month y m <= days_before_month y m'.
Proof.
  intros H1 H2 H3.
  assert (Hm : 1 <= m <= 12) by lia.
  assert (Hm' : 1 <= m' <= 12) by lia.
  unfold days_before_month, days_in_month.
  each_month Hm; each_month Hm'; try lia;
    destruct (is_leap y); vm_compute; discriminate.
Qed.

Lemma day_of_year_bounds (d : date) :
  valid_date d ->
  1 <= days_before_month (year d) (month d) + day d <= year_length (year d).
Proof.
  intros (_ & Hm & Hd).
  assert (0 <= days_before_month (year d) (month d)
          /\ days_before_month (year d) (month d) + days_in_month (year d) (month d)
             <= year_length (year d)).
  { unfold days_before_month, days_in_month, year_length.
    each_month Hm; rewrite Hm; destruct (is_leap (year d));
      vm_compute; split; discriminate. }
  lia.
Qed.

(** On valid dates the order of [(year, month, day)] is the order of
    the ordinals. *)
Lemma date_cmp_toordinal (a b : date) :
  valid_date a -> valid_date b ->
  date_cmp a b = (toordinal a ?= toordinal b).
Proof.
  intros Ha Hb.
  pose proof (day_of_year_bounds a Ha) as Ba.
  pose proof (day_of_year_bounds b Hb) as Bb.
  destruct Ha as (_ & Hma & Hda), Hb as (_ & Hmb & Hdb).
  unfold date_cmp, toordinal.
  destruct (Z.compare_spec (year a) (year b)) as [Ey|Ly|Gy].
  - rewrite Ey in *.
    destruct (Z.compare_spec (month a) (month b)) as [Em|Lm|Gm].
    + rewrite Em. destruct (Z.compare_spec (day a) (day b));
        symmetry; [apply Z.compare_eq_iff|apply Z.compare_lt_iff|apply Z.compare_gt_iff]; lia.
    + symmetry. apply Z.compare_lt_iff.
      pose proof (days_before_month_mono (year b) (month a) (month b)). lia.
    + symmetry. apply Z.compare_gt_iff.
      pose proof (days_before_month_mono (year b) (month b) (month a)). lia.
  - symmetry. apply Z.compare_lt_iff.
    pose proof (days_before_year_mono _ _ Ly). lia.
  - symmetry. apply Z.compare_gt_iff.
    pose proof (days_before_year_mono _ _ Gy). lia.
Qed.

Lemma date_lt_toordinal (a b : date) :
  valid_date a -> valid_date b ->
  date_lt a b = (toordinal a <? toordinal b).
Proof.
  intros Ha Hb. unfold date_lt, Z.ltb.
  now rewrite (date_cmp_toordinal a b Ha Hb).
Qed.

Lemma date_le_toordinal (a b : date) :
  valid_date a -> valid_date b ->
  date_le a b = (toordinal a <=? toordinal b).
Proof.
  intros Ha Hb. unfold date_le, Z.leb.
  now rewrite (date_cmp_toordinal a b Ha Hb).
Qed.

Lemma date_cmp_refl (a : date) : date_cmp a a = Eq.
Proof. unfold date_cmp. now rewrite !Z.compare_refl. Qed.

Lemma date_cmp_antisym (a b : date) : date_cmp b a = CompOpp (date_cmp a b).
Proof.
  unfold date_cmp.
  rewrite (Z.compare_antisym (year a) (year b)).
  rewrite (Z.compare_antisym (month a) (month b)).
  rewrite (Z.compare_antisym (day a) (day b)).
  destruct (year a ?= year b), (month a ?= month b), (day a ?= day b);
    reflexivity.
Qed.

(** [not (b <= a)] is [a < b]. *)
Lemma date_le_lt (a b : date) : negb (date_le b a) = date_lt a b.
Proof.
  unfold date_le, date_lt. rewrite (date_cmp_antisym a b).
  destruct (date_cmp a b); reflexivity.
Qed.

End DateFacts.

(** ** Parsing dates *)

Module ParseFacts.
Import Py Regex Datetime Hotel Rules DateFacts.

Section Parse.

Variable decimal : N -> option N.

Lemma int_raises (s : str) (e : exn) :
  int decimal s = Raise e -> e = ValueError.
Proof.
  unfold int. destruct (strip s) as [|c t]; [congruence|].
  destruct (digits_value decimal 0 (c :: t)); congruence.
Qed.

Lemma date_new_inv (y m d : Z) :
  match date_new y m d with
  | Return x => x = mkdate y m d /\ valid_date x
  | Raise e => e = ValueError
  end.
Proof.
  unfold date_new, valid_date.
  destruct ((MINYEAR <=? y) && (y <=? MAXYEAR)) eqn:Ey; simpl; [|reflexivity].
  destruct ((1 <=? m) && (m <=? 12)) eqn:Em; simpl; [|reflexivity].
  destruct ((1 <=? d) && (d <=? days_in_month y m)) eqn:Ed; simpl; [|reflexivity].
  apply andb_true_iff in Ey as [? ?], Em as [? ?], Ed as [? ?].
  split; [reflexivity|]. lia.
Qed.

(** [strptime] returns a valid date or raises [ValueError]. *)
Lemma strptime_inv (s : str) :
  match strptime_dmY decimal s with
  | Return d => valid_date d
  | Raise e => e = ValueError
  end.
Proof.
  unfold strptime_dmY.
  destruct (re_match (re_dmY decimal) s) as [[stop cs]|]; [|reflexivity].
  destruct (negb (Nat.eqb (List.length s) stop)); [reflexivity|].
  destruct (int decimal (group cs "d")) as [d|e] eqn:Ed; simpl;
    [|now apply int_raises in Ed].
  destruct (int decimal (group cs "m")) as [m|e] eqn:Em; simpl;
    [|now apply int_raises in Em].
  destruct (int decimal (group cs "Y")) as [y|e] eqn:Ey; simpl;
    [|now apply int_raises in Ey].
  pose proof (date_new_inv y m d) as H.
  destruct (date_new y m d); [apply H|exact H].
Qed.

Lemma strptime_valid (s : str) (d : date) :
  strptime_dmY decimal s = Return d -> valid_date d.
Proof.
  intros H. pose proof (strptime_inv s) as I. now rewrite H in I.
Qed.

Lemma parses_true (s : str) :
  parses decimal s = true <-> exists d, strptime_dmY decimal s = Return d.
Proof.
  unfold parses. destruct (strptime_dmY decimal s) as [d|e]; split.
  - intros _. now exists d.
  - reflexivity.
  - discriminate.
  - intros [d H]. discriminate.
Qed.

Lemma parses_false (s : str) :
  parses decimal s = false <-> strptime_dmY decimal s = Raise ValueError.
Proof.
  unfold parses. pose proof (strptime_inv s) as I.
  destruct (strptime_dmY decimal s) as [d|e]; split; try congruence.
Qed.

Lemma is_valid_date_parses (s : str) :
  is_valid_date decimal s = Return (parses decimal s).
Proof.
  unfold is_valid_date, parses. pose proof (strptime_inv s) as I.
  destruct (strptime_dmY decimal s) as [d|e]; simpl; [reflexivity|].
  now rewrite I.
Qed.

End Parse.

End ParseFacts.

(** ** The validator *)

Module ValidateFacts.
Import Py Regex Datetime Hotel Rules PyFacts DateFacts ParseFacts.

Section Validate.

Variable decimal : N -> option N.
Variable float_of_str : str -> option float.

Local Abbreviation validate := (validate_inputs decimal float_of_str).
Local Abbreviation strptime := (strptime_dmY decimal).
Local Abbreviation phase1 := (phase1_messages decimal).
Local Abbreviation phase2 := (phase2_messages float_of_str).

(** The room test [not room_type or room_type not in ROOM_TYPES]. *)
Lemma room_test (room : str) :
  negb (truthy room) || negb (str_in room ROOM_TYPES) = negb (room_ok room).
Proof.
  unfold room_ok. destruct room as [|c room]; reflexivity.
Qed.

(** With a failing rule among 1 to 5 the validator returns after the
    first phase. *)
Lemma validate_phase1 (today : date) (name phone room ci co price : str) :
  phase1 name phone room ci co <> [] ->
  validate today name phone room ci co price =
  Return (false, join NL (phase1 name phone room ci co)).
Proof.
  unfold validate_inputs, phase1_messages.
  rewrite !is_valid_date_parses, room_test.
  unfold name_ok, phone_ok, check_in_ok, check_out_ok. cbn [bind].
  destruct (truthy (strip name)), (is_valid_phone decimal phone),
    (room_ok room), (parses decimal ci), (parses decimal co);
    cbn [negb app]; intros H; try reflexivity.
  now destruct H.
Qed.

(** With rules 1 to 5 passing, the second phase collects the failing
    rules among 6 to 9. *)
Lemma validate_phase2 (today : date) (name phone room ci co price : str)
    (din dout : date) :
  phase1 name phone room ci co = [] ->
  strptime ci = Return din ->
  strptime co = Return dout ->
  validate today name phone room ci co price =
  match phase2 today din dout price with
  | [] => Return (true, lit "")
  | l => Return (false, join NL l)
  end.
Proof.
  unfold validate_inputs, phase1_messages.
  rewrite !is_valid_date_parses, room_test.
  unfold name_ok, phone_ok, check_in_ok, check_out_ok. cbn [bind].
  destruct (truthy (strip name)), (is_valid_phone decimal phone),
    (room_ok room), (parses decimal ci), (parses decimal co);
    cbn [negb app]; try discriminate.
  intros _ -> ->. cbn [bind].
  unfold phase2_messages, not_past_ok, order_ok, stay_ok, price_messages,
    float_.
  rewrite <- (date_le_lt din dout), Z.gtb_ltb, Z.leb_antisym.
  destruct (date_lt din today), (date_le dout din),
    (30 <? days_between dout din), (float_of_str price) as [p|];
    cbn [negb app try_except_ValueError bind]; try reflexivity;
    destruct (float_le p f_0); reflexivity.
Qed.

Lemma phase1_nil (name phone room ci co : str) :
  phase1 name phone room ci co = [] <->
  name_ok name = true /\ phone_ok decimal phone = true /\
  room_ok room = true /\ check_in_ok decimal ci = true /\
  check_out_ok decimal co = true.
Proof.
  unfold phase1_messages.
  destruct (name_ok name), (phone_ok decimal phone), (room_ok room),
    (check_in_ok decimal ci), (check_out_ok decimal co); cbn;
    intuition discriminate.
Qed.

(** No message of the first phase exactly when rules 1 to 5 pass. *)
Lemma phase1_passes (name phone room ci co : str) :
  phase1 name phone room ci co = [] <->
  rules_1_to_5_pass decimal name phone room ci co = true.
Proof.
  unfold rules_1_to_5_pass, phase1_messages.
  destruct (name_ok name), (phone_ok decimal phone), (room_ok room),
    (check_in_ok decimal ci), (check_out_ok decimal co); cbn;
    intuition discriminate.
Qed.

Lemma phase1_fails (name phone room ci co : str) :
  phase1 name phone room ci co <> [] <->
  rules_1_to_5_pass decimal name phone room ci co = false.
Proof.
  rewrite phase1_passes.
  destruct (rules_1_to_5_pass decimal name phone room ci co);
    intuition congruence.
Qed.

Lemma phase2_nil (today din dout : date) (price : str) :
  phase2 today din dout price = [] <->
  not_past_ok today din = true /\ order_ok din dout = true /\
  stay_ok din dout = true /\ price_ok float_of_str price = true.
Proof.
  unfold phase2_messages, price_messages, price_ok.
  destruct (not_past_ok today din), (order_ok din dout), (stay_ok din dout),
    (float_of_str price) as [p|]; cbn; try (intuition discriminate);
    destruct (float_le p f_0); cbn; intuition discriminate.
Qed.

(** The price test is [price <= 0], which is false for a NaN: a price
    string that [float] reads as NaN passes rule 9. *)
Lemma nan_price_passes (price : str) :
  float_of_str price = Some FNan -> price_ok float_of_str price = true.
Proof. unfold price_ok. now intros ->. Qed.

End Validate.

End ValidateFacts.

(** ** The phone pattern *)

Module PhoneFacts.
Import Py Regex Datetime Hotel Rules Unicode PyFacts.

Section Phone.

Variable decimal : N -> option N.

Local Abbreviation isdigit := (isdecimal decimal).

(** [p{n}] for a character class [p] consumes the next [n] characters
    when they all belong to the class. *)
Lemma run_rep_cls {A : Type} (n : nat) (p : N -> bool) (pos : nat) (s : str)
    (cs : captures) (k : nat -> str -> captures -> option A) :
  run (Rep n (Cls p)) pos s cs k =
  if (n <=? List.length s)%nat && forallb p (firstn n s)
  then k (pos + n)%nat (skipn n s) cs
  else None.
Proof.
  revert pos s. induction n as [|n IH]; intros pos s.
  - cbn. now rewrite Nat.add_0_r.
  - destruct s as [|x s].
    + reflexivity.
    + change (run (Rep (S n) (Cls p)) pos (x :: s) cs k)
        with (if p x then run (Rep n (Cls p)) (S pos) s cs k else None).
      rewrite IH. cbn [List.length firstn skipn forallb Nat.leb].
      destruct (p x); cbn [andb].
      * now rewrite Nat.add_succ_r.
      * now rewrite andb_false_r.
Qed.

Lemma run_Cat {A : Type} (a b : re) pos s cs
    (k : nat -> str -> captures -> option A) :
  run (Cat a b) pos s cs k =
  run a pos s cs (fun pos' s' cs' => run b pos' s' cs' k).
Proof. reflexivity. Qed.

Lemma run_Opt {A : Type} (a : re) pos s cs
    (k : nat -> str -> captures -> option A) :
  run (Opt a) pos s cs k =
  match run a pos s cs k with
  | Some m => Some m
  | None => k pos s cs
  end.
Proof. reflexivity. Qed.

Lemma run_Group {A : Type} (name : string) (a : re) pos s cs
    (k : nat -> str -> captures -> option A) :
  run (Group name a) pos s cs k =
  run a pos s cs
    (fun pos' s' cs' => k pos' s' ((name, firstn (pos' - pos) s) :: cs')).
Proof. reflexivity. Qed.

Lemma run_Chr {A : Type} (c : N) pos s cs
    (k : nat -> str -> captures -> option A) :
  run (Chr c) pos s cs k =
  match s with
  | x :: s' => if (x =? c)%N then k (S pos) s' cs else None
  | [] => None
  end.
Proof. reflexivity. Qed.

Lemma ten_digits_then_tail (s : str) (pos : nat) (t : str) :
  match run (Rep 10 (Cls isdigit)) pos t [] (phone_tail s) with
  | Some _ => true
  | None => false
  end = ten_digits_eos decimal t.
Proof.
  rewrite run_rep_cls. unfold ten_digits_eos, phone_tail.
  destruct ((10 <=? List.length t)%nat && forallb isdigit (firstn 10 t));
    [|reflexivity].
  cbn [andb run]. destruct (skipn 10 t) as [|c [|c' r]]; try reflexivity.
  now destruct (c =? 10)%N.
Qed.

Lemma phone_pattern_matches (s : str) :
  match re_match (phone_pattern decimal) s with
  | Some _ => true
  | None => false
  end =
  match s with
  | c :: t => (c =? 43)%N && ten_digits_eos decimal t
  | [] => false
  end || ten_digits_eos decimal s.
Proof.
  unfold re_match, phone_pattern, digit, chr.
  change (run (Cat Bos (Cat (Group "1" (Cat (Opt (Chr (N_of_ascii "+")))
                                   (Rep 10 (Cls isdigit)))) Eos))
            0 s [] (fun pos _ cs => Some (pos, cs)))
    with (run (Cat (Opt (Chr 43)) (Rep 10 (Cls isdigit))) 0 s []
            (phone_tail s)).
  rewrite run_Cat, run_Opt, run_Chr.
  destruct s as [|c t].
  - cbn [orb]. apply ten_digits_then_tail.
  - destruct (c =? 43)%N; cbn [andb].
    + rewrite <- (ten_digits_then_tail (c :: t) 1 t).
      rewrite <- (ten_digits_then_tail (c :: t) 0 (c :: t)).
      destruct (run (Rep 10 (Cls isdigit)) 1 t [] (phone_tail (c :: t)));
        reflexivity.
    + cbn [orb]. apply ten_digits_then_tail.
Qed.

Lemma is_valid_phone_eq (s : str) :
  is_valid_phone decimal s =
  negb (truthy (strip s)) ||
  (match s with
   | c :: t => (c =? 43)%N && ten_digits_eos decimal t
   | [] => false
   end || ten_digits_eos decimal s).
Proof.
  unfold is_valid_phone. rewrite <- phone_pattern_matches.
  destruct (negb (truthy (strip s))); reflexivity.
Qed.

End Phone.

End PhoneFacts.

(** ** Date literals *)

Module RoundTrip.
Import Py Regex Datetime Hotel Rules Unicode.
Import PyFacts DateFacts ParseFacts.

Section RoundTrip.

Variable decimal : N -> option N.
Hypothesis decimal_ascii : decimal_on_ascii decimal.

Lemma ascii_digit_decimal (c : N) :
  (48 <= c <= 57)%N -> decimal c = Some (c - 48)%N.
Proof.
  intros H. rewrite decimal_ascii by lia. unfold ascii_decimal.
  replace ((48 <=? c)%N) with true by (symmetry; apply N.leb_le; lia).
  replace ((c <=? 57)%N) with true by (symmetry; apply N.leb_le; lia).
  reflexivity.
Qed.

Lemma ascii_digit_isdecimal (c : N) :
  (48 <= c <= 57)%N -> isdecimal decimal c = true.
Proof. intros H. unfold isdecimal. now rewrite ascii_digit_decimal. Qed.

Lemma digit_char_range (n : Z) : (48 <= digit_char n <= 57)%N.
Proof.
  unfold digit_char. pose proof (Z.mod_pos_bound n 10). lia.
Qed.

Lemma digit_char_decimal (n : Z) :
  decimal (digit_char n) = Some (Z.to_N (n mod 10)).
Proof.
  rewrite ascii_digit_decimal by apply digit_char_range.
  f_equal. unfold digit_char. pose proof (Z.mod_pos_bound n 10). lia.
Qed.

Lemma digit_char_not_space (n : Z) : isspace (digit_char n) = false.
Proof.
  pose proof (digit_char_range n) as H. unfold isspace.
  repeat match goal with
         | |- context [(?a <=? ?b)%N] => destruct (N.leb_spec a b)
         | |- context [(?a =? ?b)%N] => destruct (N.eqb_spec a b)
         end; try reflexivity; lia.
Qed.

Lemma int_zero_pad2 (n : Z) : 0 <= n <= 99 -> int decimal (zero_pad2 n) = Return n.
Proof.
  intros H. unfold int, zero_pad2, strip, rstrip.
  cbn [lstrip rev app]. rewrite !digit_char_not_space.
  cbn [lstrip rev app digits_value]. rewrite !digit_char_not_space.
  cbn [rev app digits_value]. rewrite !digit_char_decimal.
  f_equal. pose proof (Z.mod_pos_bound n 10).
  pose proof (Z.mod_pos_bound (n / 10) 10).
  rewrite !Z2N.id by lia. Z.div_mod_to_equations. lia.
Qed.

Lemma int_zero_pad4 (n : Z) :
  0 <= n <= 9999 -> int decimal (zero_pad4 n) = Return n.
Proof.
  intros H. unfold int, zero_pad4, strip, rstrip.
  cbn [lstrip rev app]. rewrite !digit_char_not_space.
  cbn [lstrip rev app digits_value]. rewrite !digit_char_not_space.
  cbn [rev app digits_value]. rewrite !digit_char_decimal.
  f_equal. pose proof (Z.mod_pos_bound n 10).
  pose proof (Z.mod_pos_bound (n / 10) 10).
  pose proof (Z.mod_pos_bound (n / 100) 10).
  pose proof (Z.mod_pos_bound (n / 1000) 10).
  rewrite !Z2N.id by lia. Z.div_mod_to_equations. lia.
Qed.

Lemma Forall_range (P : Z -> Prop) (lo : Z) (n : nat) :
  Forall P (map (fun i => lo + Z.of_nat i) (seq 0 n)) ->
  forall d, lo <= d < lo + Z.of_nat n -> P d.
Proof.
  intros F d H. rewrite Forall_forall in F. apply F. apply in_map_iff.
  exists (Z.to_nat (d - lo)). split; [lia|apply in_seq; lia].
Qed.

Ltac eval_pad :=
  repeat match goal with
         | |- context [zero_pad2 ?n] =>
             let x := eval vm_compute in (zero_pad2 n) in
             change (zero_pad2 n) with x
         end.

Lemma option_match_id {A : Type} (o : option A) :
  match o with
  | Some m => Some m
  | None => None
  end = o.
Proof. now destruct o. Qed.

Ltac run_fields :=
  eval_pad; change (lit "-") with [45%N];
  unfold re_d, re_m, chr, rng, digit; cbn [run app];
  rewrite ?ascii_digit_isdecimal by lia; cbn;
  apply option_match_id.

(** The day field of the pattern reads a zero-padded day of the month. *)
Lemma run_day {A : Type} (d : Z) :
  1 <= d <= 31 ->
  forall (R : re) (t : str) (k : nat -> str -> captures -> option A),
  run (Cat (re_d decimal) (Cat (chr "-") R)) 0
    (zero_pad2 d ++ lit "-" ++ t) [] k =
  run R 3 t [("d"%string, zero_pad2 d)] k.
Proof.
  intros H. pattern d. apply (Forall_range _ 1 31); [|lia].
  cbn [seq map].
  repeat (apply Forall_cons; [intros R t k; run_fields|]).
  apply Forall_nil.
Qed.

(** The month field reads a zero-padded month. *)
Lemma run_month {A : Type} (m : Z) (ds : str) :
  1 <= m <= 12 ->
  forall (R : re) (t : str) (k : nat -> str -> captures -> option A),
  run (Cat re_m (Cat (chr "-") R)) 3
    (zero_pad2 m ++ lit "-" ++ t) [("d"%string, ds)] k =
  run R 6 t [("m"%string, zero_pad2 m); ("d"%string, ds)] k.
Proof.
  intros H. pattern m. apply (Forall_range _ 1 12); [|lia].
  cbn [seq map].
  repeat (apply Forall_cons; [intros R t k; run_fields|]).
  apply Forall_nil.
Qed.

(** The year field reads four digits. *)
Lemma run_year {A : Type} (y : Z) (cs : captures)
    (k : nat -> str -> captures -> option A) :
  run (re_Y decimal) 6 (zero_pad4 y) cs k =
  k 10%nat [] (("Y"%string, zero_pad4 y) :: cs).
Proof.
  unfold re_Y, digit, zero_pad4. cbn [run].
  rewrite !ascii_digit_isdecimal by apply digit_char_range.
  reflexivity.
Qed.

Lemma days_in_month_le_31 (y m : Z) :
  1 <= m <= 12 -> days_in_month y m <= 31.
Proof.
  intros H. unfold days_in_month.
  each_month H; destruct (is_leap y); vm_compute; discriminate.
Qed.

(** Parsing the DD-MM-YYYY literal of a valid date gives the date
    back. *)
Lemma strptime_strftime (d : date) :
  valid_date d -> strptime_dmY decimal (strftime_dmY d) = Return d.
Proof.
  intros V. pose proof V as (Hy & Hm & Hd).
  assert (Hd' : 1 <= day d <= 31).
  { pose proof (days_in_month_le_31 (year d) (month d) Hm). lia. }
  unfold strptime_dmY, re_match, re_dmY, strftime_dmY.
  rewrite run_day by exact Hd'.
  rewrite run_month by exact Hm.
  rewrite run_year.
  cbn [List.length app lit map list_ascii_of_string Nat.eqb negb group
       String.eqb Ascii.eqb Bool.eqb].
  rewrite int_zero_pad2 by lia. rewrite int_zero_pad2 by lia.
  rewrite int_zero_pad4 by (unfold MINYEAR, MAXYEAR in Hy; lia).
  cbn [bind]. pose proof (date_new_inv (year d) (month d) (day d)) as I.
  unfold date_new in *. unfold MINYEAR, MAXYEAR in *.
  replace ((1 <=? year d) && (year d <=? 9999)) with true in *
    by (symmetry; apply andb_true_iff; split; apply Z.leb_le; lia).
  replace ((1 <=? month d) && (month d <=? 12)) with true in *
    by (symmetry; apply andb_true_iff; split; apply Z.leb_le; lia).
  replace ((1 <=? day d) && (day d <=? days_in_month (year d) (month d)))
    with true in *
    by (symmetry; apply andb_true_iff; split; apply Z.leb_le; lia).
  cbn [negb]. now destruct d.
Qed.

End RoundTrip.
End RoundTrip.

(** ** The claims about the validator *)

Module ValidatorClaims.
Import Py Regex Datetime Hotel Rules Unicode.
Import PyFacts DateFacts ParseFacts ValidateFacts PhoneFacts RoundTrip.

Lemma phone_12345_rejected (decimal : N -> option N) :
  phone_ok decimal (lit "12345") = false.
Proof. unfold phone_ok. rewrite is_valid_phone_eq. reflexivity. Qed.

Lemma validate_phase2_rejects (decimal : N -> option N)
    (float_of_str : str -> option float) (today : date)
    (name phone room ci co price : str) (din dout : date) (m : str) :
  phase1_messages decimal name phone room ci co = [] ->
  strptime_dmY decimal ci = Return din ->
  strptime_dmY decimal co = Return dout ->
  In m (phase2_messages float_of_str today din dout price) ->
  validate_inputs decimal float_of_str today name phone room ci co price =
    Return (false, join NL (phase2_messages float_of_str today din dout price))
  /\ includes (join NL (phase2_messages float_of_str today din dout price)) m
     = true.
Proof.
  intros H1 Hi Ho Hm. split.
  - rewrite (validate_phase2 _ _ _ _ _ _ _ _ _ _ _ H1 Hi Ho).
    destruct (phase2_messages float_of_str today din dout price);
      [destruct Hm|reflexivity].
  - now apply contains_join.
Qed.

(** C2 as stated fails: with an empty name the validator returns after
    the first phase and the check-out message is not shown, although
    check-out equals check-in. *)
Lemma equal_dates_hidden_by_phase1 :
  ~ (forall (today : date) (name phone room ci co price : str) (d : date),
       strptime_dmY ascii_decimal ci = Return d ->
       strptime_dmY ascii_decimal co = Return d ->
       exists ok out,
         validate_inputs ascii_decimal numeral_float today
           name phone room ci co price = Return (ok, out)
         /\ includes out msg_order = true).
Proof.
  intros H.
  destruct (H (mkdate 2030 1 1) (lit "") (lit "") (lit "Double")
              (lit "05-01-2030") (lit "05-01-2030") (lit "5000")
              (mkdate 2030 1 5) eq_refl eq_refl) as (ok & out & E & I).
  vm_compute in E. injection E as <- <-. vm_compute in I. discriminate.
Qed.

(** C2, amended: for every input that passes rules 1 to 5 and whose
    check-out date equals its check-in date, the validator returns
    [False] and its error output includes "Check-out must be after
    Check-in.", whatever the current date and the price string are. *)
Theorem equal_dates_rejected (decimal : N -> option N)
    (float_of_str : str -> option float) (today : date)
    (name phone room ci co price : str) (d : date) :
  rules_1_to_5_pass decimal name phone room ci co = true ->
  strptime_dmY decimal ci = Return d ->
  strptime_dmY decimal co = Return d ->
  exists out,
    validate_inputs decimal float_of_str today name phone room ci co price =
      Return (false, out)
    /\ includes out msg_order = true.
Proof.
  intros H1 Hi Ho. apply (phase1_passes decimal float_of_str) in H1.
  eexists. apply (validate_phase2_rejects _ _ _ _ _ _ _ _ _ _ _ _ H1 Hi Ho).
  unfold phase2_messages, order_ok, date_lt. rewrite date_cmp_refl.
  apply in_or_app. right. now left.
Qed.

Lemma equal_dates_rejected_witness :
  exists out,
    validate_inputs ascii_decimal numeral_float (mkdate 2030 1 1)
      (lit "Jane Doe") (lit "") (lit "Double")
      (lit "05-01-2030") (lit "05-01-2030") (lit "5000") =
      Return (false, out)
    /\ includes out msg_order = true.
Proof.
  apply (equal_dates_rejected ascii_decimal numeral_float (mkdate 2030 1 1)
           (lit "Jane Doe") (lit "") (lit "Double")
           (lit "05-01-2030") (lit "05-01-2030") (lit "5000")
           (mkdate 2030 1 5)); reflexivity.
Defined.

Lemma long_stay_rejected (decimal : N -> option N)
    (float_of_str : str -> option float) (today : date)
    (name phone room ci co price : str) (din dout : date) :
  phase1_messages decimal name phone room ci co = [] ->
  strptime_dmY decimal ci = Return din ->
  strptime_dmY decimal co = Return dout ->
  30 < days_between dout din ->
  exists out,
    validate_inputs decimal float_of_str today name phone room ci co price =
      Return (false, out)
    /\ includes out msg_max_stay = true.
Proof.
  intros H1 Hi Ho Hd. eexists.
  apply (validate_phase2_rejects _ _ _ _ _ _ _ _ _ _ _ _ H1 Hi Ho).
  unfold phase2_messages, stay_ok.
  replace (days_between dout din <=? 30) with false
    by (symmetry; apply Z.leb_gt; exact Hd).
  apply in_or_app. right. apply in_or_app. right. now left.
Qed.

(** C7: for every input that passes rules 1 to 5, a stay longer than
    30 days makes the validator return [False] with an error output
    that includes "Maximum stay duration is 30 days."; when all the
    other rules pass (as for a 31-day stay with valid fields) that
    message is the whole output; and a stay of exactly 30 days does
    not produce the message. *)
Theorem max_stay_enforced (decimal : N -> option N)
    (float_of_str : str -> option float) (today : date)
    (name phone room ci co price : str) (din dout : date) :
  rules_1_to_5_pass decimal name phone room ci co = true ->
  strptime_dmY decimal ci = Return din ->
  strptime_dmY decimal co = Return dout ->
  (30 < days_between dout din ->
   exists out,
     validate_inputs decimal float_of_str today name phone room ci co price =
       Return (false, out)
     /\ includes out msg_max_stay = true)
  /\ (30 < days_between dout din ->
      not_past_ok today din = true -> price_ok float_of_str price = true ->
      validate_inputs decimal float_of_str today name phone room ci co price =
        Return (false, msg_max_stay))
  /\ (days_between dout din = 30 ->
      exists ok out,
        validate_inputs decimal float_of_str today name phone room ci co price =
          Return (ok, out)
        /\ includes out msg_max_stay = false).
Proof.
  intros H1 Hi Ho. apply (phase1_passes decimal float_of_str) in H1.
  split; [|split].
  - intros Hd.
    now apply (long_stay_rejected _ _ _ _ _ _ _ _ _ din dout).
  - intros Hd Hp Hf.
    rewrite (validate_phase2 _ _ _ _ _ _ _ _ _ _ _ H1 Hi Ho).
    assert (Hord : order_ok din dout = true).
    { unfold order_ok.
      rewrite (date_lt_toordinal _ _ (strptime_valid _ _ _ Hi)
                 (strptime_valid _ _ _ Ho)).
      apply Z.ltb_lt. unfold days_between in Hd. lia. }
    unfold phase2_messages, stay_ok, price_messages.
    unfold price_ok in Hf. rewrite Hp, Hord.
    replace (days_between dout din <=? 30) with false
      by (symmetry; apply Z.leb_gt; exact Hd).
    destruct (float_of_str price) as [p|]; [|discriminate].
    apply negb_true_iff in Hf. rewrite Hf. reflexivity.
  - intros Hd.
    rewrite (validate_phase2 _ _ _ _ _ _ _ _ _ _ _ H1 Hi Ho).
    unfold phase2_messages, stay_ok, price_messages. rewrite Hd.
    change (30 <=? 30) with true. cbn iota.
    destruct (not_past_ok today din), (order_ok din dout),
      (float_of_str price) as [p|]; try destruct (float_le p f_0);
      eexists; eexists; (split; [reflexivity|vm_compute; reflexivity]).
Qed.

Lemma max_stay_enforced_witness :
  validate_inputs ascii_decimal numeral_float (mkdate 2030 1 1)
    (lit "Jane Doe") (lit "") (lit "Double")
    (lit "05-01-2030") (lit "05-02-2030") (lit "5000") =
    Return (false, msg_max_stay)
  /\ exists ok out,
       validate_inputs ascii_decimal numeral_float (mkdate 2030 1 1)
         (lit "Jane Doe") (lit "") (lit "Double")
         (lit "05-01-2030") (lit "04-02-2030") (lit "5000") =
         Return (ok, out)
       /\ includes out msg_max_stay = false.
Proof.
  split.
  - apply (max_stay_enforced ascii_decimal numeral_float (mkdate 2030 1 1)
             (lit "Jane Doe") (lit "") (lit "Double")
             (lit "05-01-2030") (lit "05-02-2030") (lit "5000")
             (mkdate 2030 1 5) (mkdate 2030 2 5)
             eq_refl eq_refl eq_refl); reflexivity.
  - apply (max_stay_enforced ascii_decimal numeral_float (mkdate 2030 1 1)
             (lit "Jane Doe") (lit "") (lit "Double")
             (lit "05-01-2030") (lit "04-02-2030") (lit "5000")
             (mkdate 2030 1 5) (mkdate 2030 2 4)
             eq_refl eq_refl eq_refl); reflexivity.
Defined.

End ValidatorClaims.

(** ** The claims about the price calculator *)

Module PriceClaims.
Import Py Regex Datetime Hotel Rules Unicode.
Import PyFacts DateFacts ParseFacts.

Lemma str_eqb_sym (a b : str) : str_eqb a b = str_eqb b a.
Proof.
  unfold str_eqb.
  destruct (list_eq_dec N.eq_dec a b), (list_eq_dec N.eq_dec b a);
    congruence.
Qed.

(** [ROOM_PRICES.get(room, 0)] is the catalog rate. *)
Lemma room_prices_get (room : str) :
  dict_get ROOM_PRICES room 0 = catalog_rate room.
Proof.
  unfold catalog_rate, ROOM_PRICES, dict_get.
  now rewrite !(str_eqb_sym room).
Qed.

Lemma catalog_rate_pos (room : str) :
  0 <= catalog_rate room /\ (0 < catalog_rate room <-> room_ok room = true).
Proof.
  unfold catalog_rate, room_ok, str_in, ROOM_TYPES, existsb.
  destruct (str_eqb room (lit "Single")), (str_eqb room (lit "Double")),
    (str_eqb room (lit "Luxury")); cbn; intuition (lia || discriminate).
Qed.

Section Price.

Variable decimal : N -> option N.

Local Abbreviation price := (calculate_price decimal).
Local Abbreviation strptime := (strptime_dmY decimal).

(** What [calculate_price] returns, by cases on the two parses. *)
Lemma calculate_price_eq (a b room : str) :
  price a b room =
  match strptime a, strptime b with
  | Return da, Return db =>
      if days_between db da <=? 0 then Return None
      else Return (Some (days_between db da * catalog_rate room))
  | _, _ => Return None
  end.
Proof.
  unfold calculate_price.
  destruct (strptime a) as [da|ea]; [|reflexivity].
  destruct (strptime b) as [db|eb]; [|reflexivity].
  cbn [bind]. rewrite room_prices_get, Z.mul_comm.
  now destruct (days_between db da <=? 0).
Qed.

End Price.

(** C4: when both date strings parse and the check-out date is a
    strictly positive number of days after the check-in date, the
    price is that number of days times the catalog rate of the room
    (Single 2000, Double 5000, Luxury 10000); a room outside the
    catalog has rate 0 and the price is 0, not an error. *)
Theorem price_is_nights_times_rate (decimal : N -> option N)
    (a b room : str) (da db : date) :
  strptime_dmY decimal a = Return da ->
  strptime_dmY decimal b = Return db ->
  0 < days_between db da ->
  calculate_price decimal a b room =
    Return (Some (days_between db da * catalog_rate room))
  /\ catalog_rate (lit "Single") = 2000
  /\ catalog_rate (lit "Double") = 5000
  /\ catalog_rate (lit "Luxury") = 10000
  /\ (room_ok room = false ->
      catalog_rate room = 0 /\
      calculate_price decimal a b room = Return (Some 0)).
Proof.
  intros Ha Hb Hd.
  assert (E : calculate_price decimal a b room =
              Return (Some (days_between db da * catalog_rate room))).
  { rewrite calculate_price_eq, Ha, Hb.
    now replace (days_between db da <=? 0) with false
      by (symmetry; apply Z.leb_gt; exact Hd). }
  repeat split; try reflexivity; try exact E.
  - pose proof (catalog_rate_pos room) as [P0 P1].
    destruct (Z.eq_dec (catalog_rate room) 0) as [Z0|NZ]; [exact Z0|].
    assert (room_ok room = true) by (apply P1; lia). congruence.
  - rewrite E.
    pose proof (catalog_rate_pos room) as [P0 P1].
    destruct (Z.eq_dec (catalog_rate room) 0) as [Z0|NZ].
    + rewrite Z0, Z.mul_0_r. reflexivity.
    + assert (room_ok room = true) by (apply P1; lia). congruence.
Qed.

Lemma price_is_nights_times_rate_witness :
  calculate_price ascii_decimal (lit "28-02-2028") (lit "02-03-2028")
    (lit "Luxury") = Return (Some 30000)
  /\ calculate_price ascii_decimal (lit "28-02-2028") (lit "02-03-2028")
       (lit "Suite") = Return (Some 0).
Proof.
  split.
  - apply (price_is_nights_times_rate ascii_decimal
             (lit "28-02-2028") (lit "02-03-2028") (lit "Luxury")
             (mkdate 2028 2 28) (mkdate 2028 3 2)); reflexivity.
  - apply (price_is_nights_times_rate ascii_decimal
             (lit "28-02-2028") (lit "02-03-2028") (lit "Suite")
             (mkdate 2028 2 28) (mkdate 2028 3 2)); reflexivity.
Defined.

(** C5: for all date strings and every room, [calculate_price] returns
    the sentinel [None] exactly when one of the dates does not parse
    or the check-out date is not after the check-in date (difference
    in days at most 0); and it returns a value, never an exception. *)
Theorem price_undeterminable_iff (decimal : N -> option N)
    (a b room : str) :
  (calculate_price decimal a b room = Return None <->
   parses decimal a = false \/ parses decimal b = false \/
   exists da db,
     strptime_dmY decimal a = Return da /\
     strptime_dmY decimal b = Return db /\
     days_between db da <= 0)
  /\ exists r, calculate_price decimal a b room = Return r.
Proof.
  rewrite calculate_price_eq. unfold parses.
  destruct (strptime_dmY decimal a) as [da|ea].
  - destruct (strptime_dmY decimal b) as [db|eb].
    + destruct (days_between db da <=? 0) eqn:E.
      * split; [|now eexists]. split; [|reflexivity].
        intros _. right. right. exists da, db.
        apply Z.leb_le in E. auto.
      * split; [|now eexists]. apply Z.leb_gt in E. split.
        -- discriminate.
        -- intros [H|[H|(da' & db' & [= <-] & [= <-] & H)]];
             try discriminate. lia.
    + split; [|now eexists]. split; auto.
  - split; [|now eexists]. split; auto.
Qed.

(** C10: a price that is a number is never negative, and it is
    strictly positive exactly when the room is Single, Double or
    Luxury; it is the number of nights times the rate, whatever the
    number of nights: a stay of 1000 nights is priced, while the
    validator reports the same dates as longer than 30 days. *)
Theorem price_sign_and_no_cap (decimal : N -> option N)
    (float_of_str : str -> option float) (a b room : str) (v : Z) :
  calculate_price decimal a b room = Return (Some v) ->
  0 <= v
  /\ (0 < v <-> room_ok room = true)
  /\ (exists da db,
        strptime_dmY decimal a = Return da /\
        strptime_dmY decimal b = Return db /\
        0 < days_between db da /\
        v = days_between db da * catalog_rate room /\
        (days_between db da = 1000 -> v = 1000 * catalog_rate room) /\
        (30 < days_between db da ->
         forall today name phone price,
           rules_1_to_5_pass decimal name phone room a b = true ->
           exists out,
             validate_inputs decimal float_of_str today
               name phone room a b price = Return (false, out)
             /\ includes out msg_max_stay = true)).
Proof.
  rewrite calculate_price_eq.
  destruct (strptime_dmY decimal a) as [da|ea] eqn:Ha; [|discriminate].
  destruct (strptime_dmY decimal b) as [db|eb] eqn:Hb; [|discriminate].
  destruct (days_between db da <=? 0) eqn:E; [discriminate|].
  apply Z.leb_gt in E. intros [= <-].
  pose proof (catalog_rate_pos room) as [P0 P1].
  split; [nia|]. split.
  - rewrite <- P1. split; nia.
  - exists da, db. repeat split; try assumption.
    + intros ->. reflexivity.
    + intros Hd today name phone price H1.
      apply (ValidateFacts.phase1_passes decimal float_of_str) in H1.
      now apply (ValidatorClaims.long_stay_rejected _ _ _ _ _ _ _ _ _ da db).
Qed.

Lemma price_sign_and_no_cap_witness :
  calculate_price ascii_decimal (lit "01-01-2030") (lit "27-09-2032")
    (lit "Single") = Return (Some 2000000)
  /\ 0 <= 2000000
  /\ (0 < 2000000 <-> room_ok (lit "Single") = true).
Proof.
  assert (E : calculate_price ascii_decimal (lit "01-01-2030")
                (lit "27-09-2032") (lit "Single") = Return (Some 2000000))
    by (vm_compute; reflexivity).
  split; [exact E|].
  destruct (price_sign_and_no_cap ascii_decimal numeral_float
              (lit "01-01-2030") (lit "27-09-2032") (lit "Single")
              2000000 E) as (H1 & H2 & _).
  split; assumption.
Defined.

End PriceClaims.

(** ** The claims about the sentiment classifier *)

Module SentimentClaims.
Import Py Regex Datetime Hotel Rules Unicode.
Import PyFacts.

Lemma count_if_filter {A : Type} (p : A -> bool) (l : list A) :
  count_if p l = Z.of_nat (List.length (filter p l)).
Proof.
  induction l as [|x l IH]; [reflexivity|].
  cbn [count_if filter]. rewrite IH.
  destruct (p x); cbn [List.length]; lia.
Qed.

Section Sentiment.

Variable str_lower : str -> str.
Variable vader_compound : str -> float.

Local Abbreviation fallback := (analyze_sentiment str_lower false vader_compound).

(** The fallback branch, on the trimmed and lowercased text. *)
Lemma fallback_eq (s : str) :
  truthy (strip s) = true ->
  fallback (Some s) =
  let text := str_lower (strip s) in
  let p := term_count positive_words text in
  let n := term_count negative_words text in
  if (n <? p)%nat then Positive
  else if (p <? n)%nat then Negative
  else Neutral.
Proof.
  intros H. unfold analyze_sentiment.
  assert (Hs : truthy s = true).
  { destruct s; [discriminate H|reflexivity]. }
  rewrite Hs, H. cbn [negb]. rewrite !count_if_filter. unfold term_count.
  cbv zeta.
  set (p := List.length (filter _ positive_words)).
  set (n := List.length (filter _ negative_words)).
  rewrite !Z.gtb_ltb.
  destruct (Nat.ltb_spec n p), (Nat.ltb_spec p n);
    destruct (Z.ltb_spec (Z.of_nat n) (Z.of_nat p)),
             (Z.ltb_spec (Z.of_nat p) (Z.of_nat n));
    try reflexivity; lia.
Qed.

End Sentiment.

(** A term that occurs several times counts once: two "good" and one
    "bad" are a tie. *)
Example repeated_term_counts_once :
  analyze_sentiment ascii_lower false (fun _ => FNan)
    (Some (lit "good, good, but bad")) = Neutral.
Proof. reflexivity. Qed.

(** C3: in fallback mode, for every text that is not empty after
    trimming, the label is decided by the number of positive terms and
    the number of negative terms that occur as substrings of the
    trimmed, lowercased text: Positive when there are more positive
    terms, Negative when there are more negative terms, Neutral on a
    tie (0 to 0 included).  A text with "poorly" counts for "poor".
    The three sample texts get Positive, Negative and Neutral. *)
Theorem fallback_classification (str_lower : str -> str)
    (vader_compound : str -> float) :
  (forall s : str,
     truthy (strip s) = true ->
     let text := str_lower (strip s) in
     let p := term_count positive_words text in
     let n := term_count negative_words text in
     let label := analyze_sentiment str_lower false vader_compound (Some s) in
     ((p > n)%nat -> label = Positive) /\
     ((n > p)%nat -> label = Negative) /\
     (p = n -> label = Neutral))
  /\ positive_words =
       map lit ["good"; "great"; "excellent"; "amazing"; "wonderful";
                "fantastic"; "nice"]%string
  /\ negative_words =
       map lit ["bad"; "terrible"; "awful"; "horrible"; "poor";
                "disappointing"]%string
  /\ (forall text : str,
        contains text (lit "poorly") = true ->
        contains text (lit "poor") = true)
  /\ (lower_on_ascii str_lower ->
      analyze_sentiment str_lower false vader_compound
        (Some (lit "The room was great and the staff were nice")) = Positive
      /\ analyze_sentiment str_lower false vader_compound
           (Some (lit "Terrible, awful experience")) = Negative
      /\ analyze_sentiment str_lower false vader_compound
           (Some (lit "good but bad")) = Neutral).
Proof.
  split; [|split; [reflexivity|split; [reflexivity|split]]].
  - intros s H text p n label. subst label.
    rewrite (fallback_eq _ _ _ H). cbv zeta. fold text. fold p. fold n.
    clearbody p n.
    destruct (Nat.ltb_spec n p), (Nat.ltb_spec p n);
      repeat split; intros; try reflexivity; lia.
  - intros text H. apply (contains_prefix text (lit "poor") (lit "ly")).
    exact H.
  - intros L.
    repeat split; rewrite fallback_eq by reflexivity; cbv zeta;
      rewrite L by reflexivity; reflexivity.
Qed.

Lemma fallback_classification_witness :
  analyze_sentiment ascii_lower false (fun _ => FNan)
    (Some (lit "The room was great and the staff were nice")) = Positive
  /\ analyze_sentiment ascii_lower false (fun _ => FNan)
       (Some (lit "  Poorly cleaned, BAD service but nice view ")) = Negative.
Proof.
  pose proof (fallback_classification ascii_lower (fun _ => FNan))
    as (Hgen & _ & _ & _ & Hex).
  split.
  - apply Hex. intros s _. reflexivity.
  - apply (Hgen (lit "  Poorly cleaned, BAD service but nice view ")).
    + reflexivity.
    + vm_compute. lia.
Defined.

(** C9: a review that is absent, empty or made of whitespace only is
    Neutral, in either mode and whatever the analyzers would say. *)
Theorem blank_review_neutral (str_lower : str -> str) (USE_VADER : bool)
    (vader_compound : str -> float) (review : option str) :
  match review with
  | None => True
  | Some s => forallb isspace s = true
  end ->
  analyze_sentiment str_lower USE_VADER vader_compound review = Neutral.
Proof.
  intros H. unfold analyze_sentiment.
  assert (E : strip match review with
                    | Some s => if truthy s then s else lit ""
                    | None => lit ""
                    end = []).
  { destruct review as [s|]; [|reflexivity].
    destruct (truthy s); [|reflexivity].
    now apply strip_all_space. }
  rewrite E. reflexivity.
Qed.

Lemma blank_review_neutral_witness :
  analyze_sentiment ascii_lower true (fun _ => FInf false) None = Neutral
  /\ analyze_sentiment ascii_lower true (fun _ => FInf false)
       (Some (lit "")) = Neutral
  /\ analyze_sentiment ascii_lower false (fun _ => FInf false)
       (Some (lit "   ")) = Neutral.
Proof.
  split; [|split].
  - apply (blank_review_neutral ascii_lower true (fun _ => FInf false) None).
    exact I.
  - apply (blank_review_neutral ascii_lower true (fun _ => FInf false)
             (Some (lit ""))).
    reflexivity.
  - apply (blank_review_neutral ascii_lower false (fun _ => FInf false)
             (Some (lit "   "))).
    reflexivity.
Defined.

End SentimentClaims.

(** ** The claim about the phone rule *)

Module PhoneClaims.
Import Py Regex Datetime Hotel Rules Unicode.
Import PyFacts PhoneFacts.

Section Format.

Variable decimal : N -> option N.

Lemma ten_digits_eos_iff (s : str) :
  ten_digits_eos decimal s = true <->
  ten_digits decimal s = true \/
  exists t, s = t ++ NL /\ ten_digits decimal t = true.
Proof.
  unfold ten_digits_eos, ten_digits. split.
  - intros H. apply andb_true_iff in H as [H Hk].
    apply andb_true_iff in H as [Hl Hd]. apply Nat.leb_le in Hl.
    pose proof (firstn_skipn 10 s) as Es.
    assert (Lf : List.length (firstn 10 s) = 10%nat)
      by (rewrite length_firstn; lia).
    destruct (skipn 10 s) as [|c [|c' r]]; [| |discriminate].
    + left. rewrite app_nil_r in Es. rewrite <- Es, Lf, Hd. reflexivity.
    + right. apply N.eqb_eq in Hk. subst c.
      exists (firstn 10 s). rewrite Lf, Hd. now split.
  - intros [H|(t & -> & H)];
      apply andb_true_iff in H as [Hl Hd]; apply Nat.eqb_eq in Hl.
    + rewrite firstn_all2, skipn_all2, Hd by lia.
      rewrite Hl. reflexivity.
    + rewrite length_app, firstn_app, skipn_app, Hl.
      rewrite firstn_all2, skipn_all2 by lia.
      cbn. rewrite app_nil_r, Hd. reflexivity.
Qed.

(** What [is_valid_phone] accepts: a blank string, the phone format,
    or the phone format followed by one newline. *)
Lemma is_valid_phone_spec (s : str) :
  is_valid_phone decimal s = true <->
  forallb isspace s = true \/
  phone_format decimal s = true \/
  exists t, s = t ++ NL /\ phone_format decimal t = true.
Proof.
  rewrite is_valid_phone_eq, truthy_strip, negb_involutive.
  unfold phone_format. rewrite !orb_true_iff. split.
  - intros [H|[H|H]].
    + now left.
    + destruct s as [|c t]; [discriminate|].
      apply andb_true_iff in H as [Hc H].
      apply ten_digits_eos_iff in H as [H|(u & -> & H)].
      * right. left. right. now rewrite Hc, H.
      * right. right. exists (c :: u). split; [reflexivity|].
        apply orb_true_iff. right. now rewrite Hc, H.
    + apply ten_digits_eos_iff in H as [H|(u & -> & H)].
      * right. left. now left.
      * right. right. exists u. split; [reflexivity|].
        apply orb_true_iff. now left.
  - intros [H|[[H|H]|(t & -> & H)]].
    + now left.
    + right. right. apply ten_digits_eos_iff. now left.
    + right. left. destruct s as [|c t]; [discriminate|].
      apply andb_true_iff in H as [Hc H]. rewrite Hc.
      apply ten_digits_eos_iff. now left.
    + apply orb_true_iff in H as [H|H].
      * right. right. apply ten_digits_eos_iff. right. now exists t.
      * right. left. destruct t as [|c t]; [discriminate|].
        apply andb_true_iff in H as [Hc H]. cbn [app]. rewrite Hc.
        apply ten_digits_eos_iff. right. now exists t.
Qed.

Lemma isdecimal_on_ascii (l : str) :
  decimal_on_ascii decimal -> is_ascii l = true ->
  forallb (isdecimal decimal) l = forallb (isdecimal ascii_decimal) l.
Proof.
  intros D. induction l as [|c l IH]; [reflexivity|].
  cbn [is_ascii forallb]. intros H. apply andb_true_iff in H as [Hc Hl].
  apply N.ltb_lt in Hc. unfold isdecimal at 1 3. rewrite (D c Hc).
  now rewrite (IH Hl).
Qed.

End Format.

(** C6, at the phone ["1234567890\n"]: the phone is not empty after
    trimming and is not an optional [+] followed by exactly ten digits
    (a newline follows the digits), yet [is_valid_phone] accepts it,
    because [$] also matches before a newline that ends the string.
    The pattern is applied to the phone as given, not to the trimmed
    phone: [" 1234567890"] is rejected although its trimmed form has
    the format. *)
Theorem phone_trailing_newline_accepted (decimal : N -> option N) :
  decimal_on_ascii decimal ->
  truthy (strip (lit "1234567890" ++ NL)) = true
  /\ phone_format decimal (lit "1234567890" ++ NL) = false
  /\ is_valid_phone decimal (lit "1234567890" ++ NL) = true
  /\ is_valid_phone decimal (lit " 1234567890") = false
  /\ phone_format decimal (strip (lit " 1234567890")) = true.
Proof.
  intros D. split; [reflexivity|]. split; [reflexivity|]. split; [|split].
  - apply is_valid_phone_spec. right. right.
    exists (lit "1234567890"). split; [reflexivity|].
    unfold phone_format, ten_digits.
    rewrite (isdecimal_on_ascii decimal _ D) by reflexivity.
    reflexivity.
  - rewrite is_valid_phone_eq. unfold ten_digits_eos.
    rewrite (isdecimal_on_ascii decimal _ D) by reflexivity.
    reflexivity.
  - unfold phone_format, ten_digits.
    rewrite (isdecimal_on_ascii decimal _ D) by reflexivity.
    reflexivity.
Qed.

Lemma phone_trailing_newline_accepted_witness :
  is_valid_phone ascii_decimal (lit "1234567890" ++ NL) = true.
Proof.
  apply (phone_trailing_newline_accepted ascii_decimal).
  intros c _. reflexivity.
Defined.

End PhoneClaims.

(** ** The validator against rules 2 and 9 of the specification *)

Module RuleFacts.
Import Py Regex Datetime Hotel Rules Unicode SpecRules.
Import PyFacts DateFacts ParseFacts ValidateFacts PhoneFacts RoundTrip.

Section Phone.

Variable decimal : N -> option N.

(** The program's phone test accepts what rule 2 accepts, and the
    phone format followed by one newline. *)
Lemma phone_ok_cases (phone : str) :
  phone_ok decimal phone = true <->
  phone_rule decimal phone = true \/ format_then_newline decimal phone.
Proof.
  unfold phone_ok, phone_rule, format_then_newline.
  rewrite PhoneClaims.is_valid_phone_spec, truthy_strip, negb_involutive.
  rewrite orb_true_iff. tauto.
Qed.

Lemma phone_ok_rule (phone : str) :
  ~ format_then_newline decimal phone ->
  phone_ok decimal phone = phone_rule decimal phone.
Proof.
  intros H. pose proof (phone_ok_cases phone) as C.
  destruct (phone_ok decimal phone), (phone_rule decimal phone);
    try reflexivity.
  - destruct (proj1 C eq_refl) as [X|X]; [discriminate|now destruct H].
  - apply C. now left.
Qed.

End Phone.

Section Price.

Variable float_of_str : str -> option float.

(** The program's price test [not (price <= 0)] accepts what rule 9
    accepts, and a NaN. *)
Lemma price_ok_cases (price : str) :
  price_ok float_of_str price = true <->
  price_rule float_of_str price = true \/ float_of_str price = Some FNan.
Proof.
  unfold price_ok, price_rule.
  destruct (float_of_str price) as [[|[|]|q]|]; cbn;
    try destruct (Qle_bool q 0); cbn;
    intuition (discriminate || reflexivity).
Qed.

Lemma price_ok_rule (price : str) :
  float_of_str price <> Some FNan ->
  price_ok float_of_str price = price_rule float_of_str price
  /\ price_messages float_of_str price = price_errors float_of_str price.
Proof.
  unfold price_ok, price_rule, price_messages, price_errors.
  destruct (float_of_str price) as [[|[|]|q]|]; cbn; intros H;
    try (split; reflexivity).
  - now destruct H.
  - destruct (Qle_bool q 0); split; reflexivity.
Qed.

End Price.

Section Bridge.

Variable decimal : N -> option N.
Variable float_of_str : str -> option float.

Lemma rules_1_to_5_eq (name phone room ci co : str) :
  ~ format_then_newline decimal phone ->
  rules_1_to_5 decimal name phone room ci co =
    rules_1_to_5_pass decimal name phone room ci co
  /\ phase1_errors decimal name phone room ci co =
       phase1_messages decimal name phone room ci co.
Proof.
  intros H. unfold rules_1_to_5, rules_1_to_5_pass, phase1_errors,
    phase1_messages.
  now rewrite (phone_ok_rule decimal phone H).
Qed.

Lemma every_rule_eq (today : date) (name phone room ci co price : str) :
  ~ format_then_newline decimal phone ->
  float_of_str price <> Some FNan ->
  every_rule_passes decimal float_of_str today name phone room ci co price =
    all_rules_pass decimal float_of_str today name phone room ci co price
  /\ collected_errors decimal float_of_str today name phone room ci co price =
       collected_messages decimal float_of_str today
         name phone room ci co price.
Proof.
  intros Hp Hf.
  destruct (rules_1_to_5_eq name phone room ci co Hp) as [E1 E2].
  destruct (price_ok_rule float_of_str price Hf) as [E3 E4].
  unfold every_rule_passes, all_rules_pass, collected_errors,
    collected_messages, phase2_errors, phase2_messages.
  now rewrite E1, E2, E3, E4.
Qed.

(** Every rule passing makes every test of the program pass. *)
Lemma every_rule_all_checks (today : date)
    (name phone room ci co price : str) :
  every_rule_passes decimal float_of_str today name phone room ci co price
    = true ->
  all_rules_pass decimal float_of_str today name phone room ci co price
    = true.
Proof.
  unfold every_rule_passes, all_rules_pass, rules_1_to_5, rules_1_to_5_pass.
  intros H. apply andb_true_iff in H as [H1 H2].
  rewrite !andb_true_iff in H1. destruct H1 as [[[[Hn Hp] Hr] Hi] Ho].
  assert (Pp : phone_ok decimal phone = true)
    by (apply phone_ok_cases; now left).
  rewrite Hn, Pp, Hr, Hi, Ho. cbn [andb].
  destruct (strptime_dmY decimal ci); [|discriminate].
  destruct (strptime_dmY decimal co); [|discriminate].
  apply andb_true_iff in H2 as [H2 Hf]. rewrite H2. cbn [andb].
  apply price_ok_cases. now left.
Qed.

(** The ten digits followed by a newline: rule 2 fails, the program's
    test passes. *)
Lemma newline_phone :
  decimal_on_ascii decimal ->
  phone_rule decimal (lit "1234567890" ++ NL) = false
  /\ phone_ok decimal (lit "1234567890" ++ NL) = true.
Proof.
  intros D. split; [reflexivity|].
  apply phone_ok_cases. right. exists (lit "1234567890").
  split; [reflexivity|].
  unfold phone_format, ten_digits.
  rewrite (PhoneClaims.isdecimal_on_ascii decimal _ D) by reflexivity.
  reflexivity.
Qed.

(** What the validator returns, by the program's tests. *)
Lemma validate_by_checks (today : date) (name phone room ci co price : str) :
  (all_rules_pass decimal float_of_str today
     name phone room ci co price = true ->
   validate_inputs decimal float_of_str today
     name phone room ci co price = Return (true, lit ""))
  /\ (all_rules_pass decimal float_of_str today
        name phone room ci co price = false ->
      collected_messages decimal float_of_str today
        name phone room ci co price <> []
      /\ validate_inputs decimal float_of_str today
           name phone room ci co price =
         Return (false,
                 join NL (collected_messages decimal float_of_str today
                            name phone room ci co price))).
Proof.
  unfold all_rules_pass, collected_messages.
  destruct (phase1_messages decimal name phone room ci co) as [|m l] eqn:E1.
  - pose proof (proj1 (phase1_passes decimal float_of_str _ _ _ _ _) E1)
      as P.
    pose proof (proj1 (phase1_nil decimal float_of_str _ _ _ _ _) E1)
      as (_ & _ & _ & Hi & Ho).
    rewrite P. cbn [andb].
    apply parses_true in Hi as [din Hi], Ho as [dout Ho].
    rewrite (validate_phase2 _ _ _ _ _ _ _ _ _ _ _ E1 Hi Ho), Hi, Ho.
    pose proof (phase2_nil float_of_str today din dout price) as N2.
    destruct (phase2_messages float_of_str today din dout price) as [|m l].
    + destruct (proj1 N2 eq_refl) as (-> & -> & -> & ->).
      split; [reflexivity|discriminate].
    + split.
      * intros A. rewrite !andb_true_iff in A.
        destruct N2 as [_ N2]. discriminate N2. tauto.
      * intros _. split; [discriminate|reflexivity].
  - assert (N1 : rules_1_to_5_pass decimal name phone room ci co = false).
    { apply (phase1_fails decimal float_of_str). rewrite E1. discriminate. }
    rewrite N1. cbv iota. split; [discriminate|].
    intros _. split; [discriminate|].
    rewrite <- E1. apply validate_phase1. rewrite E1. discriminate.
Qed.

(** The candidate of the specification's example, with any phone and
    price the program's tests accept. *)
Lemma next_day_booking_accepted (today tomorrow : date) (phone price : str) :
  decimal_on_ascii decimal ->
  valid_date today -> valid_date tomorrow ->
  toordinal tomorrow = toordinal today + 1 ->
  phone_ok decimal phone = true ->
  price_ok float_of_str price = true ->
  validate_inputs decimal float_of_str today
    (lit "Jane Doe") phone (lit "Double")
    (strftime_dmY today) (strftime_dmY tomorrow) price =
  Return (true, lit "").
Proof.
  intros D Vi Vo Hd Hp Hf.
  pose proof (strptime_strftime decimal D today Vi) as Hi.
  pose proof (strptime_strftime decimal D tomorrow Vo) as Ho.
  apply validate_by_checks. unfold all_rules_pass. rewrite Hi, Ho.
  unfold rules_1_to_5_pass, check_in_ok, check_out_ok, parses.
  rewrite Hi, Ho, Hp, Hf.
  unfold not_past_ok, order_ok, stay_ok, days_between.
  rewrite !(date_lt_toordinal _ _ Vi Vi), (date_lt_toordinal _ _ Vi Vo).
  rewrite Z.ltb_irrefl, Hd.
  replace (toordinal today <? toordinal today + 1) with true
    by (symmetry; apply Z.ltb_lt; lia).
  replace (toordinal today + 1 - toordinal today <=? 30) with true
    by (symmetry; apply Z.leb_le; lia).
  reflexivity.
Qed.

End Bridge.

End RuleFacts.

Module RuleClaims.
Import Py Regex Datetime Hotel Rules Unicode SpecRules.
Import PyFacts DateFacts ParseFacts ValidateFacts PhoneFacts RoundTrip.
Import RuleFacts.

(** C1, with rule 2 as the specification words it (empty after
    trimming, or an optional [+] and exactly ten digits).  Whenever at
    least one of rules 1 to 5 fails and the phone is not the phone
    format followed by a newline, the validator returns [False] with
    exactly the messages of the failing rules among 1 to 5, in rule
    order, joined by newlines, and the result does not depend on the
    current date, on the price string or on [float], so rules 6 to 9
    are not evaluated; an empty name with phone ["12345"] gives the
    name message followed by the phone message.  The claim fails at
    the phone ["1234567890\n"], which [is_valid_phone] lets through:
    with every other rule passing rule 2 fails and the validator
    returns [(True, "")]; with an empty name the output is the name
    message alone, without the phone message. *)
Theorem two_phase_validation (decimal : N -> option N)
    (float_of_str : str -> option float) (today : date)
    (name phone room ci co price : str) :
  (rules_1_to_5 decimal name phone room ci co = false ->
   ~ format_then_newline decimal phone ->
   phase1_errors decimal name phone room ci co <> []
   /\ validate_inputs decimal float_of_str today name phone room ci co price =
        Return (false, join NL (phase1_errors decimal name phone room ci co))
   /\ forall float_of_str' today' price',
        validate_inputs decimal float_of_str' today' name phone room ci co
          price' =
        validate_inputs decimal float_of_str today name phone room ci co
          price)
  /\ (room_ok room = true -> check_in_ok decimal ci = true ->
      check_out_ok decimal co = true ->
      validate_inputs decimal float_of_str today (lit "") (lit "12345")
        room ci co price =
      Return (false, msg_name ++ NL ++ msg_phone))
  /\ (forall tomorrow : date,
        decimal_on_ascii decimal ->
        valid_date today -> valid_date tomorrow ->
        toordinal tomorrow = toordinal today + 1 ->
        price_rule float_of_str price = true ->
        rules_1_to_5 decimal (lit "Jane Doe") (lit "1234567890" ++ NL)
          (lit "Double") (strftime_dmY today) (strftime_dmY tomorrow) = false
        /\ phase1_errors decimal (lit "Jane Doe") (lit "1234567890" ++ NL)
             (lit "Double") (strftime_dmY today) (strftime_dmY tomorrow) =
           [msg_phone]
        /\ validate_inputs decimal float_of_str today
             (lit "Jane Doe") (lit "1234567890" ++ NL) (lit "Double")
             (strftime_dmY today) (strftime_dmY tomorrow) price =
           Return (true, lit ""))
  /\ (decimal_on_ascii decimal ->
      room_ok room = true -> check_in_ok decimal ci = true ->
      check_out_ok decimal co = true ->
      phase1_errors decimal (lit "") (lit "1234567890" ++ NL) room ci co =
        [msg_name; msg_phone]
      /\ validate_inputs decimal float_of_str today
           (lit "") (lit "1234567890" ++ NL) room ci co price =
         Return (false, msg_name)).
Proof.
  split; [|split; [|split]].
  - intros H N.
    destruct (rules_1_to_5_eq decimal name phone room ci co N) as [E1 E2].
    rewrite E1 in H. rewrite E2.
    apply (phase1_fails decimal float_of_str) in H.
    split; [exact H|]. split.
    + now apply validate_phase1.
    + intros f' t' p'. now rewrite !validate_phase1.
  - intros Hr Hi Ho. rewrite validate_phase1.
    + unfold phase1_messages.
      rewrite ValidatorClaims.phone_12345_rejected, Hr, Hi, Ho. reflexivity.
    + unfold phase1_messages. rewrite ValidatorClaims.phone_12345_rejected.
      cbn. discriminate.
  - intros tomorrow D Vi Vo Hd Hf.
    destruct (newline_phone decimal D) as [R P].
    pose proof (strptime_strftime decimal D today Vi) as Hi.
    pose proof (strptime_strftime decimal D tomorrow Vo) as Ho.
    split; [|split].
    + unfold rules_1_to_5. rewrite R. reflexivity.
    + unfold phase1_errors, check_in_ok, check_out_ok, parses.
      rewrite R, Hi, Ho. reflexivity.
    + apply (next_day_booking_accepted decimal float_of_str); try assumption.
      apply price_ok_cases. now left.
  - intros D Hr Hi Ho.
    destruct (newline_phone decimal D) as [R P]. split.
    + unfold phase1_errors. rewrite R, Hr, Hi, Ho. reflexivity.
    + rewrite validate_phase1.
      * unfold phase1_messages. rewrite P, Hr, Hi, Ho. reflexivity.
      * unfold phase1_messages. rewrite P, Hr, Hi, Ho. discriminate.
Qed.

Lemma two_phase_validation_witness :
  validate_inputs ascii_decimal numeral_float (mkdate 2030 12 31)
    (lit "") (lit "12345") (lit "Suite") (lit "31-12-2030") (lit "2031-01-01")
    (lit "5000") =
    Return (false,
            join NL [msg_name; msg_phone; msg_room; msg_check_out])
  /\ validate_inputs ascii_decimal numeral_float (mkdate 2030 12 31)
       (lit "Jane Doe") (lit "1234567890" ++ NL) (lit "Double")
       (lit "31-12-2030") (lit "01-01-2031") (lit "5000") =
     Return (true, lit "").
Proof.
  split.
  - apply (proj1 (two_phase_validation ascii_decimal numeral_float
                    (mkdate 2030 12 31) (lit "") (lit "12345") (lit "Suite")
                    (lit "31-12-2030") (lit "2031-01-01") (lit "5000"))).
    + reflexivity.
    + intros (t & E & F).
      destruct t as [|a [|b [|c [|d [|e [|f t]]]]]];
        vm_compute in E; discriminate E.
  - apply (proj1 (proj2 (proj2 (two_phase_validation ascii_decimal
                                  numeral_float (mkdate 2030 12 31)
                                  (lit "") (lit "12345") (lit "Suite")
                                  (lit "31-12-2030") (lit "2031-01-01")
                                  (lit "5000")))) (mkdate 2031 1 1)).
    + intros c _. reflexivity.
    + vm_compute. intuition discriminate.
    + vm_compute. intuition discriminate.
    + reflexivity.
    + reflexivity.
Defined.

(** C8, with rules 2 and 9 as the specification words them.  The
    candidate "Jane Doe", empty phone, "Double", check-in today,
    check-out the day after, price "5000" is accepted with an empty
    error output.  For every input: when every applicable rule passes
    the validator returns [(True, "")]; when a rule fails it returns
    [False] with the collected messages, at least one, joined by
    newlines, unless the phone is the phone format followed by a
    newline or [float] reads the price as a NaN.  Those two are
    accepted although a rule fails: [(True, "")] is returned exactly
    when every rule passes with rule 2 also passing such a phone and
    rule 9 also passing a NaN; so "exactly when every rule passes"
    fails at the phone ["1234567890\n"] and at a NaN price. *)
Theorem acceptance_by_rules (decimal : N -> option N)
    (float_of_str : str -> option float) (today : date) :
  (forall tomorrow : date,
     decimal_on_ascii decimal ->
     valid_date today -> valid_date tomorrow ->
     toordinal tomorrow = toordinal today + 1 ->
     float_of_str (lit "5000") = Some (FFin (inject_Z 5000)) ->
     every_rule_passes decimal float_of_str today
       (lit "Jane Doe") (lit "") (lit "Double")
       (strftime_dmY today) (strftime_dmY tomorrow) (lit "5000") = true
     /\ validate_inputs decimal float_of_str today
          (lit "Jane Doe") (lit "") (lit "Double")
          (strftime_dmY today) (strftime_dmY tomorrow) (lit "5000") =
        Return (true, lit ""))
  /\ (forall name phone room ci co price : str,
        every_rule_passes decimal float_of_str today
          name phone room ci co price = true ->
        validate_inputs decimal float_of_str today
          name phone room ci co price = Return (true, lit ""))
  /\ (forall name phone room ci co price : str,
        every_rule_passes decimal float_of_str today
          name phone room ci co price = false ->
        ~ format_then_newline decimal phone ->
        float_of_str price <> Some FNan ->
        collected_errors decimal float_of_str today
          name phone room ci co price <> []
        /\ validate_inputs decimal float_of_str today
             name phone room ci co price =
           Return (false,
                   join NL (collected_errors decimal float_of_str today
                              name phone room ci co price)))
  /\ (forall name phone room ci co price : str,
        validate_inputs decimal float_of_str today
          name phone room ci co price = Return (true, lit "") <->
        exists din dout,
          strptime_dmY decimal ci = Return din
          /\ strptime_dmY decimal co = Return dout
          /\ name_ok name = true
          /\ (phone_rule decimal phone = true \/
              format_then_newline decimal phone)
          /\ room_ok room = true
          /\ not_past_ok today din = true
          /\ order_ok din dout = true
          /\ stay_ok din dout = true
          /\ (price_rule float_of_str price = true \/
              float_of_str price = Some FNan))
  /\ (forall tomorrow : date,
        decimal_on_ascii decimal ->
        valid_date today -> valid_date tomorrow ->
        toordinal tomorrow = toordinal today + 1 ->
        float_of_str (lit "5000") = Some (FFin (inject_Z 5000)) ->
        every_rule_passes decimal float_of_str today
          (lit "Jane Doe") (lit "1234567890" ++ NL) (lit "Double")
          (strftime_dmY today) (strftime_dmY tomorrow) (lit "5000") = false
        /\ validate_inputs decimal float_of_str today
             (lit "Jane Doe") (lit "1234567890" ++ NL) (lit "Double")
             (strftime_dmY today) (strftime_dmY tomorrow) (lit "5000") =
           Return (true, lit ""))
  /\ (forall (tomorrow : date) (price : str),
        decimal_on_ascii decimal ->
        valid_date today -> valid_date tomorrow ->
        toordinal tomorrow = toordinal today + 1 ->
        float_of_str price = Some FNan ->
        every_rule_passes decimal float_of_str today
          (lit "Jane Doe") (lit "") (lit "Double")
          (strftime_dmY today) (strftime_dmY tomorrow) price = false
        /\ validate_inputs decimal float_of_str today
             (lit "Jane Doe") (lit "") (lit "Double")
             (strftime_dmY today) (strftime_dmY tomorrow) price =
           Return (true, lit "")).
Proof.
  assert (A : forall name phone room ci co price : str,
             every_rule_passes decimal float_of_str today
               name phone room ci co price = true ->
             validate_inputs decimal float_of_str today
               name phone room ci co price = Return (true, lit "")).
  { intros name phone room ci co price H.
    apply validate_by_checks. now apply every_rule_all_checks. }
  assert (P2 : forall (tomorrow : date) (price : str) (b : bool),
             decimal_on_ascii decimal ->
             valid_date today -> valid_date tomorrow ->
             toordinal tomorrow = toordinal today + 1 ->
             price_rule float_of_str price = b ->
             forall phone, phone_rule decimal phone = true ->
             every_rule_passes decimal float_of_str today
               (lit "Jane Doe") phone (lit "Double")
               (strftime_dmY today) (strftime_dmY tomorrow) price = b).
  { intros tomorrow price b D Vi Vo Hd Hf phone Hp.
    pose proof (strptime_strftime decimal D today Vi) as Hi.
    pose proof (strptime_strftime decimal D tomorrow Vo) as Ho.
    unfold every_rule_passes, rules_1_to_5, check_in_ok, check_out_ok, parses.
    rewrite Hi, Ho, Hp, Hf.
    unfold not_past_ok, order_ok, stay_ok, days_between.
    rewrite !(date_lt_toordinal _ _ Vi Vi), (date_lt_toordinal _ _ Vi Vo).
    rewrite Z.ltb_irrefl, Hd.
    replace (toordinal today <? toordinal today + 1) with true
      by (symmetry; apply Z.ltb_lt; lia).
    replace (toordinal today + 1 - toordinal today <=? 30) with true
      by (symmetry; apply Z.leb_le; lia).
    reflexivity. }
  split; [|split; [exact A|split; [|split; [|split]]]].
  - intros tomorrow D Vi Vo Hd Hf.
    assert (E : every_rule_passes decimal float_of_str today
                  (lit "Jane Doe") (lit "") (lit "Double")
                  (strftime_dmY today) (strftime_dmY tomorrow) (lit "5000")
                = true).
    { apply (P2 tomorrow); try assumption; [|reflexivity].
      unfold price_rule. rewrite Hf. reflexivity. }
    split; [exact E|now apply A].
  - intros name phone room ci co price H Np Nf.
    destruct (every_rule_eq decimal float_of_str today
                name phone room ci co price Np Nf) as [E1 E2].
    rewrite E1 in H. rewrite E2.
    now apply validate_by_checks.
  - intros name phone room ci co price.
    pose proof (validate_by_checks decimal float_of_str today
                  name phone room ci co price) as [Ht Hf].
    assert (V : validate_inputs decimal float_of_str today
                  name phone room ci co price = Return (true, lit "") <->
                all_rules_pass decimal float_of_str today
                  name phone room ci co price = true).
    { split; [|exact Ht].
      destruct (all_rules_pass decimal float_of_str today
                  name phone room ci co price); [reflexivity|].
      destruct (Hf eq_refl) as [_ E]. rewrite E. discriminate. }
    rewrite V. unfold all_rules_pass, rules_1_to_5_pass, check_in_ok,
      check_out_ok, parses.
    split.
    + intros H. apply andb_true_iff in H as [H1 H2].
      rewrite !andb_true_iff in H1. destruct H1 as [[[[Hn Hp] Hr] Hi] Ho].
      destruct (strptime_dmY decimal ci) as [din|]; [|discriminate].
      destruct (strptime_dmY decimal co) as [dout|]; [|discriminate].
      rewrite !andb_true_iff in H2. destruct H2 as [[[H6 H7] H8] H9].
      exists din, dout.
      split; [reflexivity|]. split; [reflexivity|]. split; [exact Hn|].
      split; [now apply phone_ok_cases|]. split; [exact Hr|].
      split; [exact H6|]. split; [exact H7|]. split; [exact H8|].
      now apply price_ok_cases.
    + intros (din & dout & Hi & Ho & Hn & Hp & Hr & H6 & H7 & H8 & H9).
      apply phone_ok_cases in Hp. apply price_ok_cases in H9.
      now rewrite Hi, Ho, Hn, Hp, Hr, H6, H7, H8, H9.
  - intros tomorrow D Vi Vo Hd Hf.
    destruct (newline_phone decimal D) as [R P]. split.
    + unfold every_rule_passes, rules_1_to_5. rewrite R. reflexivity.
    + apply (next_day_booking_accepted decimal float_of_str);
        try assumption.
      unfold price_ok. rewrite Hf. reflexivity.
  - intros tomorrow price D Vi Vo Hd Hf. split.
    + apply (P2 tomorrow); try assumption; [|reflexivity].
      unfold price_rule. rewrite Hf. reflexivity.
    + apply (next_day_booking_accepted decimal float_of_str);
        try assumption; [reflexivity|].
      now apply nan_price_passes.
Qed.

Lemma acceptance_by_rules_witness :
  validate_inputs ascii_decimal numeral_float (mkdate 2030 12 31)
    (lit "Jane Doe") (lit "") (lit "Double")
    (lit "31-12-2030") (lit "01-01-2031") (lit "5000") =
    Return (true, lit "")
  /\ validate_inputs ascii_decimal numeral_float (mkdate 2030 12 31)
       (lit "Jane Doe") (lit "123") (lit "Double")
       (lit "31-12-2030") (lit "01-01-2031") (lit "-5") =
     Return (false, msg_phone)
  /\ validate_inputs ascii_decimal
       (fun s => if str_eqb s (lit "nan") then Some FNan else numeral_float s)
       (mkdate 2030 12 31)
       (lit "Jane Doe") (lit "") (lit "Double")
       (lit "31-12-2030") (lit "01-01-2031") (lit "nan") =
     Return (true, lit "").
Proof.
  split; [|split].
  - apply (proj1 (acceptance_by_rules ascii_decimal numeral_float
                    (mkdate 2030 12 31)) (mkdate 2031 1 1)).
    + intros c _. reflexivity.
    + vm_compute. intuition discriminate.
    + vm_compute. intuition discriminate.
    + reflexivity.
    + reflexivity.
  - apply (proj1 (proj2 (proj2 (acceptance_by_rules ascii_decimal
                                  numeral_float (mkdate 2030 12 31))))
             (lit "Jane Doe") (lit "123") (lit "Double")
             (lit "31-12-2030") (lit "01-01-2031") (lit "-5")).
    + reflexivity.
    + intros (t & E & F).
      destruct t as [|a [|b [|c [|d t]]]]; vm_compute in E; discriminate E.
    + discriminate.
  - apply (proj2 (proj2 (proj2 (proj2 (proj2
             (acceptance_by_rules ascii_decimal
                (fun s => if str_eqb s (lit "nan") then Some FNan
                          else numeral_float s)
                (mkdate 2030 12 31))))))
             (mkdate 2031 1 1) (lit "nan")).
    + intros c _. reflexivity.
    + vm_compute. intuition discriminate.
    + vm_compute. intuition discriminate.
    + reflexivity.
    + reflexivity.
Defined.

End RuleClaims.

(** ** More about date strings *)

Module DateExtras.
Import Py Regex Datetime Hotel Rules Unicode.
Import PyFacts DateFacts ParseFacts RoundTrip.

Section Literals.

Variable decimal : N -> option N.
Hypothesis decimal_ascii : decimal_on_ascii decimal.

(** The year field reads four digits and leaves what follows. *)
Lemma run_year_rest {A : Type} (y : Z) (t : str) (cs : captures)
    (k : nat -> str -> captures -> option A) :
  run (re_Y decimal) 6 (zero_pad4 y ++ t) cs k =
  k 10%nat t (("Y"%string, zero_pad4 y) :: cs).
Proof.
  unfold re_Y, digit, zero_pad4. cbn [run app].
  rewrite !(ascii_digit_isdecimal decimal decimal_ascii)
    by apply digit_char_range.
  reflexivity.
Qed.

(** The pattern matches the first ten characters of a date literal
    followed by anything. *)
Lemma re_match_literal (d : date) (t : str) :
  valid_date d ->
  exists cs, re_match (re_dmY decimal) (strftime_dmY d ++ t) = Some (10%nat, cs).
Proof.
  intros (Hy & Hm & Hd).
  assert (Hd' : 1 <= day d <= 31).
  { pose proof (days_in_month_le_31 (year d) (month d) Hm). lia. }
  unfold re_match, re_dmY, strftime_dmY. rewrite <- !app_assoc.
  rewrite (run_day decimal decimal_ascii) by exact Hd'.
  rewrite run_month by exact Hm.
  rewrite run_year_rest. eexists. reflexivity.
Qed.

End Literals.

(** X1: the date literal that [strftime("%d-%m-%Y")] writes for a
    valid date with a year of four digits is read back by [strptime]
    as the same date, so [is_valid_date] accepts it. *)
Theorem date_literal_round_trip (decimal : N -> option N) (d : date) :
  decimal_on_ascii decimal -> valid_date d -> 1000 <= year d ->
  strptime_dmY decimal (strftime_dmY d) = Return d
  /\ is_valid_date decimal (strftime_dmY d) = Return true.
Proof.
  intros D V _.
  pose proof (strptime_strftime decimal D d V) as E. split; [exact E|].
  rewrite is_valid_date_parses. unfold parses. now rewrite E.
Qed.

Lemma date_literal_round_trip_witness :
  strptime_dmY ascii_decimal (lit "29-02-2028") =
    Return (mkdate 2028 2 29)
  /\ is_valid_date ascii_decimal (lit "29-02-2028") = Return true.
Proof.
  apply (date_literal_round_trip ascii_decimal (mkdate 2028 2 29)).
  - intros c _. reflexivity.
  - vm_compute. intuition discriminate.
  - vm_compute. discriminate.
Defined.

(** After a date literal nothing may follow. *)
Lemma strptime_literal_suffix (decimal : N -> option N) (d : date) (t : str) :
  decimal_on_ascii decimal -> valid_date d -> t <> [] ->
  strptime_dmY decimal (strftime_dmY d ++ t) = Raise ValueError.
Proof.
  intros D V Ht. unfold strptime_dmY.
  destruct (re_match_literal decimal D d t V) as [cs ->].
  rewrite length_app.
  replace (List.length (strftime_dmY d)) with 10%nat by reflexivity.
  destruct t as [|c t]; [congruence|]. reflexivity.
Qed.

(** X2: a date literal followed by any further character (a space, a
    newline, a time of day) is not a valid date: [strptime] raises
    because unconverted data remains, and [is_valid_date] answers
    [False]. *)
Theorem date_literal_with_suffix_rejected (decimal : N -> option N)
    (d : date) (t : str) :
  decimal_on_ascii decimal -> valid_date d -> t <> [] ->
  strptime_dmY decimal (strftime_dmY d ++ t) = Raise ValueError
  /\ is_valid_date decimal (strftime_dmY d ++ t) = Return false.
Proof.
  intros D V Ht.
  pose proof (strptime_literal_suffix decimal d t D V Ht) as E.
  split; [exact E|].
  rewrite is_valid_date_parses. unfold parses. now rewrite E.
Qed.

Lemma date_literal_with_suffix_rejected_witness :
  is_valid_date ascii_decimal (lit "29-02-2028 ") = Return false.
Proof.
  apply (date_literal_with_suffix_rejected ascii_decimal
           (mkdate 2028 2 29) (lit " ")).
  - intros c _. reflexivity.
  - vm_compute. intuition discriminate.
  - discriminate.
Defined.

End DateExtras.

(** ** More about the validator *)

Module ValidatorExtras.
Import Py Regex Datetime Hotel Rules Unicode.
Import PyFacts DateFacts ParseFacts ValidateFacts.

Section Outcome.

Variable decimal : N -> option N.
Variable float_of_str : str -> option float.

(** What the validator returns, by cases on its two phases. *)
Lemma validate_cases (today : date) (name phone room ci co price : str) :
  (phase1_messages decimal name phone room ci co <> [] /\
   validate_inputs decimal float_of_str today name phone room ci co price =
     Return (false, join NL (phase1_messages decimal name phone room ci co)))
  \/ (exists din dout,
        phase1_messages decimal name phone room ci co = [] /\
        strptime_dmY decimal ci = Return din /\
        strptime_dmY decimal co = Return dout /\
        validate_inputs decimal float_of_str today name phone room ci co price =
          match phase2_messages float_of_str today din dout price with
          | [] => Return (true, lit "")
          | l => Return (false, join NL l)
          end).
Proof.
  destruct (phase1_messages decimal name phone room ci co) as [|m l] eqn:E1.
  - right.
    pose proof (proj1 (phase1_nil decimal float_of_str _ _ _ _ _) E1)
      as (_ & _ & _ & Hi & Ho).
    apply parses_true in Hi as [din Hi], Ho as [dout Ho].
    exists din, dout. repeat split; try assumption.
    now apply validate_phase2.
  - left. split; [discriminate|].
    rewrite <- E1. apply validate_phase1. rewrite E1. discriminate.
Qed.

(** The first phase joins a non-empty selection of its five messages,
    of which none is a message of the second phase. *)
Lemma phase1_output (name phone room ci co : str) :
  phase1_messages decimal name phone room ci co <> [] ->
  let out := join NL (phase1_messages decimal name phone room ci co) in
  out <> []
  /\ includes out msg_past = false /\ includes out msg_order = false
  /\ includes out msg_max_stay = false
  /\ includes out msg_price_positive = false
  /\ includes out msg_price_number = false.
Proof.
  unfold phase1_messages.
  destruct (name_ok name), (phone_ok decimal phone), (room_ok room),
    (check_in_ok decimal ci), (check_out_ok decimal co); intros H;
    try (now destruct H); vm_compute;
    repeat split; discriminate.
Qed.

End Outcome.

(** X3: [validate_inputs] never raises, and the flag it returns is
    [True] exactly when the message is the empty string; a rejection
    always carries text. *)
Theorem validate_ok_iff_no_message (decimal : N -> option N)
    (float_of_str : str -> option float) (today : date)
    (name phone room ci co price : str) :
  exists ok msg,
    validate_inputs decimal float_of_str today name phone room ci co price =
      Return (ok, msg)
    /\ (ok = true <-> msg = []).
Proof.
  destruct (validate_cases decimal float_of_str today name phone room ci co
              price) as [[H1 E]|(din & dout & _ & _ & _ & E)]; rewrite E.
  - eexists; eexists. split; [reflexivity|].
    pose proof (phase1_output decimal name phone room ci co H1) as [N _].
    split; [discriminate|]. intros X. now destruct N.
  - unfold phase2_messages, price_messages.
    destruct (not_past_ok today din), (order_ok din dout),
      (stay_ok din dout), (float_of_str price) as [p|];
      try destruct (float_le p f_0);
      eexists; eexists; (split; [reflexivity|]);
      vm_compute; split; congruence.
Qed.

(** X4: the messages "Check-out must be after Check-in." and "Maximum
    stay duration is 30 days." never appear together in one output. *)
Theorem order_excludes_max_stay (decimal : N -> option N)
    (float_of_str : str -> option float) (today : date)
    (name phone room ci co price : str) (ok : bool) (msg : str) :
  validate_inputs decimal float_of_str today name phone room ci co price =
    Return (ok, msg) ->
  includes msg msg_order = true ->
  includes msg msg_max_stay = false.
Proof.
  destruct (validate_cases decimal float_of_str today name phone room ci co
              price) as [[H1 E]|(din & dout & _ & Hi & Ho & E)]; rewrite E.
  - intros [= <- <-].
    pose proof (phase1_output decimal name phone room ci co H1)
      as (_ & _ & O & _). cbv zeta in O. congruence.
  - pose proof (strptime_valid _ _ _ Hi) as Vi.
    pose proof (strptime_valid _ _ _ Ho) as Vo.
    unfold phase2_messages, price_messages, order_ok, stay_ok, days_between.
    rewrite (date_lt_toordinal _ _ Vi Vo).
    destruct (Z.ltb_spec (toordinal din) (toordinal dout)) as [L|L].
    + (* check-out after check-in: no order message *)
      destruct (not_past_ok today din),
        (toordinal dout - toordinal din <=? 30),
        (float_of_str price) as [p|]; try destruct (float_le p f_0);
        intros [= <- <-]; vm_compute; congruence.
    + replace (toordinal dout - toordinal din <=? 30) with true
        by (symmetry; apply Z.leb_le; lia).
      destruct (not_past_ok today din), (float_of_str price) as [p|];
        try destruct (float_le p f_0);
        intros [= <- <-]; vm_compute; congruence.
Qed.

Lemma order_excludes_max_stay_witness :
  includes (join NL [msg_past; msg_order; msg_price_positive]) msg_max_stay
  = false.
Proof.
  apply (order_excludes_max_stay ascii_decimal numeral_float
           (mkdate 2030 1 10) (lit "Jane Doe") (lit "") (lit "Double")
           (lit "05-01-2030") (lit "04-01-2030") (lit "0") false);
    reflexivity.
Defined.

(** X5: a booking the validator accepts has a price: the check-in date
    is not before today, the stay is between 1 and 30 nights, the room
    is in the catalog, and [calculate_price] on the same dates and
    room returns nights times the rate, between 2000 and 300000. *)
Theorem accepted_booking_is_priced (decimal : N -> option N)
    (float_of_str : str -> option float) (today : date)
    (name phone room ci co price msg : str) :
  validate_inputs decimal float_of_str today name phone room ci co price =
    Return (true, msg) ->
  exists din dout,
    strptime_dmY decimal ci = Return din
    /\ strptime_dmY decimal co = Return dout
    /\ date_lt din today = false
    /\ 1 <= days_between dout din <= 30
    /\ room_ok room = true
    /\ calculate_price decimal ci co room =
         Return (Some (days_between dout din * catalog_rate room))
    /\ 2000 <= days_between dout din * catalog_rate room <= 300000.
Proof.
  destruct (validate_cases decimal float_of_str today name phone room ci co
              price) as [[H1 E]|(din & dout & P1 & Hi & Ho & E)]; rewrite E.
  - discriminate.
  - intros V. exists din, dout.
    pose proof (phase2_nil float_of_str today din dout price) as N2.
    destruct (phase2_messages float_of_str today din dout price);
      [|discriminate].
    destruct (proj1 N2 eq_refl) as (Np & No & Ns & _).
    pose proof (proj1 (phase1_nil decimal float_of_str _ _ _ _ _) P1)
      as (_ & _ & Hr & _ & _).
    pose proof (strptime_valid _ _ _ Hi) as Vi.
    pose proof (strptime_valid _ _ _ Ho) as Vo.
    unfold not_past_ok in Np. apply negb_true_iff in Np.
    unfold order_ok in No. rewrite (date_lt_toordinal _ _ Vi Vo) in No.
    apply Z.ltb_lt in No. unfold stay_ok in Ns. apply Z.leb_le in Ns.
    assert (D : 1 <= days_between dout din <= 30)
      by (unfold days_between in *; lia).
    assert (R : catalog_rate room = 2000 \/ catalog_rate room = 5000 \/
                catalog_rate room = 10000).
    { revert Hr. unfold room_ok, str_in, ROOM_TYPES, catalog_rate, existsb.
      destruct (str_eqb room (lit "Single")); [auto|].
      destruct (str_eqb room (lit "Double")); [auto|].
      destruct (str_eqb room (lit "Luxury")); [auto|discriminate]. }
    assert (P : calculate_price decimal ci co room =
                Return (Some (days_between dout din * catalog_rate room))).
    { rewrite PriceClaims.calculate_price_eq, Hi, Ho.
      now replace (days_between dout din <=? 0) with false
        by (symmetry; apply Z.leb_gt; lia). }
    split; [exact Hi|]. split; [exact Ho|]. split; [exact Np|].
    split; [exact D|]. split; [exact Hr|]. split; [exact P|]. nia.
Qed.

Lemma accepted_booking_is_priced_witness :
  exists din dout,
    strptime_dmY ascii_decimal (lit "05-01-2030") = Return din
    /\ strptime_dmY ascii_decimal (lit "08-01-2030") = Return dout
    /\ date_lt din (mkdate 2030 1 1) = false
    /\ 1 <= days_between dout din <= 30
    /\ room_ok (lit "Luxury") = true
    /\ calculate_price ascii_decimal (lit "05-01-2030") (lit "08-01-2030")
         (lit "Luxury") =
         Return (Some (days_between dout din * catalog_rate (lit "Luxury")))
    /\ 2000 <= days_between dout din * catalog_rate (lit "Luxury") <= 300000.
Proof.
  apply (accepted_booking_is_priced ascii_decimal numeral_float
           (mkdate 2030 1 1) (lit "Jane Doe") (lit "+1234567890")
           (lit "Luxury") (lit "05-01-2030") (lit "08-01-2030")
           (lit "30000") (lit "")).
  reflexivity.
Defined.

End ValidatorExtras.

(** ** More about the price calculator and the phone rule *)

Module PriceExtras.
Import Py Regex Datetime Hotel Rules Unicode.
Import PyFacts DateFacts ParseFacts.

(** A price that is a number, taken apart. *)
Lemma price_number_inv (decimal : N -> option N) (a b room : str) (p : Z) :
  calculate_price decimal a b room = Return (Some p) ->
  exists da db,
    strptime_dmY decimal a = Return da /\
    strptime_dmY decimal b = Return db /\
    0 < days_between db da /\
    p = days_between db da * catalog_rate room.
Proof.
  rewrite PriceClaims.calculate_price_eq.
  destruct (strptime_dmY decimal a) as [da|]; [|discriminate].
  destruct (strptime_dmY decimal b) as [db|]; [|discriminate].
  destruct (days_between db da <=? 0) eqn:E; [discriminate|].
  apply Z.leb_gt in E. intros [= <-]. now exists da, db.
Qed.

(** X6: prices add up over adjacent stays: when the stay from [a] to
    [b] and the stay from [b] to [c] both have a price for a room, the
    stay from [a] to [c] has the sum of the two as its price. *)
Theorem price_of_adjacent_stays (decimal : N -> option N)
    (a b c room : str) (p q : Z) :
  calculate_price decimal a b room = Return (Some p) ->
  calculate_price decimal b c room = Return (Some q) ->
  calculate_price decimal a c room = Return (Some (p + q)).
Proof.
  intros Hp Hq.
  apply price_number_inv in Hp as (da & db & Ha & Hb & Dp & ->).
  apply price_number_inv in Hq as (db' & dc & Hb' & Hc & Dq & ->).
  rewrite Hb in Hb'. injection Hb' as <-.
  rewrite PriceClaims.calculate_price_eq, Ha, Hc.
  unfold days_between in *.
  replace (toordinal dc - toordinal da <=? 0) with false
    by (symmetry; apply Z.leb_gt; lia).
  do 2 f_equal. ring.
Qed.

Lemma price_of_adjacent_stays_witness :
  calculate_price ascii_decimal (lit "30-12-2030") (lit "03-01-2031")
    (lit "Double") = Return (Some (10000 + 10000)).
Proof.
  apply (price_of_adjacent_stays ascii_decimal (lit "30-12-2030")
           (lit "01-01-2031") (lit "03-01-2031") (lit "Double"));
    reflexivity.
Defined.

(** X7: the order of the dates matters: when the stay from [a] to [b]
    has a price, the stay from [b] to [a] has none. *)
Theorem price_of_reversed_stay (decimal : N -> option N)
    (a b room room' : str) (p : Z) :
  calculate_price decimal a b room = Return (Some p) ->
  calculate_price decimal b a room' = Return None.
Proof.
  intros Hp.
  apply price_number_inv in Hp as (da & db & Ha & Hb & Dp & _).
  rewrite PriceClaims.calculate_price_eq, Ha, Hb.
  unfold days_between in *.
  now replace (toordinal da - toordinal db <=? 0) with true
    by (symmetry; apply Z.leb_le; lia).
Qed.

Lemma price_of_reversed_stay_witness :
  calculate_price ascii_decimal (lit "03-01-2031") (lit "30-12-2030")
    (lit "Single") = Return None.
Proof.
  apply (price_of_reversed_stay ascii_decimal (lit "30-12-2030")
           (lit "03-01-2031") (lit "Double") (lit "Single") 20000).
  reflexivity.
Defined.

End PriceExtras.

Module PhoneExtras.
Import Py Regex Datetime Hotel Rules Unicode.
Import PyFacts PhoneFacts.

(** X8: [is_valid_phone] accepts exactly three kinds of strings: those
    made of whitespace only (the empty string among them), an
    optional [+] followed by exactly ten decimal digits, and such a
    number followed by one newline.  An accepted phone that is not
    blank has 10 to 12 characters. *)
Theorem accepted_phones (decimal : N -> option N) (phone : str) :
  (is_valid_phone decimal phone = true <->
   forallb isspace phone = true \/
   phone_format decimal phone = true \/
   exists t, phone = t ++ NL /\ phone_format decimal t = true)
  /\ (is_valid_phone decimal phone = true ->
      forallb isspace phone = false ->
      (10 <= List.length phone <= 12)%nat).
Proof.
  split; [apply PhoneClaims.is_valid_phone_spec|].
  intros V B. apply PhoneClaims.is_valid_phone_spec in V.
  assert (L : forall s, phone_format decimal s = true ->
                        (10 <= List.length s <= 11)%nat).
  { intros s H. unfold phone_format, ten_digits in H.
    apply orb_true_iff in H as [H|H].
    - apply andb_true_iff in H as [H _]. apply Nat.eqb_eq in H. lia.
    - destruct s as [|c s]; [discriminate|].
      apply andb_true_iff in H as [_ H].
      apply andb_true_iff in H as [H _]. apply Nat.eqb_eq in H.
      cbn [List.length]. lia. }
  destruct V as [V|[V|(t & -> & V)]].
  - congruence.
  - apply L in V. lia.
  - apply L in V. rewrite length_app. cbn [List.length NL]. lia.
Qed.

End PhoneExtras.

(** ** More about the sentiment classifier *)

Module SentimentExtras.
Import Py Regex Datetime Hotel Rules Unicode.
Import PyFacts.

Lemma lstrip_pad_left (w s : str) :
  forallb isspace w = true -> lstrip (w ++ s) = lstrip s.
Proof.
  induction w as [|c w IH]; [reflexivity|].
  cbn [forallb app lstrip]. intros H.
  apply andb_true_iff in H as [-> H]. now apply IH.
Qed.

Lemma lstrip_app (s t : str) :
  lstrip s <> [] -> lstrip (s ++ t) = lstrip s ++ t.
Proof.
  induction s as [|c s IH]; cbn [lstrip app].
  - intros H. now destruct H.
  - destruct (isspace c); [exact IH|reflexivity].
Qed.

Lemma rstrip_pad_right (s w : str) :
  forallb isspace w = true -> rstrip (s ++ w) = rstrip s.
Proof.
  intros H. unfold rstrip. rewrite rev_app_distr, lstrip_pad_left.
  - reflexivity.
  - now rewrite forallb_rev.
Qed.

(** Whitespace around a string does not change what [strip] keeps. *)
Lemma strip_pad (w1 s w2 : str) :
  forallb isspace w1 = true -> forallb isspace w2 = true ->
  strip (w1 ++ s ++ w2) = strip s.
Proof.
  intros H1 H2. unfold strip. rewrite (lstrip_pad_left w1 _ H1).
  destruct (lstrip s) as [|c u] eqn:E.
  - apply lstrip_all_space in E.
    assert (A : forallb isspace (s ++ w2) = true)
      by (rewrite forallb_app, E, H2; reflexivity).
    apply lstrip_all_space in A. now rewrite A.
  - rewrite lstrip_app by (rewrite E; discriminate).
    rewrite E. now apply rstrip_pad_right.
Qed.

Lemma lstrip_split (s : str) :
  exists w, forallb isspace w = true /\ s = w ++ lstrip s.
Proof.
  induction s as [|c s (w & Hw & E)]; cbn [lstrip].
  - now exists [].
  - destruct (isspace c) eqn:Hc.
    + exists (c :: w). cbn [forallb app]. rewrite Hc, Hw. split; [reflexivity|].
      now f_equal.
    + now exists [].
Qed.

(** A string is what [strip] keeps of it, between two runs of
    whitespace. *)
Lemma strip_split (s : str) :
  exists w1 w2,
    forallb isspace w1 = true /\ forallb isspace w2 = true /\
    s = w1 ++ strip s ++ w2.
Proof.
  destruct (lstrip_split s) as (w1 & H1 & E1).
  destruct (lstrip_split (rev (lstrip s))) as (w & Hw & E2).
  exists w1, (rev w). split; [exact H1|]. split.
  - now rewrite forallb_rev.
  - unfold strip, rstrip. rewrite <- rev_app_distr, <- E2, rev_involutive.
    exact E1.
Qed.

Lemma strip_idempotent (s : str) : strip (strip s) = strip s.
Proof.
  destruct (strip_split s) as (w1 & w2 & H1 & H2 & E).
  rewrite E at 2. symmetry. now apply strip_pad.
Qed.

Section Classifier.

Variable str_lower : str -> str.
Variable USE_VADER : bool.
Variable vader_compound : str -> float.

Lemma review_text (s : str) :
  strip (if truthy s then s else lit "") = strip s.
Proof. now destruct s. Qed.

(** The label depends on the review through its trimmed text only. *)
Lemma classify_by_text (s s' : str) :
  strip s = strip s' ->
  analyze_sentiment str_lower USE_VADER vader_compound (Some s) =
  analyze_sentiment str_lower USE_VADER vader_compound (Some s').
Proof.
  intros E. unfold analyze_sentiment. rewrite !review_text, E. reflexivity.
Qed.

(** In fallback mode it depends on the lowercased trimmed text and on
    whether the trimmed text is empty. *)
Lemma fallback_by_lowered_text (s s' : str) :
  truthy (strip s) = truthy (strip s') ->
  str_lower (strip s) = str_lower (strip s') ->
  analyze_sentiment str_lower false vader_compound (Some s) =
  analyze_sentiment str_lower false vader_compound (Some s').
Proof.
  intros T E. unfold analyze_sentiment. rewrite !review_text, T, E.
  reflexivity.
Qed.

End Classifier.

(** X9: whitespace around a review does not change its label, in
    either mode: padding a review with whitespace on both sides, or
    trimming it first as the review form does, gives the same label. *)
Theorem sentiment_ignores_padding (str_lower : str -> str)
    (USE_VADER : bool) (vader_compound : str -> float) (s : str) :
  (forall w1 w2 : str,
     forallb isspace w1 = true -> forallb isspace w2 = true ->
     analyze_sentiment str_lower USE_VADER vader_compound
       (Some (w1 ++ s ++ w2)) =
     analyze_sentiment str_lower USE_VADER vader_compound (Some s))
  /\ analyze_sentiment str_lower USE_VADER vader_compound (Some (strip s)) =
     analyze_sentiment str_lower USE_VADER vader_compound (Some s).
Proof.
  split.
  - intros w1 w2 H1 H2. apply classify_by_text. now apply strip_pad.
  - apply classify_by_text. apply strip_idempotent.
Qed.

Lemma sentiment_ignores_padding_witness :
  analyze_sentiment ascii_lower false (fun _ => FNan)
    (Some (lit "  " ++ lit "awful room" ++ NL)) =
  analyze_sentiment ascii_lower false (fun _ => FNan)
    (Some (lit "awful room")).
Proof.
  apply (proj1 (sentiment_ignores_padding ascii_lower false (fun _ => FNan)
                  (lit "awful room"))); reflexivity.
Defined.

Lemma isspace_letter (c : N) : (65 <= c <= 122)%N -> isspace c = false.
Proof.
  intros H. unfold isspace.
  repeat match goal with
         | |- context [(?a <=? ?b)%N] =>
             first [ replace ((a <=? b)%N) with false
                       by (symmetry; apply N.leb_gt; lia)
                   | replace ((a <=? b)%N) with true
                       by (symmetry; apply N.leb_le; lia) ]
         | |- context [(?a =? ?b)%N] =>
             replace ((a =? b)%N) with false
               by (symmetry; apply N.eqb_neq; lia)
         end.
  reflexivity.
Qed.

Lemma isspace_ascii_lower (c : N) :
  isspace (ascii_lower_char c) = isspace c.
Proof.
  unfold ascii_lower_char.
  destruct (N.leb_spec 65 c); [|reflexivity].
  destruct (N.leb_spec c 90); [|reflexivity].
  cbn [andb]. rewrite !isspace_letter by lia. reflexivity.
Qed.

Lemma lstrip_map (f : N -> N) (s : str) :
  (forall c, isspace (f c) = isspace c) ->
  lstrip (map f s) = map f (lstrip s).
Proof.
  intros H. induction s as [|c s IH]; [reflexivity|].
  cbn [map lstrip]. rewrite H. now destruct (isspace c).
Qed.

Lemma strip_map (f : N -> N) (s : str) :
  (forall c, isspace (f c) = isspace c) ->
  strip (map f s) = map f (strip s).
Proof.
  intros H. unfold strip, rstrip.
  now rewrite (lstrip_map f s H), <- map_rev, (lstrip_map f _ H), map_rev.
Qed.

Lemma forallb_lstrip (p : N -> bool) (s : str) :
  forallb p s = true -> forallb p (lstrip s) = true.
Proof.
  induction s as [|c s IH]; [reflexivity|].
  cbn [lstrip]. destruct (isspace c); [|auto].
  cbn [forallb]. intros H. apply andb_true_iff in H as [_ H]. auto.
Qed.

Lemma forallb_strip (p : N -> bool) (s : str) :
  forallb p s = true -> forallb p (strip s) = true.
Proof.
  intros H. unfold strip, rstrip. rewrite forallb_rev.
  apply forallb_lstrip. rewrite forallb_rev. now apply forallb_lstrip.
Qed.

(** X10: in fallback mode the label of an ASCII review does not depend
    on the case of its letters: two ASCII reviews that are equal once
    lowercased get the same label. *)
Theorem fallback_ignores_case (str_lower : str -> str)
    (vader_compound : str -> float) (s s' : str) :
  lower_on_ascii str_lower ->
  is_ascii s = true -> is_ascii s' = true ->
  ascii_lower s = ascii_lower s' ->
  analyze_sentiment str_lower false vader_compound (Some s) =
  analyze_sentiment str_lower false vader_compound (Some s').
Proof.
  intros L A A' E.
  assert (S : strip (ascii_lower s) = strip (ascii_lower s')) by now rewrite E.
  unfold ascii_lower in S.
  rewrite !(strip_map ascii_lower_char _ isspace_ascii_lower) in S.
  apply fallback_by_lowered_text.
  - destruct (strip s), (strip s'); try reflexivity; discriminate.
  - rewrite !L by (now apply forallb_strip). exact S.
Qed.

Lemma fallback_ignores_case_witness :
  analyze_sentiment ascii_lower false (fun _ => FNan)
    (Some (lit "GREAT stay, Terrible Food, POOR wifi")) =
  analyze_sentiment ascii_lower false (fun _ => FNan)
    (Some (lit "great stay, terrible food, poor wifi")).
Proof.
  apply (fallback_ignores_case ascii_lower (fun _ => FNan)
           (lit "GREAT stay, Terrible Food, POOR wifi")
           (lit "great stay, terrible food, poor wifi")).
  - intros s _. reflexivity.
  - reflexivity.
  - reflexivity.
  - reflexivity.
Defined.

End SentimentExtras.

(** ** The form handlers *)

Module GuiFacts.
Import Py Regex Datetime Hotel Rules Unicode Gui.
Import PyFacts DateFacts ParseFacts ValidateFacts PhoneFacts RoundTrip.

(** A string without whitespace is left alone by [strip]. *)
Lemma strip_no_space (s : str) :
  forallb (fun c => negb (isspace c)) s = true -> strip s = s.
Proof.
  intros H.
  assert (L : forall u, forallb (fun c => negb (isspace c)) u = true ->
                        lstrip u = u).
  { intros [|c u] Hu; [reflexivity|]. cbn [forallb] in Hu.
    apply andb_true_iff in Hu as [Hc _]. apply negb_true_iff in Hc.
    cbn [lstrip]. now rewrite Hc. }
  unfold strip, rstrip. rewrite (L s H), L.
  - apply rev_involutive.
  - now rewrite forallb_rev.
Qed.

(** The printable ASCII characters are not whitespace. *)
Lemma isspace_printable (c : N) : (33 <= c <= 126)%N -> isspace c = false.
Proof.
  intros H. unfold isspace.
  repeat match goal with
         | |- context [(?a <=? ?b)%N] =>
             first [ replace ((a <=? b)%N) with false
                       by (symmetry; apply N.leb_gt; lia)
                   | replace ((a <=? b)%N) with true
                       by (symmetry; apply N.leb_le; lia) ]
         | |- context [(?a =? ?b)%N] =>
             replace ((a =? b)%N) with false
               by (symmetry; apply N.eqb_neq; lia)
         end.
  reflexivity.
Qed.

(** No ASCII digit is whitespace. *)
Lemma ascii_decimal_not_space (c : N) :
  isspace c = true -> ascii_decimal c = None.
Proof.
  intros Hc. unfold ascii_decimal.
  destruct (N.leb_spec 48 c); [|reflexivity].
  destruct (N.leb_spec c 57); [|reflexivity].
  rewrite isspace_printable in Hc by lia. discriminate.
Qed.

Lemma strip_date_literal (d : date) : strip (strftime_dmY d) = strftime_dmY d.
Proof.
  apply strip_no_space. unfold strftime_dmY, zero_pad2, zero_pad4.
  cbn [app forallb lit map list_ascii_of_string].
  rewrite !digit_char_not_space. reflexivity.
Qed.

(** The phone format has no whitespace in it when no digit is a
    whitespace character. *)
Lemma strip_phone_format (decimal : N -> option N) (p : str) :
  (forall c, isspace c = true -> decimal c = None) ->
  phone_format decimal p = true -> strip p = p.
Proof.
  intros NS H. apply strip_no_space.
  assert (T : forall u, ten_digits decimal u = true ->
                        forallb (fun c => negb (isspace c)) u = true).
  { intros u Hu. unfold ten_digits in Hu.
    apply andb_true_iff in Hu as [_ Hu].
    rewrite forallb_forall in *. intros c Hc. specialize (Hu c Hc).
    unfold isdecimal in Hu. destruct (isspace c) eqn:E; [|reflexivity].
    now rewrite (NS c E) in Hu. }
  unfold phone_format in H. apply orb_true_iff in H as [H|H].
  - now apply T.
  - destruct p as [|c u]; [discriminate|].
    apply andb_true_iff in H as [Hc H]. apply N.eqb_eq in Hc. subst c.
    cbn [forallb]. now rewrite (T u H).
Qed.

(** What [on_add] does, by cases on the validator's verdict. *)
Lemma on_add_cases (decimal : N -> option N)
    (float_of_str : str -> option float) (today : date) (self : form) :
  (exists msg,
     msg <> [] /\
     validate_inputs decimal float_of_str today
       (var_name self) (var_phone self) (var_room self)
       (var_checkin self) (var_checkout self) (var_price self) =
       Return (false, msg) /\
     on_add decimal float_of_str today self = Return (InvalidInput msg))
  \/ (exists price,
        all_rules_pass decimal float_of_str today
          (var_name self) (var_phone self) (var_room self)
          (var_checkin self) (var_checkout self) (var_price self) = true /\
        float_of_str (var_price self) = Some price /\
        on_add decimal float_of_str today self =
          Return (CallAddBooking
                    (mkargs (strip (var_name self)) (strip (var_phone self))
                       (var_room self) (strip (var_checkin self))
                       (strip (var_checkout self)) price))).
Proof.
  unfold on_add.
  destruct (ValidatorExtras.validate_cases decimal float_of_str today
              (var_name self) (var_phone self) (var_room self)
              (var_checkin self) (var_checkout self) (var_price self))
    as [[H1 E]|(din & dout & P1 & Hi & Ho & E)]; rewrite E.
  - left. eexists. split; [|split; reflexivity].
    apply (ValidatorExtras.phase1_output decimal _ _ _ _ _ H1).
  - pose proof (phase2_nil float_of_str today din dout (var_price self))
      as N2.
    destruct (phase2_messages float_of_str today din dout (var_price self))
      as [|m l] eqn:E2.
    + right. destruct (proj1 N2 eq_refl) as (Np & No & Ns & Hp).
      pose proof Hp as Hp'. unfold price_ok in Hp'.
      destruct (float_of_str (var_price self)) as [p|] eqn:F;
        [|discriminate].
      exists p. split; [|split; [reflexivity|]].
      * unfold all_rules_pass.
        rewrite (proj1 (phase1_passes decimal float_of_str _ _ _ _ _) P1).
        rewrite Hi, Ho, Np, No, Ns, Hp. reflexivity.
      * cbn [bind negb]. unfold float_. rewrite F. reflexivity.
    + left. eexists. split; [|split; reflexivity].
      revert E2. unfold phase2_messages, price_messages.
      destruct (not_past_ok today din), (order_ok din dout),
        (stay_ok din dout), (float_of_str (var_price self)) as [p|];
        try destruct (float_le p f_0); intros [= <- <-];
        vm_compute; discriminate.
Qed.

End GuiFacts.

Module GuiExtras.
Import Py Regex Datetime Hotel Rules Unicode Gui.
Import PyFacts DateFacts ParseFacts ValidateFacts PhoneFacts RoundTrip.
Import GuiFacts.

(** X11: the price preview trims the date fields but the validator
    does not: with whitespace after an otherwise valid check-in date
    the form previews a price, and [on_add] rejects the same form with
    "Check-in must be in DD-MM-YYYY format.". *)
Theorem padded_date_previewed_but_rejected (decimal : N -> option N)
    (float_of_str : str -> option float) (today : date) (self : form)
    (din dout : date) (w : str) :
  decimal_on_ascii decimal ->
  valid_date din -> valid_date dout -> 0 < days_between dout din ->
  forallb isspace w = true -> w <> [] ->
  var_checkin self = strftime_dmY din ++ w ->
  var_checkout self = strftime_dmY dout ->
  compute_current_price decimal self =
    Return (Some (days_between dout din * catalog_rate (var_room self)))
  /\ exists msg,
       on_add decimal float_of_str today self = Return (InvalidInput msg)
       /\ includes msg msg_check_in = true.
Proof.
  intros D Vi Vo Hd Hw Hne Ei Eo. split.
  - unfold compute_current_price. rewrite Ei, Eo.
    change (strftime_dmY din ++ w) with ([] ++ strftime_dmY din ++ w).
    rewrite (SentimentExtras.strip_pad [] (strftime_dmY din) w eq_refl Hw).
    rewrite !strip_date_literal.
    rewrite PriceClaims.calculate_price_eq.
    rewrite !(strptime_strftime decimal D) by assumption.
    now replace (days_between dout din <=? 0) with false
      by (symmetry; apply Z.leb_gt; exact Hd).
  - assert (F : check_in_ok decimal (var_checkin self) = false).
    { unfold check_in_ok, parses. rewrite Ei.
      now rewrite (DateExtras.strptime_literal_suffix decimal din w D Vi Hne). }
    assert (P : In msg_check_in
                  (phase1_messages decimal (var_name self) (var_phone self)
                     (var_room self) (var_checkin self) (var_checkout self))).
    { unfold phase1_messages. rewrite F.
      apply in_or_app; right. apply in_or_app; right.
      apply in_or_app; right. apply in_or_app; left. now left. }
    unfold on_add. rewrite validate_phase1.
    + cbn [bind negb]. eexists. split; [reflexivity|].
      now apply contains_join.
    + intros N. rewrite N in P. destruct P.
Qed.

Lemma padded_date_previewed_but_rejected_witness :
  compute_current_price ascii_decimal
    (mkform [] (lit "Jane Doe") [] (lit "Double") (lit "05-01-2030 ")
       (lit "07-01-2030") (lit "10000") [] []) =
    Return (Some 10000)
  /\ exists msg,
       on_add ascii_decimal numeral_float (mkdate 2030 1 1)
         (mkform [] (lit "Jane Doe") [] (lit "Double") (lit "05-01-2030 ")
            (lit "07-01-2030") (lit "10000") [] []) =
         Return (InvalidInput msg)
       /\ includes msg msg_check_in = true.
Proof.
  apply (padded_date_previewed_but_rejected ascii_decimal numeral_float
           (mkdate 2030 1 1)
           (mkform [] (lit "Jane Doe") [] (lit "Double") (lit "05-01-2030 ")
              (lit "07-01-2030") (lit "10000") [] [])
           (mkdate 2030 1 5) (mkdate 2030 1 7) (lit " ")).
  - intros c _. reflexivity.
  - vm_compute. intuition discriminate.
  - vm_compute. intuition discriminate.
  - reflexivity.
  - reflexivity.
  - discriminate.
  - reflexivity.
  - reflexivity.
Defined.

(** X12: [on_add] either shows the validator's message, which is never
    empty, or calls [add_booking_db]; before the database is called
    no exception occurs, and the database is never called with a
    rejected form. *)
Theorem on_add_outcome (decimal : N -> option N)
    (float_of_str : str -> option float) (today : date) (self : form) :
  (exists msg,
     on_add decimal float_of_str today self = Return (InvalidInput msg)
     /\ msg <> []
     /\ validate_inputs decimal float_of_str today
          (var_name self) (var_phone self) (var_room self)
          (var_checkin self) (var_checkout self) (var_price self) =
          Return (false, msg))
  \/ (exists args,
        on_add decimal float_of_str today self = Return (CallAddBooking args)
        /\ validate_inputs decimal float_of_str today
             (var_name self) (var_phone self) (var_room self)
             (var_checkin self) (var_checkout self) (var_price self) =
             Return (true, lit "")).
Proof.
  destruct (on_add_cases decimal float_of_str today self)
    as [(msg & N & V & E)|(p & A & F & E)].
  - left. exists msg. auto.
  - right. eexists. split; [exact E|].
    pose proof (ValidatorExtras.validate_cases decimal float_of_str today
              (var_name self) (var_phone self) (var_room self)
              (var_checkin self) (var_checkout self) (var_price self))
      as [[H1 V]|(din & dout & P1 & Hi & Ho & V)].
    + apply (phase1_fails decimal float_of_str) in H1.
      unfold all_rules_pass in A. rewrite H1 in A. discriminate.
    + rewrite V. unfold all_rules_pass in A. rewrite Hi, Ho in A.
      apply andb_true_iff in A as [_ A]. rewrite !andb_true_iff in A.
      assert (N2 : phase2_messages float_of_str today din dout
                     (var_price self) = [])
        by (apply phase2_nil; tauto).
      now rewrite N2.
Qed.

(** X13: what [on_add] passes to [add_booking_db] is clean: the name
    is trimmed and not empty, the phone is empty or an optional [+]
    followed by exactly ten digits (a newline the phone rule let
    through is trimmed away), the room is in the catalog, and the
    price is the value of the price field, which is not [<= 0]. *)
Theorem stored_booking_is_clean (decimal : N -> option N)
    (float_of_str : str -> option float) (today : date) (self : form)
    (args : booking_args) :
  (forall c, isspace c = true -> decimal c = None) ->
  on_add decimal float_of_str today self = Return (CallAddBooking args) ->
  arg_customer_name args <> []
  /\ strip (arg_customer_name args) = arg_customer_name args
  /\ (arg_phone args = [] \/ phone_format decimal (arg_phone args) = true)
  /\ room_ok (arg_room_type args) = true
  /\ float_of_str (var_price self) = Some (arg_price args)
  /\ float_le (arg_price args) f_0 = false.
Proof.
  intros NS H.
  destruct (on_add_cases decimal float_of_str today self)
    as [(msg & N & V & E)|(p & A & F & E)]; rewrite E in H.
  - discriminate.
  - injection H as <-. cbn [arg_customer_name arg_phone arg_room_type arg_price].
    unfold all_rules_pass, rules_1_to_5_pass in A.
    rewrite !andb_true_iff in A.
    destruct A as [[[[[Hn Hph] Hr] _] _] A].
    split; [|split; [|split; [|split; [|split]]]].
    + unfold name_ok in Hn. intros X. rewrite X in Hn. discriminate.
    + apply SentimentExtras.strip_idempotent.
    + unfold phone_ok in Hph.
      apply PhoneClaims.is_valid_phone_spec in Hph
        as [B|[Fm|(t & Et & Fm)]].
      * left. now apply strip_all_space.
      * right. now rewrite (strip_phone_format decimal _ NS Fm).
      * right. rewrite Et.
        change (t ++ NL) with ([] ++ t ++ NL).
        rewrite (SentimentExtras.strip_pad [] t NL eq_refl eq_refl).
        now rewrite (strip_phone_format decimal _ NS Fm).
    + exact Hr.
    + exact F.
    + destruct (strptime_dmY decimal (var_checkin self)); [|discriminate].
      destruct (strptime_dmY decimal (var_checkout self)); [|discriminate].
      rewrite !andb_true_iff in A. destruct A as [_ Hp].
      unfold price_ok in Hp. rewrite F in Hp. now apply negb_true_iff.
Qed.

Lemma stored_booking_is_clean_witness :
  phone_format ascii_decimal (lit "+1234567890") = true
  /\ float_le (FFin (inject_Z 10000)) f_0 = false.
Proof.
  pose proof (stored_booking_is_clean ascii_decimal numeral_float
                (mkdate 2030 1 1)
                (mkform [] (lit " Jane Doe ") (lit "+1234567890" ++ NL)
                   (lit "Double") (lit "05-01-2030") (lit "07-01-2030")
                   (lit "10000") [] [])
                (mkargs (lit "Jane Doe") (lit "+1234567890") (lit "Double")
                   (lit "05-01-2030") (lit "07-01-2030")
                   (FFin (inject_Z 10000)))) as H.
  destruct H as (_ & _ & [P|P] & _ & _ & L).
  - exact ascii_decimal_not_space.
  - reflexivity.
  - discriminate P.
  - split; [exact P|exact L].
Defined.

End GuiExtras.

(** ** Reviews and the price field *)

Module ReviewExtras.
Import Py Regex Datetime Hotel Rules Unicode Gui.
Import PyFacts.

(** X14: the review text shown in the table of all reviews is the
    review itself when it has at most 100 characters, and otherwise
    its first 100 characters followed by three dots; it never has
    more than 103 characters and always starts like the review. *)
Theorem review_display_bounds (review_text : str) :
  (List.length (review_display_text review_text) <= 103)%nat
  /\ firstn 100 (review_display_text review_text) = firstn 100 review_text
  /\ ((List.length review_text <= 100)%nat ->
      review_display_text review_text = review_text)
  /\ ((100 < List.length review_text)%nat ->
      review_display_text review_text = firstn 100 review_text ++ lit "..."
      /\ List.length (review_display_text review_text) = 103%nat).
Proof.
  unfold review_display_text.
  destruct (Nat.ltb_spec 100 (List.length review_text)) as [L|L].
  - assert (F : List.length (firstn 100 review_text) = 100%nat)
      by (rewrite length_firstn; lia).
    split; [|split; [|split]].
    + rewrite length_app, F. cbn. lia.
    + rewrite firstn_app, F, Nat.sub_diag, firstn_O, app_nil_r.
      now rewrite firstn_firstn.
    + lia.
    + intros _. split; [reflexivity|].
      rewrite length_app, F. reflexivity.
  - split; [|split; [|split]].
    + lia.
    + reflexivity.
    + reflexivity.
    + lia.
Qed.

Lemma review_display_bounds_witness :
  review_display_text (lit "Nice.") = lit "Nice.".
Proof.
  apply (review_display_bounds (lit "Nice.")). cbn. lia.
Defined.

(** X15: [save_review] stores nothing for a review of whitespace only;
    otherwise it stores the trimmed review, which is not empty and has
    no whitespace at either end, with the trimmed customer name and
    with the label that [analyze_sentiment] gives the review as it was
    typed. *)
Theorem save_review_outcome (str_lower : str -> str) (USE_VADER : bool)
    (vader_compound : str -> float) (name_entry review_text : str) :
  (forallb isspace review_text = true ->
   save_review str_lower USE_VADER vader_compound name_entry review_text =
     EmptyReview)
  /\ (forallb isspace review_text = false ->
      save_review str_lower USE_VADER vader_compound name_entry review_text =
        CallAddReview (strip name_entry) (strip review_text)
          (analyze_sentiment str_lower USE_VADER vader_compound
             (Some review_text))
      /\ strip review_text <> []
      /\ strip (strip review_text) = strip review_text).
Proof.
  unfold save_review. rewrite truthy_strip. split; intros H; rewrite H.
  - reflexivity.
  - cbn [negb]. split; [|split].
    + f_equal. apply SentimentExtras.classify_by_text.
      apply SentimentExtras.strip_idempotent.
    + intros X. apply strip_all_space in X. congruence.
    + apply SentimentExtras.strip_idempotent.
Qed.

Lemma save_review_outcome_witness :
  save_review ascii_lower false (fun _ => FNan) (lit " Ann ")
    (lit "Great room" ++ NL) =
  CallAddReview (lit "Ann") (lit "Great room") Positive.
Proof.
  apply (proj2 (save_review_outcome ascii_lower false (fun _ => FNan)
                  (lit " Ann ") (lit "Great room" ++ NL))).
  reflexivity.
Defined.

End ReviewExtras.

(** ** The price field *)

Module NumeralFacts.
Import Py Regex Datetime Hotel Rules Unicode Gui.
Import PyFacts RoundTrip GuiFacts.

Lemma digits_of_acc (fuel : nat) (n : Z) (acc : str) :
  digits_of fuel n acc = digits_of fuel n [] ++ acc.
Proof.
  revert n acc. induction fuel as [|f IH]; intros n acc; [reflexivity|].
  cbn [digits_of]. destruct (n <? 10); [reflexivity|].
  rewrite (IH _ (digit_char n :: acc)), (IH _ [digit_char n]).
  now rewrite <- app_assoc.
Qed.

Lemma digits_of_no_space (fuel : nat) (n : Z) :
  forallb (fun c => negb (isspace c)) (digits_of fuel n []) = true.
Proof.
  revert n. induction fuel as [|f IH]; intros n; [reflexivity|].
  cbn [digits_of]. destruct (n <? 10).
  - cbn [forallb]. now rewrite digit_char_not_space.
  - rewrite digits_of_acc, forallb_app, IH. cbn [forallb].
    now rewrite digit_char_not_space.
Qed.

Section Numerals.

Variable decimal : N -> option N.
Hypothesis decimal_ascii : decimal_on_ascii decimal.

Lemma digits_value_app (a : Z) (xs ys : str) :
  digits_value decimal a (xs ++ ys) =
  match digits_value decimal a xs with
  | Some v => digits_value decimal v ys
  | None => None
  end.
Proof.
  revert a. induction xs as [|c xs IH]; intros a; [reflexivity|].
  cbn [app digits_value]. destruct (decimal c); [apply IH|reflexivity].
Qed.

(** The digits of a number, read back. *)
Lemma digits_value_digits_of (fuel : nat) (n : Z) :
  0 <= n < 2 ^ Z.of_nat fuel ->
  digits_value decimal 0 (digits_of fuel n []) = Some n.
Proof.
  revert n. induction fuel as [|f IH]; intros n H.
  - cbn in H. assert (n = 0) by lia. now subst.
  - cbn [digits_of]. destruct (Z.ltb_spec n 10) as [L|L].
    + cbn [digits_value].
      rewrite (digit_char_decimal decimal decimal_ascii).
      f_equal. pose proof (Z.mod_pos_bound n 10).
      rewrite Z2N.id by lia. rewrite Z.mod_small by lia. lia.
    + rewrite digits_of_acc, digits_value_app.
      rewrite Nat2Z.inj_succ, Z.pow_succ_r in H by lia.
      rewrite IH.
      * cbn [digits_value].
        rewrite (digit_char_decimal decimal decimal_ascii).
        f_equal. pose proof (Z.mod_pos_bound n 10).
        rewrite Z2N.id by lia. Z.div_mod_to_equations. lia.
      * Z.div_mod_to_equations. lia.
Qed.

(** [int(str(n)) == n] for a natural number [n]. *)
Lemma int_str_of_int (n : Z) :
  0 <= n -> int decimal (str_of_int n) = Return n.
Proof.
  intros H. unfold str_of_int.
  replace (n <? 0) with false by (symmetry; apply Z.ltb_ge; exact H).
  unfold int. rewrite strip_no_space by apply digits_of_no_space.
  assert (B : 0 <= n < 2 ^ Z.of_nat (S (Z.to_nat (Z.log2 n)))).
  { split; [exact H|].
    rewrite Nat2Z.inj_succ, Z2Nat.id by apply Z.log2_nonneg.
    destruct (Z.eq_dec n 0) as [->|N0]; [reflexivity|].
    apply Z.log2_spec. lia. }
  pose proof (digits_value_digits_of _ _ B) as V.
  assert (NE : digits_of (S (Z.to_nat (Z.log2 n))) n [] <> []).
  { cbn [digits_of]. destruct (n <? 10); [discriminate|].
    rewrite digits_of_acc. intros X. apply app_eq_nil in X as [_ X].
    discriminate. }
  destruct (digits_of (S (Z.to_nat (Z.log2 n))) n []) as [|c l];
    [now destruct NE|].
  now rewrite V.
Qed.

End Numerals.

End NumeralFacts.

Module PriceFieldExtras.
Import Py Regex Datetime Hotel Rules Unicode Gui.
Import PyFacts RoundTrip GuiFacts NumeralFacts.

(** X16: [on_date_or_room_change] never raises and changes the price
    field only: the field becomes empty when the stay has no price,
    and otherwise the decimal numeral of the price, which is not
    negative and is read back by [int] as the same number. *)
Theorem price_field_after_change (decimal : N -> option N) (self : form) :
  decimal_on_ascii decimal ->
  exists v,
    on_date_or_room_change decimal self = Return (set_var_price self v)
    /\ ((compute_current_price decimal self = Return None /\ v = [])
        \/ exists p,
             compute_current_price decimal self = Return (Some p)
             /\ 0 <= p /\ v = str_of_int p
             /\ int decimal v = Return p).
Proof.
  intros D. unfold on_date_or_room_change.
  destruct (compute_current_price decimal self) as [[p|]|e] eqn:E.
  - exists (str_of_int p). split; [reflexivity|]. right. exists p.
    unfold compute_current_price in E.
    apply PriceExtras.price_number_inv in E as (da & db & _ & _ & Hd & ->).
    pose proof (PriceClaims.catalog_rate_pos (var_room self)) as [R _].
    assert (0 <= days_between db da * catalog_rate (var_room self)) by nia.
    split; [reflexivity|]. split; [assumption|]. split; [reflexivity|].
    now apply int_str_of_int.
  - exists []. split; [reflexivity|]. left. now split.
  - unfold compute_current_price in E.
    rewrite PriceClaims.calculate_price_eq in E.
    destruct (strptime_dmY decimal (strip (var_checkin self)));
      [|discriminate].
    destruct (strptime_dmY decimal (strip (var_checkout self)));
      [|discriminate].
    destruct (days_between a0 a <=? 0); discriminate.
Qed.

Lemma price_field_after_change_witness :
  exists v,
    on_date_or_room_change ascii_decimal
      (mkform [] (lit "Jane Doe") [] (lit "Luxury") (lit " 05-01-2030 ")
         (lit "08-01-2030") [] [] []) =
    Return (set_var_price
              (mkform [] (lit "Jane Doe") [] (lit "Luxury")
                 (lit " 05-01-2030 ") (lit "08-01-2030") [] [] []) v)
    /\ v = lit "30000".
Proof.
  destruct (price_field_after_change ascii_decimal
              (mkform [] (lit "Jane Doe") [] (lit "Luxury")
                 (lit " 05-01-2030 ") (lit "08-01-2030") [] [] []))
    as (v & E & [[C _]|(p & C & _ & -> & _)]).
  - intros c _. reflexivity.
  - discriminate C.
  - exists (str_of_int p). split; [exact E|].
    injection C as <-. reflexivity.
Defined.

End PriceFieldExtras.

(** ** The fields of a date string *)

Module FieldFacts.
Import Py Regex Datetime Hotel Rules Unicode DateFields.
Import PyFacts ParseFacts PhoneFacts RoundTrip.

Lemma sub_succ_1 (n : nat) : (S n - n = 1)%nat.
Proof. lia. Qed.

Lemma sub_succ_2 (n : nat) : (S (S n) - n = 2)%nat.
Proof. lia. Qed.

Section Fields.

Variable decimal : N -> option N.
Hypothesis decimal_ascii : decimal_on_ascii decimal.

Lemma hyphen_not_decimal : isdecimal decimal 45 = false.
Proof. unfold isdecimal. now rewrite decimal_ascii. Qed.

Ltac ascii_codes :=
  change (N_of_ascii " ") with 32%N;
  change (N_of_ascii "-") with 45%N;
  change (N_of_ascii "0") with 48%N;
  change (N_of_ascii "1") with 49%N;
  change (N_of_ascii "2") with 50%N;
  change (N_of_ascii "3") with 51%N;
  change (N_of_ascii "9") with 57%N.

Ltac split_chars :=
  repeat match goal with
         | |- context [(?x =? ?y)%N] =>
             destruct (N.eqb_spec x y); subst;
             cbn [andb orb negb]; rewrite ?hyphen_not_decimal
         | |- context [(?x <=? ?y)%N] =>
             destruct (N.leb_spec x y);
             cbn [andb orb negb]; rewrite ?hyphen_not_decimal
         | |- context [isdecimal decimal ?x] =>
             destruct (isdecimal decimal x) eqn:?;
             cbn [andb orb negb]
         end.

Lemma run_day_field {A : Type} (R : re) (pos : nat) (s : str)
    (cs : captures) (k : nat -> str -> captures -> option A) :
  run (Cat (re_d decimal) (Cat (chr "-") R)) pos s cs k =
  match take_day decimal s with
  | Some (D, t) => run R (S (List.length D + pos)) t (("d"%string, D) :: cs) k
  | None => None
  end.
Proof.
  unfold re_d, chr, rng, digit, take_day, take_field, day_two.
  ascii_codes. cbn [run].
  rewrite ?sub_succ_1, ?sub_succ_2.
  destruct s as [|a [|b [|c t]]]; cbn [firstn List.length Nat.add].
  - reflexivity.
  - split_chars; reflexivity.
  - split_chars; try reflexivity; try lia; try apply option_match_id.
  - split_chars; try reflexivity; try lia; try apply option_match_id.

Qed.

Lemma run_month_field {A : Type} (R : re) (pos : nat) (s : str)
    (cs : captures) (k : nat -> str -> captures -> option A) :
  run (Cat re_m (Cat (chr "-") R)) pos s cs k =
  match take_month s with
  | Some (M, t) => run R (S (List.length M + pos)) t (("m"%string, M) :: cs) k
  | None => None
  end.
Proof.
  unfold re_m, chr, rng, take_month, take_field, month_two.
  ascii_codes. cbn [run].
  rewrite ?sub_succ_1, ?sub_succ_2.
  destruct s as [|a [|b [|c t]]]; cbn [firstn List.length Nat.add].
  - reflexivity.
  - split_chars; reflexivity.
  - split_chars; try reflexivity; try lia; try apply option_match_id.
  - split_chars; try reflexivity; try lia; try apply option_match_id.
Qed.

Lemma run_year_field {A : Type} (pos : nat) (s : str)
    (cs : captures) (k : nat -> str -> captures -> option A) :
  run (re_Y decimal) pos s cs k =
  match take_year decimal s with
  | Some (Y, t) => k (4 + pos)%nat t (("Y"%string, Y) :: cs)
  | None => None
  end.
Proof.
  unfold re_Y, digit, take_year. cbn [run].
  destruct s as [|y1 [|y2 [|y3 [|y4 t]]]]; try reflexivity.
  - now destruct (isdecimal decimal y1).
  - now destruct (isdecimal decimal y1), (isdecimal decimal y2).
  - now destruct (isdecimal decimal y1), (isdecimal decimal y2),
      (isdecimal decimal y3).
  - destruct (isdecimal decimal y1), (isdecimal decimal y2),
      (isdecimal decimal y3), (isdecimal decimal y4); cbn [andb];
      try reflexivity.
    replace (S (S (S (S pos))) - pos)%nat with 4%nat by lia.
    reflexivity.
Qed.

Lemma take_field_app (two : N -> N -> bool) (s F t : str) :
  take_field two s = Some (F, t) -> s = F ++ 45%N :: t.
Proof.
  unfold take_field. destruct s as [|a [|b u]]; try discriminate.
  destruct (N.eqb_spec b 45) as [->|_].
  - destruct ((49 <=? a)%N && (a <=? 57)%N); [|discriminate].
    now intros [= <- <-].
  - destruct u as [|c t']; [discriminate|].
    destruct (N.eqb_spec c 45) as [->|_]; [|discriminate].
    cbn [andb]. destruct (two a b); [|discriminate].
    now intros [= <- <-].
Qed.

Lemma take_year_app (s Y t : str) :
  take_year decimal s = Some (Y, t) ->
  s = Y ++ t /\ List.length Y = 4%nat /\ forallb (isdecimal decimal) Y = true.
Proof.
  unfold take_year. destruct s as [|y1 [|y2 [|y3 [|y4 u]]]]; try discriminate.
  destruct (isdecimal decimal y1 && isdecimal decimal y2 &&
            isdecimal decimal y3 && isdecimal decimal y4) eqn:E;
    [|discriminate].
  intros [= <- <-]. split; [reflexivity|]. split; [reflexivity|].
  cbn [forallb]. rewrite !andb_true_iff in E.
  destruct E as [[[-> ->] ->] ->]. reflexivity.
Qed.

(** [strptime] by fields: the backtracking match of the pattern finds
    the one split of the string into its fields, if there is one. *)
Lemma strptime_fields (s : str) :
  strptime_dmY decimal s =
  match date_fields decimal s with
  | Some (D, M, Y) =>
      (d <- int decimal D ;;
       m <- int decimal M ;;
       y <- int decimal Y ;;
       date_new y m d)%py
  | None => Raise ValueError
  end.
Proof.
  unfold strptime_dmY, re_match, re_dmY, date_fields.
  rewrite run_day_field.
  destruct (take_day decimal s) as [[D t1]|] eqn:ED; [|reflexivity].
  rewrite run_month_field.
  destruct (take_month t1) as [[M t2]|] eqn:EM; [|reflexivity].
  rewrite run_year_field.
  destruct (take_year decimal t2) as [[Y t3]|] eqn:EY; [|reflexivity].
  apply take_field_app in ED, EM. apply take_year_app in EY as (EY & LY & _).
  subst s t1 t2.
  change (group [("Y"%string, Y); ("m"%string, M); ("d"%string, D)] "d")
    with D.
  change (group [("Y"%string, Y); ("m"%string, M); ("d"%string, D)] "m")
    with M.
  change (group [("Y"%string, Y); ("m"%string, M); ("d"%string, D)] "Y")
    with Y.
  destruct t3 as [|c t3].
  - replace (negb _) with false; [reflexivity|].
    symmetry. apply negb_false_iff, Nat.eqb_eq.
    repeat (rewrite length_app; cbn [List.length]). lia.
  - replace (negb _) with true; [reflexivity|].
    symmetry. apply negb_true_iff, Nat.eqb_neq.
    repeat (rewrite length_app; cbn [List.length]). lia.
Qed.

Hypothesis digits_not_space : forall c, isspace c = true -> decimal c = None.

Local Abbreviation no_space := (forallb (fun c => negb (isspace c))).

Lemma isdecimal_not_space (c : N) :
  isdecimal decimal c = true -> negb (isspace c) = true.
Proof.
  unfold isdecimal. intros H. destruct (isspace c) eqn:E; [|reflexivity].
  now rewrite (digits_not_space c E) in H.
Qed.

Lemma ascii_digit_not_space (c : N) :
  (48 <= c <= 57)%N -> negb (isspace c) = true.
Proof. intros H. now rewrite GuiFacts.isspace_printable by lia. Qed.

(** The day has no whitespace in it, or is a space and one of [1-9]. *)
Lemma take_day_cases (s D t : str) :
  take_day decimal s = Some (D, t) ->
  no_space D = true \/
  exists c, D = [32%N; c] /\ (49 <= c <= 57)%N.
Proof.
  unfold take_day, take_field. destruct s as [|a [|b u]]; try discriminate.
  destruct (N.eqb_spec b 45) as [->|_].
  - destruct (N.leb_spec 49 a); [|discriminate].
    destruct (N.leb_spec a 57); [|discriminate].
    intros [= <- <-]. left. cbn [forallb].
    now rewrite !ascii_digit_not_space by lia.
  - destruct u as [|c t']; [discriminate|].
    destruct (N.eqb_spec c 45) as [->|_]; [|discriminate].
    cbn [andb]. destruct (day_two decimal a b) eqn:E; [|discriminate].
    intros [= <- <-]. unfold day_two in E.
    rewrite !orb_true_iff, !andb_true_iff in E.
    rewrite ?N.eqb_eq, ?N.leb_le in E.
    destruct E as [[[(-> & Hb)|(Ha & Hb)]|(-> & Hb)]|(-> & Hb)].
    + left. cbn [forallb]. now rewrite !ascii_digit_not_space by lia.
    + left. cbn [forallb]. rewrite (isdecimal_not_space b Hb).
      now rewrite !ascii_digit_not_space by lia.
    + left. cbn [forallb]. now rewrite !ascii_digit_not_space by lia.
    + right. exists b. split; [reflexivity|lia].
Qed.

Lemma take_month_no_space (s M t : str) :
  take_month s = Some (M, t) -> no_space M = true.
Proof.
  unfold take_month, take_field. destruct s as [|a [|b u]]; try discriminate.
  destruct (N.eqb_spec b 45) as [->|_].
  - destruct (N.leb_spec 49 a); [|discriminate].
    destruct (N.leb_spec a 57); [|discriminate].
    intros [= <- <-]. cbn [forallb].
    now rewrite !ascii_digit_not_space by lia.
  - destruct u as [|c t']; [discriminate|].
    destruct (N.eqb_spec c 45) as [->|_]; [|discriminate].
    cbn [andb]. destruct (month_two a b) eqn:E; [|discriminate].
    intros [= <- <-]. unfold month_two in E.
    rewrite !orb_true_iff, !andb_true_iff in E.
    rewrite ?N.eqb_eq, ?N.leb_le in E.
    destruct E as [(-> & Hb)|(-> & Hb)]; cbn [forallb];
      now rewrite !ascii_digit_not_space by lia.
Qed.

Lemma digits_no_space (Y : str) :
  forallb (isdecimal decimal) Y = true -> no_space Y = true.
Proof.
  rewrite !forallb_forall. intros H c Hc.
  apply isdecimal_not_space, H, Hc.
Qed.

(** Trimming keeps the fields: only a space before a one-digit day can
    go. *)
Lemma date_fields_strip (s D M Y : str) :
  date_fields decimal s = Some (D, M, Y) ->
  date_fields decimal (strip s) = Some (strip D, M, Y)
  /\ no_space (strip s) = true
  /\ (s = strip s \/ s = 32%N :: strip s).
Proof.
  unfold date_fields.
  destruct (take_day decimal s) as [[D' t1]|] eqn:ED; [|discriminate].
  destruct (take_month t1) as [[M' t2]|] eqn:EM; [|discriminate].
  destruct (take_year decimal t2) as [[Y' t3]|] eqn:EY; [|discriminate].
  destruct t3; [|discriminate]. intros [= -> -> ->].
  pose proof (take_field_app _ _ _ _ ED) as Es.
  pose proof (take_field_app _ _ _ _ EM) as E1.
  pose proof (take_year_app _ _ _ EY) as (E2 & _ & HY).
  pose proof (take_month_no_space _ _ _ EM) as HM.
  apply digits_no_space in HY.
  assert (H1 : no_space (45%N :: t1) = true).
  { rewrite E1, E2, app_nil_r. cbn [forallb].
    rewrite forallb_app. cbn [forallb]. rewrite HM, HY. reflexivity. }
  destruct (take_day_cases _ _ _ ED) as [HD|(c & -> & Hc)].
  - assert (Hs : no_space s = true)
      by (rewrite Es, forallb_app, HD; exact H1).
    assert (S : strip s = s) by (apply GuiFacts.strip_no_space; exact Hs).
    split; [|split; [now rewrite S|left; now rewrite S]].
    rewrite S, ED, EM, EY. now rewrite (GuiFacts.strip_no_space D HD).
  - assert (Hs : no_space (c :: 45%N :: t1) = true).
    { cbn [forallb]. rewrite !ascii_digit_not_space by lia. exact H1. }
    assert (S : strip s = c :: 45%N :: t1).
    { rewrite Es. cbn [app].
      change (strip (32%N :: c :: 45%N :: t1)) with (strip (c :: 45%N :: t1)).
      apply GuiFacts.strip_no_space. exact Hs. }
    assert (SD : strip [32%N; c] = [c]).
    { change (strip [32%N; c]) with (strip [c]).
      apply GuiFacts.strip_no_space. cbn [forallb].
      now rewrite !ascii_digit_not_space by lia. }
    split; [|split; [now rewrite S|right; now rewrite S, Es]].
    rewrite S, SD. unfold take_day, take_field. cbn [N.eqb Pos.eqb].
    replace ((49 <=? c)%N) with true by (symmetry; apply N.leb_le; lia).
    replace ((c <=? 57)%N) with true by (symmetry; apply N.leb_le; lia).
    cbn [andb]. now rewrite EM, EY.
Qed.

(** A date string that [strptime] accepts is, trimmed, accepted as the
    same date. *)
Lemma strptime_strip (s : str) (d : date) :
  strptime_dmY decimal s = Return d ->
  strptime_dmY decimal (strip s) = Return d.
Proof.
  rewrite !strptime_fields.
  destruct (date_fields decimal s) as [[[D M] Y]|] eqn:E; [|discriminate].
  rewrite (proj1 (date_fields_strip _ _ _ _ E)).
  unfold int at 1 4. now rewrite SentimentExtras.strip_idempotent.
Qed.

Lemma take_field_length (two : N -> N -> bool) (s F t : str) :
  take_field two s = Some (F, t) -> (1 <= List.length F <= 2)%nat.
Proof.
  unfold take_field. destruct s as [|a [|b u]]; try discriminate.
  destruct (b =? 45)%N.
  - destruct ((49 <=? a)%N && (a <=? 57)%N); [|discriminate].
    intros [= <- <-]. cbn. lia.
  - destruct u as [|c t']; [discriminate|].
    destruct ((c =? 45)%N && two a b); [|discriminate].
    intros [= <- <-]. cbn. lia.
Qed.

(** An accepted date string has eight to ten characters, and no
    whitespace but for one space in front. *)
Lemma strptime_shape (s : str) (d : date) :
  strptime_dmY decimal s = Return d ->
  (8 <= List.length s <= 10)%nat
  /\ no_space (strip s) = true
  /\ (s = strip s \/ s = 32%N :: strip s).
Proof.
  rewrite strptime_fields.
  destruct (date_fields decimal s) as [[[D M] Y]|] eqn:E; [|discriminate].
  intros _. split; [|apply (proj2 (date_fields_strip _ _ _ _ E))].
  unfold date_fields in E.
  destruct (take_day decimal s) as [[D' t1]|] eqn:ED; [|discriminate].
  destruct (take_month t1) as [[M' t2]|] eqn:EM; [|discriminate].
  destruct (take_year decimal t2) as [[Y' t3]|] eqn:EY; [|discriminate].
  destruct t3; [|discriminate].
  pose proof (take_field_length _ _ _ _ ED).
  pose proof (take_field_length _ _ _ _ EM).
  apply take_field_app in ED, EM. apply take_year_app in EY as (EY & LY & _).
  subst s t1 t2.
  repeat (rewrite length_app; cbn [List.length]). lia.
Qed.

End Fields.
End FieldFacts.

(** ** What [on_add] stores *)

Module StoredFacts.
Import Py Regex Datetime Hotel Rules Unicode Gui.
Import PyFacts DateFacts ParseFacts ValidateFacts GuiFacts FieldFacts.

(** A form that [on_add] passes on has passed every rule. *)
Lemma on_add_accepted (decimal : N -> option N)
    (float_of_str : str -> option float) (today : date) (self : form)
    (args : booking_args) :
  on_add decimal float_of_str today self = Return (CallAddBooking args) ->
  exists din dout,
    strptime_dmY decimal (var_checkin self) = Return din
    /\ strptime_dmY decimal (var_checkout self) = Return dout
    /\ date_lt din today = false
    /\ 1 <= days_between dout din <= 30
    /\ room_ok (var_room self) = true
    /\ float_of_str (var_price self) = Some (arg_price args)
    /\ args = mkargs (strip (var_name self)) (strip (var_phone self))
                (var_room self) (strip (var_checkin self))
                (strip (var_checkout self)) (arg_price args).
Proof.
  intros H.
  destruct (on_add_cases decimal float_of_str today self)
    as [(msg & N & V & E)|(p & A & F & E)]; rewrite E in H.
  - discriminate.
  - injection H as <-. cbn [arg_price].
    unfold all_rules_pass, rules_1_to_5_pass in A.
    rewrite !andb_true_iff in A.
    destruct A as [[[[[_ _] Hr] _] _] A].
    destruct (strptime_dmY decimal (var_checkin self)) as [din|] eqn:Hi;
      [|discriminate].
    destruct (strptime_dmY decimal (var_checkout self)) as [dout|] eqn:Ho;
      [|discriminate].
    rewrite !andb_true_iff in A. destruct A as [[[Np No] Ns] _].
    pose proof (strptime_valid _ _ _ Hi) as Vi.
    pose proof (strptime_valid _ _ _ Ho) as Vo.
    unfold not_past_ok in Np. apply negb_true_iff in Np.
    unfold order_ok in No. rewrite (date_lt_toordinal _ _ Vi Vo) in No.
    apply Z.ltb_lt in No. unfold stay_ok in Ns. apply Z.leb_le in Ns.
    exists din, dout.
    split; [reflexivity|]. split; [reflexivity|]. split; [exact Np|].
    split; [unfold days_between in *; lia|].
    split; [exact Hr|]. split; [exact F|]. reflexivity.
Qed.

End StoredFacts.

Module DateShapeExtras.
Import Py Regex Datetime Hotel Rules Unicode.
Import PyFacts ParseFacts GuiFacts FieldFacts.

(** X17: a date string that [is_valid_date] accepts has eight to ten
    characters and no whitespace anywhere in it, but for one space in
    front of it (the pattern of [strptime] takes a space and one digit
    as a day): the trimmed string has no whitespace character at all,
    and the string is the trimmed string or a space followed by it;
    trimmed, it is accepted as well. *)
Theorem accepted_date_string (decimal : N -> option N) (s : str) :
  decimal_on_ascii decimal ->
  (forall c, isspace c = true -> decimal c = None) ->
  is_valid_date decimal s = Return true ->
  (8 <= List.length s <= 10)%nat
  /\ forallb (fun c => negb (isspace c)) (strip s) = true
  /\ (s = strip s \/ s = 32%N :: strip s)
  /\ is_valid_date decimal (strip s) = Return true.
Proof.
  intros D NS. rewrite !is_valid_date_parses. unfold parses.
  destruct (strptime_dmY decimal s) as [d|] eqn:E; [|discriminate].
  intros _.
  destruct (strptime_shape decimal D NS s d E) as (L & W & T).
  split; [exact L|]. split; [exact W|]. split; [exact T|].
  now rewrite (strptime_strip decimal D NS s d E).
Qed.

Lemma accepted_date_string_witness :
  (8 <= List.length (lit " 5-1-2030") <= 10)%nat
  /\ forallb (fun c => negb (isspace c)) (strip (lit " 5-1-2030")) = true
  /\ (lit " 5-1-2030" = strip (lit " 5-1-2030") \/
      lit " 5-1-2030" = 32%N :: strip (lit " 5-1-2030"))
  /\ is_valid_date ascii_decimal (strip (lit " 5-1-2030")) = Return true.
Proof.
  apply (accepted_date_string ascii_decimal (lit " 5-1-2030")).
  - intros c _. reflexivity.
  - exact ascii_decimal_not_space.
  - reflexivity.
Defined.

End DateShapeExtras.

Module StoredExtras.
Import Py Regex Datetime Hotel Rules Unicode Gui.
Import PyFacts DateFacts ParseFacts ValidateFacts GuiFacts FieldFacts.
Import NumeralFacts StoredFacts.

(** X18: the dates [on_add] passes to [add_booking_db] are trimmed
    strings that [strptime] reads as the dates the validator checked:
    a check-in date not before today and a check-out date 1 to 30
    nights later. *)
Theorem stored_dates_are_checked_dates (decimal : N -> option N)
    (float_of_str : str -> option float) (today : date) (self : form)
    (args : booking_args) :
  decimal_on_ascii decimal ->
  (forall c, isspace c = true -> decimal c = None) ->
  on_add decimal float_of_str today self = Return (CallAddBooking args) ->
  exists din dout,
    strptime_dmY decimal (arg_check_in args) = Return din
    /\ strptime_dmY decimal (arg_check_out args) = Return dout
    /\ strptime_dmY decimal (var_checkin self) = Return din
    /\ strptime_dmY decimal (var_checkout self) = Return dout
    /\ strip (arg_check_in args) = arg_check_in args
    /\ strip (arg_check_out args) = arg_check_out args
    /\ date_lt din today = false
    /\ 1 <= days_between dout din <= 30.
Proof.
  intros D NS H.
  destruct (on_add_accepted decimal float_of_str today self args H)
    as (din & dout & Hi & Ho & Np & Hd & _ & _ & ->).
  exists din, dout. cbn [arg_check_in arg_check_out].
  split; [now apply strptime_strip|]. split; [now apply strptime_strip|].
  split; [exact Hi|]. split; [exact Ho|].
  split; [apply SentimentExtras.strip_idempotent|].
  split; [apply SentimentExtras.strip_idempotent|].
  split; [exact Np|exact Hd].
Qed.

Lemma stored_dates_are_checked_dates_witness :
  exists din dout,
    strptime_dmY ascii_decimal (lit "5-1-2030") = Return din
    /\ strptime_dmY ascii_decimal (lit "08-01-2030") = Return dout
    /\ strptime_dmY ascii_decimal (lit " 5-1-2030") = Return din
    /\ strptime_dmY ascii_decimal (lit "08-01-2030") = Return dout
    /\ strip (lit "5-1-2030") = lit "5-1-2030"
    /\ strip (lit "08-01-2030") = lit "08-01-2030"
    /\ date_lt din (mkdate 2030 1 1) = false
    /\ 1 <= days_between dout din <= 30.
Proof.
  apply (stored_dates_are_checked_dates ascii_decimal numeral_float
           (mkdate 2030 1 1)
           (mkform [] (lit "Jane Doe") [] (lit "Luxury") (lit " 5-1-2030")
              (lit "08-01-2030") (lit "30000") [] [])
           (mkargs (lit "Jane Doe") [] (lit "Luxury") (lit "5-1-2030")
              (lit "08-01-2030") (FFin (inject_Z 30000)))).
  - intros c _. reflexivity.
  - exact ascii_decimal_not_space.
  - reflexivity.
Defined.

(** X19: when the price field was filled by [on_date_or_room_change]
    and [on_add] then passes the form on, the price given to
    [add_booking_db] is the number of nights between the stored dates
    times the rate of the stored room, between 2000 and 300000.  The
    hypothesis on [float] says that it reads the decimal numeral of a
    natural number below 2^53 as that number. *)
Theorem stored_price_is_catalog_price (decimal : N -> option N)
    (float_of_str : str -> option float) (today : date) (self self' : form)
    (args : booking_args) :
  decimal_on_ascii decimal ->
  (forall c, isspace c = true -> decimal c = None) ->
  (forall n, 0 <= n < 2 ^ 53 ->
             float_of_str (str_of_int n) = Some (FFin (inject_Z n))) ->
  on_date_or_room_change decimal self = Return self' ->
  on_add decimal float_of_str today self' = Return (CallAddBooking args) ->
  exists din dout,
    strptime_dmY decimal (arg_check_in args) = Return din
    /\ strptime_dmY decimal (arg_check_out args) = Return dout
    /\ arg_price args =
         FFin (inject_Z (days_between dout din *
                         catalog_rate (arg_room_type args)))
    /\ 2000 <= days_between dout din * catalog_rate (arg_room_type args)
         <= 300000.
Proof.
  intros D NS FL C H.
  destruct (on_add_accepted decimal float_of_str today self' args H)
    as (din & dout & Hi & Ho & _ & Hd & Hr & F & ->).
  cbn [arg_check_in arg_check_out arg_room_type arg_price] in *.
  pose proof (strptime_strip decimal D NS _ _ Hi) as Si.
  pose proof (strptime_strip decimal D NS _ _ Ho) as So.
  assert (R : catalog_rate (var_room self') = 2000 \/
              catalog_rate (var_room self') = 5000 \/
              catalog_rate (var_room self') = 10000).
  { revert Hr. unfold room_ok, str_in, ROOM_TYPES, catalog_rate, existsb.
    destruct (str_eqb (var_room self') (lit "Single")); [auto|].
    destruct (str_eqb (var_room self') (lit "Double")); [auto|].
    destruct (str_eqb (var_room self') (lit "Luxury")); [auto|discriminate]. }
  assert (B : 2000 <= days_between dout din * catalog_rate (var_room self')
              <= 300000) by nia.
  exists din, dout.
  split; [exact Si|]. split; [exact So|]. split; [|exact B].
  (* the price field of [self'] is the numeral of the computed price *)
  unfold on_date_or_room_change, compute_current_price in C.
  rewrite PriceClaims.calculate_price_eq in C.
  assert (E : self' = set_var_price self
                (str_of_int (days_between dout din *
                             catalog_rate (var_room self')))).
  { destruct (strptime_dmY decimal (strip (var_checkin self))) as [a|] eqn:Ea;
      destruct (strptime_dmY decimal (strip (var_checkout self))) as [b|] eqn:Eb;
      try destruct (days_between b a <=? 0) eqn:Ed;
      cbn [bind] in C; injection C as <-;
      cbn [set_var_price var_checkin var_checkout var_room] in *;
      try congruence.
    rewrite Ea in Si; rewrite Eb in So.
    injection Si as ->; injection So as ->.
    apply Z.leb_le in Ed. lia. }
  rewrite E in F. cbn [set_var_price var_price] in F.
  rewrite FL in F by lia. now injection F as <-.
Qed.

Lemma stored_price_is_catalog_price_witness :
  exists din dout,
    strptime_dmY ascii_decimal (lit "5-1-2030") = Return din
    /\ strptime_dmY ascii_decimal (lit "08-01-2030") = Return dout
    /\ FFin (inject_Z 30000) =
         FFin (inject_Z (days_between dout din * catalog_rate (lit "Luxury")))
    /\ 2000 <= days_between dout din * catalog_rate (lit "Luxury") <= 300000.
Proof.
  apply (stored_price_is_catalog_price ascii_decimal numeral_float
           (mkdate 2030 1 1)
           (mkform [] (lit "Jane Doe") [] (lit "Luxury") (lit " 5-1-2030")
              (lit "08-01-2030") [] [] [])
           (mkform [] (lit "Jane Doe") [] (lit "Luxury") (lit " 5-1-2030")
              (lit "08-01-2030") (lit "30000") [] [])
           (mkargs (lit "Jane Doe") [] (lit "Luxury") (lit "5-1-2030")
              (lit "08-01-2030") (FFin (inject_Z 30000)))).
  - intros c _. reflexivity.
  - exact ascii_decimal_not_space.
  - intros n Hn. unfold numeral_float.
    rewrite (int_str_of_int ascii_decimal) by (try lia; intros c _; reflexivity).
    reflexivity.
  - reflexivity.
  - reflexivity.
Defined.

End StoredExtras.

(** ** Clearing the form, updating a booking *)

Module HandlerFacts.
Import Py Regex Datetime Hotel Rules Unicode Gui Handlers.
Import PyFacts DateFacts ParseFacts ValidateFacts RoundTrip GuiFacts.

(** The next day has the next ordinal. *)
Lemma next_day_ordinal (d : date) :
  valid_date d -> toordinal (next_day d) = toordinal d + 1.
Proof.
  intros (_ & Hm & Hd). unfold next_day, toordinal.
  destruct (Z.ltb_spec (day d) (days_in_month (year d) (month d))) as [L|L].
  - cbn [year month day]. lia.
  - assert (E : day d = days_in_month (year d) (month d)) by lia.
    pose proof (days_before_month_next (year d) (month d) Hm) as N.
    destruct (Z.ltb_spec (month d) 12) as [M|M]; cbn [year month day].
    + replace (month d =? 12) with false in N
        by (symmetry; apply Z.eqb_neq; lia).
      lia.
    + replace (month d =? 12) with true in N
        by (symmetry; apply Z.eqb_eq; lia).
      rewrite days_before_year_succ.
      change (days_before_month (year d + 1) 1) with 0. lia.
Qed.

Lemma next_day_valid (d : date) :
  valid_date d -> year d < MAXYEAR -> valid_date (next_day d).
Proof.
  intros (Hy & Hm & Hd) Y. unfold next_day, valid_date, MINYEAR, MAXYEAR in *.
  destruct (Z.ltb_spec (day d) (days_in_month (year d) (month d))) as [L|L].
  - cbn [year month day]. lia.
  - destruct (Z.ltb_spec (month d) 12) as [M|M]; cbn [year month day].
    + split; [lia|]. split; [lia|]. split; [lia|].
      assert (Hm' : 1 <= month d + 1 <= 12) by lia.
      unfold days_in_month. each_month Hm'; rewrite Hm';
        destruct (is_leap (year d)); vm_compute; discriminate.
    + split; [lia|]. split; [lia|]. split; [lia|].
      vm_compute. discriminate.
Qed.

Section Clear.

Variable decimal : N -> option N.
Hypothesis decimal_ascii : decimal_on_ascii decimal.

(** The form [clear_form] leaves. *)
Lemma clear_form_eq (now1 now2 : date) (self : form) :
  valid_date now1 -> valid_date now2 -> year now2 < MAXYEAR ->
  toordinal now1 <= toordinal now2 ->
  clear_form decimal now1 now2 self =
  Return (mkform (lit "") (lit "") (lit "") (lit "Single")
            (strftime_dmY now1) (strftime_dmY (next_day now2))
            (str_of_int ((days_between now2 now1 + 1) * 2000))
            (var_search self) (lit "Form cleared.")).
Proof.
  intros V1 V2 Y L.
  pose proof (next_day_valid now2 V2 Y) as V3.
  pose proof (next_day_ordinal now2 V2) as O.
  unfold clear_form, plus_one_day.
  replace (year (next_day now2) >? MAXYEAR) with false
    by (symmetry; rewrite Z.gtb_ltb; apply Z.ltb_ge; apply V3).
  cbn [bind]. unfold on_date_or_room_change, compute_current_price.
  cbn [var_checkin var_checkout var_room].
  rewrite !strip_date_literal, PriceClaims.calculate_price_eq.
  rewrite !(strptime_strftime decimal decimal_ascii) by assumption.
  unfold days_between. rewrite O.
  replace (toordinal now2 + 1 - toordinal now1 <=? 0) with false
    by (symmetry; apply Z.leb_gt; lia).
  cbn [bind]. f_equal.
  unfold set_var_status, set_var_price.
  cbn [var_id var_name var_phone var_room var_checkin var_checkout
       var_price var_search var_status].
  change (hd [] ROOM_TYPES) with (lit "Single").
  change (catalog_rate (lit "Single")) with 2000.
  now replace (toordinal now2 + 1 - toordinal now1)
    with (toordinal now2 - toordinal now1 + 1) by lia.
Qed.

End Clear.

End HandlerFacts.

Module ClearFormExtras.
Import Py Regex Datetime Hotel Rules Unicode Gui Handlers.
Import PyFacts DateFacts ParseFacts ValidateFacts RoundTrip GuiFacts.
Import HandlerFacts.

(** X20: [clear_form] empties the id, name and phone fields, selects
    the room ["Single"], puts the date literals of today and of the
    day after the second reading of the clock into the date fields,
    and fills the price field with the price of that stay at the
    rate of 2000: ["2000"] when both readings fall on the same day;
    the search field is kept.  The clock is read twice, and a reading
    after midnight makes the default stay one night longer. *)
Theorem cleared_form (decimal : N -> option N) (now1 now2 : date)
    (self : form) :
  decimal_on_ascii decimal ->
  valid_date now1 -> valid_date now2 ->
  1000 <= year now1 -> year now2 < MAXYEAR ->
  toordinal now1 <= toordinal now2 ->
  clear_form decimal now1 now2 self =
    Return (mkform (lit "") (lit "") (lit "") (lit "Single")
              (strftime_dmY now1) (strftime_dmY (next_day now2))
              (str_of_int ((days_between now2 now1 + 1) * 2000))
              (var_search self) (lit "Form cleared."))
  /\ toordinal (next_day now2) = toordinal now2 + 1
  /\ (now1 = now2 ->
      str_of_int ((days_between now2 now1 + 1) * 2000) = lit "2000").
Proof.
  intros D V1 V2 _ Y L.
  split; [now apply clear_form_eq|].
  split; [now apply next_day_ordinal|].
  intros <-. unfold days_between.
  now replace (toordinal now1 - toordinal now1 + 1) with 1 by lia.
Qed.

Lemma cleared_form_witness :
  clear_form ascii_decimal (mkdate 2030 12 31) (mkdate 2030 12 31)
    (mkform (lit "7") (lit "Jane Doe") [] (lit "Luxury") (lit "05-01-2030")
       (lit "08-01-2030") (lit "30000") (lit "Jane") (lit "Ready")) =
    Return (mkform [] [] [] (lit "Single") (lit "31-12-2030")
              (lit "01-01-2031") (lit "2000") (lit "Jane")
              (lit "Form cleared.")).
Proof.
  destruct (cleared_form ascii_decimal (mkdate 2030 12 31) (mkdate 2030 12 31)
              (mkform (lit "7") (lit "Jane Doe") [] (lit "Luxury")
                 (lit "05-01-2030") (lit "08-01-2030") (lit "30000")
                 (lit "Jane") (lit "Ready")))
    as (E & _ & _).
  - intros c _. reflexivity.
  - vm_compute. intuition discriminate.
  - vm_compute. intuition discriminate.
  - vm_compute. discriminate.
  - reflexivity.
  - vm_compute. discriminate.
  - exact E.
Defined.

(** X21: [on_add] on a form just cleared shows exactly "Customer name
    is required.", whatever the day of the validation is: the default
    phone, room and dates pass their rules, and the rules on the dates
    and the price are not reached without a name. *)
Theorem cleared_form_needs_a_name (decimal : N -> option N)
    (float_of_str : str -> option float) (now1 now2 today : date)
    (self self' : form) :
  decimal_on_ascii decimal ->
  valid_date now1 -> valid_date now2 ->
  1000 <= year now1 -> year now2 < MAXYEAR ->
  toordinal now1 <= toordinal now2 ->
  clear_form decimal now1 now2 self = Return self' ->
  on_add decimal float_of_str today self' = Return (InvalidInput msg_name).
Proof.
  intros D V1 V2 _ Y L C.
  rewrite (clear_form_eq decimal D now1 now2 self V1 V2 Y L) in C.
  injection C as <-.
  pose proof (next_day_valid now2 V2 Y) as V3.
  unfold on_add.
  cbn [var_name var_phone var_room var_checkin var_checkout var_price].
  rewrite validate_phase1.
  - unfold phase1_messages, check_in_ok, check_out_ok, parses.
    rewrite !(strptime_strftime decimal D) by assumption.
    reflexivity.
  - unfold phase1_messages, check_in_ok, check_out_ok, parses.
    rewrite !(strptime_strftime decimal D) by assumption.
    discriminate.
Qed.

Lemma cleared_form_needs_a_name_witness :
  on_add ascii_decimal numeral_float (mkdate 2031 6 1)
    (mkform [] [] [] (lit "Single") (lit "31-12-2030") (lit "01-01-2031")
       (lit "2000") (lit "Jane") (lit "Form cleared.")) =
    Return (InvalidInput msg_name).
Proof.
  apply (cleared_form_needs_a_name ascii_decimal numeral_float
           (mkdate 2030 12 31) (mkdate 2030 12 31) (mkdate 2031 6 1)
           (mkform (lit "7") (lit "Jane Doe") [] (lit "Luxury")
              (lit "05-01-2030") (lit "08-01-2030") (lit "30000")
              (lit "Jane") (lit "Ready"))).
  - intros c _. reflexivity.
  - vm_compute. intuition discriminate.
  - vm_compute. intuition discriminate.
  - vm_compute. discriminate.
  - reflexivity.
  - vm_compute. discriminate.
  - reflexivity.
Defined.

(** X22: a cleared form with a name typed in is a booking [on_add]
    passes on when it is validated on the day it was cleared: one
    night from today in a single room for 2000. *)
Theorem cleared_form_with_name_accepted (decimal : N -> option N)
    (float_of_str : str -> option float) (now : date)
    (self self' : form) (name : str) :
  decimal_on_ascii decimal ->
  valid_date now -> 1000 <= year now -> year now < MAXYEAR ->
  float_of_str (lit "2000") = Some (FFin (inject_Z 2000)) ->
  strip name <> [] ->
  clear_form decimal now now self = Return self' ->
  on_add decimal float_of_str now
    (mkform (var_id self') name (var_phone self') (var_room self')
       (var_checkin self') (var_checkout self') (var_price self')
       (var_search self') (var_status self')) =
    Return (CallAddBooking
              (mkargs (strip name) (lit "") (lit "Single")
                 (strftime_dmY now) (strftime_dmY (next_day now))
                 (FFin (inject_Z 2000)))).
Proof.
  intros D V _ Y F Hn C.
  rewrite (clear_form_eq decimal D now now self V V Y (Z.le_refl _)) in C.
  injection C as <-.
  cbn [var_id var_phone var_room var_checkin var_checkout var_price
       var_search var_status].
  unfold days_between.
  replace (toordinal now - toordinal now + 1) with 1 by lia.
  change (str_of_int (1 * 2000)) with (lit "2000").
  pose proof (next_day_valid now V Y) as V3.
  pose proof (next_day_ordinal now V) as O.
  pose proof (strptime_strftime decimal D now V) as Hi.
  pose proof (strptime_strftime decimal D (next_day now) V3) as Ho.
  unfold on_add.
  cbn [var_name var_phone var_room var_checkin var_checkout var_price].
  assert (P1 : phase1_messages decimal name (lit "") (lit "Single")
                 (strftime_dmY now) (strftime_dmY (next_day now)) = []).
  { unfold phase1_messages, name_ok, check_in_ok, check_out_ok, parses.
    rewrite Hi, Ho. destruct (strip name); [now destruct Hn|reflexivity]. }
  rewrite (validate_phase2 decimal float_of_str now name _ _ _ _ _ _ _
             P1 Hi Ho).
  assert (P2 : phase2_messages float_of_str now now (next_day now)
                 (lit "2000") = []).
  { apply phase2_nil. unfold not_past_ok, order_ok, stay_ok, price_ok.
    rewrite F. unfold date_lt at 1. rewrite date_cmp_refl.
    rewrite (date_lt_toordinal _ _ V V3).
    unfold days_between. rewrite O.
    replace (toordinal now <? toordinal now + 1) with true
      by (symmetry; apply Z.ltb_lt; lia).
    replace (toordinal now + 1 - toordinal now <=? 30) with true
      by (symmetry; apply Z.leb_le; lia).
    repeat split. }
  rewrite P2. cbn [bind negb]. unfold float_. rewrite F.
  rewrite !strip_date_literal. reflexivity.
Qed.

Lemma cleared_form_with_name_accepted_witness :
  on_add ascii_decimal numeral_float (mkdate 2030 12 31)
    (mkform [] (lit " Jane Doe ") [] (lit "Single") (lit "31-12-2030")
       (lit "01-01-2031") (lit "2000") (lit "Jane") (lit "Form cleared.")) =
    Return (CallAddBooking
              (mkargs (lit "Jane Doe") [] (lit "Single") (lit "31-12-2030")
                 (lit "01-01-2031") (FFin (inject_Z 2000)))).
Proof.
  apply (cleared_form_with_name_accepted ascii_decimal numeral_float
           (mkdate 2030 12 31)
           (mkform (lit "7") (lit "Jane Doe") [] (lit "Luxury")
              (lit "05-01-2030") (lit "08-01-2030") (lit "30000")
              (lit "Jane") (lit "Ready"))
           (mkform [] [] [] (lit "Single") (lit "31-12-2030")
              (lit "01-01-2031") (lit "2000") (lit "Jane")
              (lit "Form cleared."))
           (lit " Jane Doe ")).
  - intros c _. reflexivity.
  - vm_compute. intuition discriminate.
  - vm_compute. discriminate.
  - reflexivity.
  - reflexivity.
  - discriminate.
  - reflexivity.
Defined.

End ClearFormExtras.

Module UpdateExtras.
Import Py Regex Datetime Hotel Rules Unicode Gui Handlers.
Import PyFacts DateFacts ParseFacts ValidateFacts RoundTrip GuiFacts.

(** X23: a booking whose check-in date has passed cannot be updated:
    with a row selected and rules 1 to 5 passing, [on_update] shows an
    error that includes "Check-in date cannot be in the past." and
    does not call [update_booking_db], whatever else the form holds;
    without a selection it only warns. *)
Theorem started_booking_cannot_be_updated (decimal : N -> option N)
    (float_of_str : str -> option float) (int_of_str : str -> option Z)
    (today : date) (self : form) (din dout : date) :
  rules_1_to_5_pass decimal (var_name self) (var_phone self) (var_room self)
    (var_checkin self) (var_checkout self) = true ->
  strptime_dmY decimal (var_checkin self) = Return din ->
  strptime_dmY decimal (var_checkout self) = Return dout ->
  date_lt din today = true ->
  (var_id self = [] ->
   on_update decimal float_of_str int_of_str today self = Return NoSelection)
  /\ (var_id self <> [] ->
      exists msg,
        on_update decimal float_of_str int_of_str today self =
          Return (UpdateInvalidInput msg)
        /\ includes msg msg_past = true).
Proof.
  intros R Hi Ho P. split.
  - intros E. unfold on_update. now rewrite E.
  - intros N. unfold on_update.
    destruct (var_id self) as [|c t]; [now destruct N|]. cbn [truthy negb].
    assert (P1 : phase1_messages decimal (var_name self) (var_phone self)
                   (var_room self) (var_checkin self) (var_checkout self)
                 = [])
      by (apply (phase1_passes decimal float_of_str); exact R).
    assert (M : In msg_past
                  (phase2_messages float_of_str today din dout
                     (var_price self))).
    { unfold phase2_messages, not_past_ok. rewrite P. cbn [negb app].
      now left. }
    destruct (ValidatorClaims.validate_phase2_rejects decimal float_of_str
                today _ _ _ _ _ (var_price self) din dout msg_past
                P1 Hi Ho M) as [E I].
    rewrite E. cbn [bind negb]. eexists. split; [reflexivity|exact I].
Qed.

Lemma started_booking_cannot_be_updated_witness :
  exists msg,
    on_update ascii_decimal numeral_float (fun _ => Some 7)
      (mkdate 2030 1 6)
      (mkform (lit "7") (lit "Jane Doe") (lit "1234567890") (lit "Luxury")
         (lit "05-01-2030") (lit "08-01-2030") (lit "30000") [] []) =
      Return (UpdateInvalidInput msg)
    /\ includes msg msg_past = true.
Proof.
  apply (started_booking_cannot_be_updated ascii_decimal numeral_float
           (fun _ => Some 7) (mkdate 2030 1 6)
           (mkform (lit "7") (lit "Jane Doe") (lit "1234567890")
              (lit "Luxury") (lit "05-01-2030") (lit "08-01-2030")
              (lit "30000") [] [])
           (mkdate 2030 1 5) (mkdate 2030 1 8)).
  - reflexivity.
  - reflexivity.
  - reflexivity.
  - reflexivity.
  - discriminate.
Defined.

End UpdateExtras.
